(** * Minnesota prospect research tool: the scoring and extraction pipeline

    A shallow embedding of [minnesota_prospect_research.py] and the
    properties of its financial extractor, its two scorers and its
    orchestrator.

    Conventions of the embedding.
    - Values decoded from JSON ([response.json()]) are terms of [json]:
      Python dictionaries are association lists in insertion order (the
      order is observable through [.values()]), integers are [Z].
      Non-integer JSON numbers are outside the model.
    - Python [str] is [string], a sequence of bytes (UTF-8).  Comparison of
      byte strings coincides with Python's code-point comparison.
    - A Python exception is a value [Raise e] of the [result] monad; a
      [try .. except Exception] block is a [match] on it.
    - [score] is the exact quotient in [Q]; Python's [/] returns the double
      nearest to it.  The thresholds 30, 15 and 5 are doubles and the
      numerators are integers, so every comparison against a threshold
      has the same outcome on the exact quotient.
    - The text of the rationale lines goes through binary64
      ([SpecFloat], precision 53, [emax] 1024), because [:.1f] rounds the
      double and not the exact quotient.
    - Console output and [time.sleep] have no counterpart. *)

From Stdlib Require Import ZArith QArith Lia Lqa Bool List Ascii String.
From Stdlib Require Import Permutation Sorted SpecFloat DecimalString.
Import ListNotations.

Set Implicit Arguments.

Local Open Scope string_scope.
Local Open Scope Z_scope.

(* ===================================================================== *)
(** ** Exceptions and the result monad *)

Inductive py_exn : Type :=
| TypeError
| AttributeError
| KeyError
| IndexError
| OverflowError
| ConnectionError      (* requests.get raised *)
| HTTPError            (* raise_for_status *)
| JSONDecodeError.     (* response.json() *)

Inductive result (A : Type) : Type :=
| Ok (a : A)
| Raise (e : py_exn).

Arguments Ok {A} a.
Arguments Raise {A} e.

Definition bind {A B : Type} (c : result A) (k : A -> result B) : result B :=
  match c with
  | Ok a => k a
  | Raise e => Raise e
  end.

Notation "x <- c ;; k" := (bind c (fun x => k))
  (at level 61, c at next level, right associativity).
Notation "'ret' a" := (Ok a) (at level 10, a at level 9).

(** [[f(x) for x in xs]] with a body that can raise: the first exception,
    in iteration order, ends the comprehension. *)
Fixpoint mapM {A B : Type} (f : A -> result B) (xs : list A) : result (list B) :=
  match xs with
  | [] => ret []
  | x :: xs' => y <- f x ;; ys <- mapM f xs' ;; ret (y :: ys)
  end.

(** [[x for x in xs if p(x)]]. *)
Fixpoint filterM {A : Type} (p : A -> result bool) (xs : list A) : result (list A) :=
  match xs with
  | [] => ret []
  | x :: xs' =>
      b <- p x ;; ys <- filterM p xs' ;; ret (if b then x :: ys else ys)
  end.

(* ===================================================================== *)
(** ** Byte strings *)

Definition is_upper (c : ascii) : bool :=
  (65 <=? Z.of_N (N_of_ascii c)) && (Z.of_N (N_of_ascii c) <=? 90).

Definition is_lower (c : ascii) : bool :=
  (97 <=? Z.of_N (N_of_ascii c)) && (Z.of_N (N_of_ascii c) <=? 122).

Definition lower_char (c : ascii) : ascii :=
  if is_upper c then ascii_of_N (N_of_ascii c + 32) else c.

Definition upper_char (c : ascii) : ascii :=
  if is_lower c then ascii_of_N (N_of_ascii c - 32) else c.

Fixpoint map_string (f : ascii -> ascii) (s : string) : string :=
  match s with
  | EmptyString => EmptyString
  | String c s' => String (f c) (map_string f s')
  end.

(** [s.lower()] and [s.upper()] on the ASCII letters.  Python also maps
    non-ASCII letters; of those only U+212A (to [k]) and U+0130 (to [i]
    followed by a combining mark) produce an ASCII letter when lowered,
    and no keyword of [assess_mission_alignment] contains [k] or ends in
    [i], so the keyword tests below are unaffected. *)
Definition lower (s : string) : string := map_string lower_char s.
Definition upper (s : string) : string := map_string upper_char s.

(** [t in s] on strings: [t] occurs in [s] as a contiguous substring. *)
Fixpoint str_in (t s : string) : bool :=
  prefix t s ||
  match s with
  | EmptyString => false
  | String _ s' => str_in t s'
  end.

(** ASCII white space, as [str.split()] sees it. *)
Definition is_space (c : ascii) : bool :=
  let n := Z.of_N (N_of_ascii c) in
  ((9 <=? n) && (n <=? 13)) || ((28 <=? n) && (n <=? 32)).

Fixpoint skip_spaces (s : string) : string :=
  match s with
  | String c s' => if is_space c then skip_spaces s' else s
  | EmptyString => EmptyString
  end.

Fixpoint take_word (s : string) : string :=
  match s with
  | String c s' => if is_space c then EmptyString else String c (take_word s')
  | EmptyString => EmptyString
  end.

(** [s.split()[0]]: the first white-space delimited word; [IndexError] when
    [s] has none. *)
Definition first_word (s : string) : result string :=
  match skip_spaces s with
  | EmptyString => Raise IndexError
  | w => ret (take_word w)
  end.

Fixpoint zeros (n : nat) : string :=
  match n with
  | O => EmptyString
  | S n' => String "0" (zeros n')
  end.

(** [s.zfill(width)]: zeros go after a leading sign.  The width counts
    bytes, which are the characters of an ASCII string. *)
Definition zfill (width : nat) (s : string) : string :=
  let pad := zeros (width - String.length s) in
  match s with
  | String c s' =>
      if (Ascii.eqb c "+" || Ascii.eqb c "-")%bool
      then String c (pad ++ s') else pad ++ s
  | EmptyString => pad
  end.

(* ===================================================================== *)
(** ** Decoded JSON and the Python operations used on it *)

#[warnings="-register-all"]
Inductive json : Type :=
| JNull
| JBool (b : bool)
| JInt (z : Z)
| JStr (s : string)
| JList (l : list json)
| JDict (d : list (string * json)).

Fixpoint lookup {A : Type} (k : string) (d : list (string * A)) : option A :=
  match d with
  | [] => None
  | (k', v) :: d' => if String.eqb k k' then Some v else lookup k d'
  end.

(** [bool(x)]. *)
Definition truthy (x : json) : bool :=
  match x with
  | JNull => false
  | JBool b => b
  | JInt z => negb (z =? 0)
  | JStr s => negb (String.eqb s "")
  | JList l => match l with [] => false | _ => true end
  | JDict d => match d with [] => false | _ => true end
  end.

(** [a or b], both operands already evaluated. *)
Definition py_or (a b : json) : json := if truthy a then a else b.

(** [bool] is a subclass of [int]. *)
Definition as_int (x : json) : option Z :=
  match x with
  | JInt z => Some z
  | JBool b => Some (if b then 1 else 0)
  | _ => None
  end.

(** [a == b]; never raises.  Dictionaries compare by content, not order. *)
Fixpoint py_eq (a b : json) {struct a} : bool :=
  match a, b with
  | JNull, JNull => true
  | JStr s, JStr t => String.eqb s t
  | JList l, JList l' =>
      (fix eq_items (l l' : list json) {struct l} : bool :=
         match l, l' with
         | [], [] => true
         | x :: r, y :: r' => py_eq x y && eq_items r r'
         | _, _ => false
         end) l l'
  | JDict d, JDict d' =>
      (List.length d =? List.length d')%nat &&
      (fix sub (d : list (string * json)) {struct d} : bool :=
         match d with
         | [] => true
         | (k, v) :: r =>
             match lookup k d' with
             | Some v' => py_eq v v'
             | None => false
             end && sub r
         end) d
  | (JInt _ | JBool _), (JInt _ | JBool _) =>
      match as_int a, as_int b with
      | Some x, Some y => x =? y
      | _, _ => false
      end
  | _, _ => false
  end.

(** [a > b]: numbers with numbers, strings with strings, lists item by
    item; anything else is a [TypeError]. *)
Fixpoint py_gt (a b : json) {struct a} : result bool :=
  match a, b with
  | JStr s, JStr t => ret (String.ltb t s)
  | JList l, JList l' =>
      (fix gt_items (l l' : list json) {struct l} : result bool :=
         match l, l' with
         | x :: r, y :: r' => if py_eq x y then gt_items r r' else py_gt x y
         | _ :: _, [] => ret true
         | [], _ => ret false
         end) l l'
  | (JInt _ | JBool _), (JInt _ | JBool _) =>
      match as_int a, as_int b with
      | Some x, Some y => ret (y <? x)
      | _, _ => Raise TypeError
      end
  | _, _ => Raise TypeError
  end.

(** [x.get(k, dflt)]. *)
Definition py_get (x : json) (k : string) (dflt : json) : result json :=
  match x with
  | JDict d => ret (match lookup k d with Some v => v | None => dflt end)
  | _ => Raise AttributeError
  end.

(** [x[k]] for a string [k]. *)
Definition py_getitem (x : json) (k : string) : result json :=
  match x with
  | JDict d => match lookup k d with Some v => ret v | None => Raise KeyError end
  | _ => Raise TypeError
  end.

(** [k in x] for a string [k]. *)
Definition py_in (k : string) (x : json) : result bool :=
  match x with
  | JDict d => ret (match lookup k d with Some _ => true | None => false end)
  | JList l => ret (existsb (fun y => py_eq y (JStr k)) l)
  | JStr s => ret (str_in k s)
  | _ => Raise TypeError
  end.

Fixpoint chars (s : string) : list json :=
  match s with
  | EmptyString => []
  | String c s' => JStr (String c EmptyString) :: chars s'
  end.

(** The items [for v in x] visits. *)
Definition py_iter (x : json) : result (list json) :=
  match x with
  | JList l => ret l
  | JDict d => ret (map (fun kv => JStr (fst kv)) d)
  | JStr s => ret (chars s)
  | _ => Raise TypeError
  end.

(** [x.values()]. *)
Definition py_values (x : json) : result (list json) :=
  match x with
  | JDict d => ret (map snd d)
  | _ => Raise AttributeError
  end.

(** [x[:n]]. *)
Definition py_take (n : nat) (x : json) : result json :=
  match x with
  | JList l => ret (JList (firstn n l))
  | JStr s => ret (JStr (substring 0 n s))
  | _ => Raise TypeError
  end.

(** [x.upper()], [x.lower()]. *)
Definition py_upper (x : json) : result string :=
  match x with
  | JStr s => ret (upper s)
  | _ => Raise AttributeError
  end.

Definition py_lower (x : json) : result string :=
  match x with
  | JStr s => ret (lower s)
  | _ => Raise AttributeError
  end.

(** [a + b]. *)
Definition py_add (a b : json) : result json :=
  match a, b with
  | JStr s, JStr t => ret (JStr (s ++ t))
  | JList l, JList l' => ret (JList (l ++ l')%list)
  | _, _ =>
      match as_int a, as_int b with
      | Some x, Some y => ret (JInt (x + y))
      | _, _ => Raise TypeError
      end
  end.

(** [max(first :: rest, key=key)]: keys are computed once, in order, and a
    later item replaces the running maximum only when its key is strictly
    greater, so the first of several maximal items is returned. *)
Fixpoint max_loop (key : json -> result json) (best best_key : json)
         (rest : list json) : result json :=
  match rest with
  | [] => ret best
  | x :: rest' =>
      k <- key x ;;
      g <- py_gt k best_key ;;
      if g then max_loop key x k rest' else max_loop key best best_key rest'
  end.

Definition py_max (key : json -> result json) (first : json)
           (rest : list json) : result json :=
  k <- key first ;; max_loop key first k rest.

(* ===================================================================== *)
(** ** FinancialExtractor: [get_company_financials] *)

(** [us_gaap[concept].get("units", {}).get("USD", [])] *)
Definition usd_values_of (us_gaap : json) (concept : string) : result json :=
  node <- py_getitem us_gaap concept ;;
  units <- py_get node "units" (JDict []) ;;
  py_get units "USD" (JList []).

(** [[v for v in usd_values if v.get("form") == "10-K"]] *)
Definition annual_of (usd_values : json) : result (list json) :=
  vs <- py_iter usd_values ;;
  filterM (fun v => f <- py_get v "form" JNull ;; ret (py_eq f (JStr "10-K"))) vs.

(** [lambda x: x.get("end", "")] *)
Definition end_key (x : json) : result json := py_get x "end" (JStr "").

(** The tail of [get_latest], from [if annual:] on. *)
Definition latest_of (annual : list json) : result json :=
  match annual with
  | first :: rest =>
      latest <- py_max end_key first rest ;;
      value <- py_get latest "val" JNull ;;
      period_end <- py_get latest "end" JNull ;;
      ret (JDict [("value", value); ("period_end", period_end)])
  | [] => ret JNull
  end.

(** The closure [get_latest] of [get_company_financials]; [None] is
    [JNull]. *)
Definition get_latest (us_gaap : json) (concept : string) : result json :=
  present <- py_in concept us_gaap ;;
  if negb present then ret JNull
  else
    usd_values <- usd_values_of us_gaap concept ;;
    annual <- annual_of usd_values ;;
    latest_of annual.

(** [get_latest(a) or get_latest(b)]: the right operand is evaluated only
    when the left one is falsy. *)
Definition latest_or (us_gaap : json) (a b : string) : result json :=
  x <- get_latest us_gaap a ;;
  if truthy x then ret x else get_latest us_gaap b.

(** The dictionary literal returned by [get_company_financials]; entries
    are evaluated top to bottom. *)
Definition snapshot_of (us_gaap : json) : result json :=
  revenue <- latest_or us_gaap "Revenues"
               "RevenueFromContractWithCustomerExcludingAssessedTax" ;;
  net_income <- get_latest us_gaap "NetIncomeLoss" ;;
  total_assets <- get_latest us_gaap "Assets" ;;
  cash_and_equivalents <- get_latest us_gaap "CashAndCashEquivalentsAtCarryingValue" ;;
  stockholders_equity <- get_latest us_gaap "StockholdersEquity" ;;
  ret (JDict [("revenue", revenue);
              ("net_income", net_income);
              ("total_assets", total_assets);
              ("cash_and_equivalents", cash_and_equivalents);
              ("stockholders_equity", stockholders_equity)]).

(** [facts.get("facts", {}).get("us-gaap", {})] followed by the literal. *)
Definition extract_financials (facts : json) : result json :=
  all <- py_get facts "facts" (JDict []) ;;
  us_gaap <- py_get all "us-gaap" (JDict []) ;;
  snapshot_of us_gaap.

(* ===================================================================== *)
(** ** Doubles and the [:.1f] format *)

Definition dprec : Z := 53.
Definition demax : Z := 1024.

(** [float(z)]: round to nearest, ties to even; too large an integer is an
    [OverflowError]. *)
Definition float_of_int (z : Z) : result spec_float :=
  match binary_normalize dprec demax z 0 false with
  | S754_infinity _ => Raise OverflowError
  | f => ret f
  end.

(** The literal [1e9]. *)
Definition f_1e9 : spec_float :=
  binary_normalize dprec demax 1000000000 0 false.

(** [x / 1e9]: the integer operand is converted, then divided. *)
Definition py_div_1e9 (x : json) : result spec_float :=
  match as_int x with
  | Some z => f <- float_of_int z ;; ret (SFdiv dprec demax f f_1e9)
  | None => Raise TypeError
  end.

(** [num / den] to the nearest integer, ties to even ([0 <= num], [0 < den]). *)
Definition round_half_even (num den : Z) : Z :=
  let q := num / den in
  match (2 * (num mod den) ?= den) with
  | Lt => q
  | Gt => q + 1
  | Eq => if Z.even q then q else q + 1
  end.

(** The magnitude of a double in tenths, correctly rounded. *)
Definition tenths (f : spec_float) : Z :=
  match f with
  | S754_finite _ m e =>
      if 0 <=? e then Zpos m * 2 ^ e * 10
      else round_half_even (Zpos m * 10) (2 ^ (- e))
  | _ => 0
  end.

Definition decimal (n : Z) : string :=
  NilZero.string_of_uint (N.to_uint (Z.to_N n)).

Definition sign_text (s : bool) : string := if s then "-" else "".

(** [format(f, ".1f")]. *)
Definition format_1f (f : spec_float) : string :=
  match f with
  | S754_nan => "nan"
  | S754_infinity s => sign_text s ++ "inf"
  | S754_zero s | S754_finite s _ _ =>
      let n := tenths f in
      sign_text s ++ decimal (n / 10) ++ "." ++ decimal (n mod 10)
  end.

(* ===================================================================== *)
(** ** CapacityScorer: [calculate_capacity_rating] *)

Record capacity_rating : Type := {
  score : Q;
  rating : string;
  color : string;
  rationale : list string
}.

(** [(financials.get(k) or {}).get("value", 0) or 0] *)
Definition concept_value (financials : json) (k : string) : result json :=
  c <- py_get financials k JNull ;;
  v <- py_get (py_or c (JDict [])) "value" (JInt 0) ;;
  ret (py_or v (JInt 0)).

(** [x / 1_000_000_000] on an integer, as the exact quotient.  Python
    returns the double nearest to it, and raises [OverflowError] when the
    quotient is beyond the doubles; one of the two addends is then beyond
    them too, and its rationale line raises the same exception below. *)
Definition py_div_billion (x : json) : result Q :=
  match as_int x with
  | Some z => ret (z # 1000000000)
  | None => Raise TypeError
  end.

(** [a < b] and [a > b] on scores. *)
Definition Qltb (a b : Q) : bool := negb (Qle_bool b a).
Definition Qgtb (a b : Q) : bool := Qltb b a.

(** [f"{label}{x/1e9:.1f}B" if x else unavailable] *)
Definition rationale_line (label unavailable : string) (x : json) : result string :=
  if truthy x
  then f <- py_div_1e9 x ;; ret (label ++ format_1f f ++ "B")
  else ret unavailable.

Definition tier_of (score : Q) : string * string :=
  if Qgtb score 30 then ("MAJOR ($1M+)", "#27ae60")
  else if Qgtb score 15 then ("LEADERSHIP ($250K-$1M)", "#f39c12")
  else if Qgtb score 5 then ("PRINCIPAL ($50K-$250K)", "#3498db")
  else ("STANDARD ($10K-$50K)", "#95a5a6").

Definition calculate_capacity_rating (financials : json) : result capacity_rating :=
  cash <- concept_value financials "cash_and_equivalents" ;;
  net_income <- concept_value financials "net_income" ;;
  assets <- concept_value financials "total_assets" ;;
  total <- py_add cash net_income ;;
  score <- py_div_billion total ;;
  let (rating, color) := tier_of score in
  line_cash <- rationale_line "Cash position: $" "Cash data unavailable" cash ;;
  line_income <- rationale_line "Net income: $" "Net income data unavailable" net_income ;;
  line_assets <- rationale_line "Total assets: $" "Assets data unavailable" assets ;;
  ret {| score := score;
         rating := rating;
         color := color;
         rationale := [line_cash; line_income; line_assets] |}.

(* ===================================================================== *)
(** ** AlignmentScorer: [assess_mission_alignment] *)

Record alignment : Type := {
  level : string;
  alignment_score : Z;
  factors : list string
}.

(** [any(term in s for term in terms)] *)
Definition any_in (terms : list string) (s : string) : bool :=
  existsb (fun term => str_in term s) terms.

Definition healthcare_terms : list string :=
  ["health"; "medical"; "pharmaceutical"; "hospital"].
Definition retail_terms : list string := ["retail"; "store"; "merchandise"].
Definition manufacturing_terms : list string :=
  ["manufacturing"; "chemical"; "industrial"].

Definition healthcare_factor : string :=
  "Healthcare sector - STRONG alignment with pediatric health mission".
Definition retail_factor : string :=
  "Retail sector - Strong community presence, cause marketing potential".
Definition manufacturing_factor : string :=
  "Manufacturing sector - Likely has established CSR programs".
Definition minnesota_factor : string :=
  "Minnesota headquarters - Local community connection to CCRF".

(** One [if any(...): append; score += points] step on the pair
    [(alignment_factors, alignment_score)]. *)
Definition credit (fires : bool) (factor : string) (points : Z)
           (st : list string * Z) : list string * Z :=
  if fires then ((fst st ++ [factor])%list, snd st + points) else st.

Definition level_of (alignment_score : Z) : string :=
  if 4 <=? alignment_score then "HIGH"
  else if 2 <=? alignment_score then "MEDIUM"
  else "STANDARD".

Definition assess_mission_alignment (company : json) : result alignment :=
  d <- py_get company "sic_description" (JStr "") ;;
  sic_desc <- py_lower d ;;
  let st := ([], 0) in
  let st := credit (any_in healthcare_terms sic_desc) healthcare_factor 3 st in
  let st := credit (any_in retail_terms sic_desc) retail_factor 2 st in
  let st := credit (any_in manufacturing_terms sic_desc) manufacturing_factor 1 st in
  let st := credit true minnesota_factor 2 st in
  ret {| level := level_of (snd st);
         alignment_score := snd st;
         factors := fst st |}.

(* ===================================================================== *)
(** ** [sorted(xs, key=key, reverse=True)] *)

Section Sorted.
Variables (A K : Type) (key : A -> K) (ltb : K -> K -> bool).

(** Stable ascending sort, by [<] on the keys alone: an item goes in
    front of the first item whose key is not smaller than its own. *)
Fixpoint insert_by (x : A) (l : list A) : list A :=
  match l with
  | [] => [x]
  | y :: l' =>
      if ltb (key y) (key x) then y :: insert_by x l' else x :: y :: l'
  end.

Fixpoint sort_by (l : list A) : list A :=
  match l with
  | [] => []
  | x :: l' => insert_by x (sort_by l')
  end.

(** [reverse=True] reverses the list, sorts it, and reverses the result,
    which keeps items with equal keys in their original order. *)
Definition sorted_reverse (l : list A) : list A := rev (sort_by (rev l)).
(** [x] may stand before [y] in ascending, respectively descending,
    order. *)
Definition ascending (x y : A) : Prop := ltb (key y) (key x) = false.
Definition descending (x y : A) : Prop := ltb (key x) (key y) = false.

(** The items whose key is equivalent to [q]. *)
Definition same_key (q : K) (x : A) : bool :=
  negb (ltb q (key x)) && negb (ltb (key x) q).

End Sorted.

(* ===================================================================== *)
(** ** Data collection and the orchestrator *)

Inductive http_reply : Type :=
| NoReply                                      (* requests.get raised *)
| Reply (status_code : Z) (body : option json). (* body None: not JSON *)

Record config : Type := {
  cfg_ticker : string;
  cfg_name : string;
  cfg_city : string
}.

Definition MINNESOTA_COMPANIES : list config :=
  [ {| cfg_ticker := "TGT"; cfg_name := "Target Corporation"; cfg_city := "Minneapolis" |};
    {| cfg_ticker := "MMM"; cfg_name := "3M Company"; cfg_city := "St. Paul" |};
    {| cfg_ticker := "UNH"; cfg_name := "UnitedHealth Group"; cfg_city := "Minnetonka" |} ].

Definition SEC_BASE_URL : string := "https://data.sec.gov".
Definition PROPUBLICA_BASE_URL : string :=
  "https://projects.propublica.org/nonprofits/api/v2".

(** The dictionary [search_foundation] returns. *)
Record foundation_hit : Type := {
  fh_name : json;
  fh_ein : json;
  fh_city : json;
  fh_state : json
}.

(** The dictionary [research_company] returns on success. *)
Record profile : Type := {
  ticker : string;
  config_of : config;
  company : json;
  financials : json;
  foundation_search : option foundation_hit;
  foundation_details : option json;
  capacity : capacity_rating;
  alignment_of : alignment;
  researched_at : string
}.

(** [Failure error] is the dictionary [{"error": error}]. *)
Inductive research_result : Type :=
| Failure (error : string)
| Profile (p : profile).

(** [get_company_info] returns its dictionary or [{"error": str(e)}]. *)
Inductive info_result : Type :=
| Info (company_info : json)
| InfoError (error : string).

(** The keys of a result dictionary, in insertion order. *)
Definition result_keys (r : research_result) : list string :=
  match r with
  | Failure _ => ["error"]
  | Profile _ =>
      ["ticker"; "config"; "company"; "financials"; "foundation";
       "capacity"; "alignment"; "researched_at"]
  end.

(** [k in r] *)
Definition has_key (k : string) (r : research_result) : bool :=
  existsb (String.eqb k) (result_keys r).

(** [[r for r in results if "error" not in r]] *)
Fixpoint valid_results (results : list research_result) : list profile :=
  match results with
  | [] => []
  | Failure _ :: rest => valid_results rest
  | Profile p :: rest => p :: valid_results rest
  end.

(** [lambda x: x["capacity"]["score"]] *)
Definition capacity_score (p : profile) : Q := score (capacity p).

(** The priority ranking of [main] (and of [create_visualizations]). *)
Definition priority_ranking (results : list research_result) : list profile :=
  sorted_reverse capacity_score Qltb (valid_results results).

Definition raise_for_status (status_code : Z) : result unit :=
  if (400 <=? status_code) && (status_code <? 600)
  then Raise HTTPError else ret tt.

Definition response_json (body : option json) : result json :=
  match body with
  | Some j => ret j
  | None => Raise JSONDecodeError
  end.

Section Orchestrator.
(** The network as seen during one run, and the parts of the Python
    runtime whose text is left open: [str(x)] on a decoded value,
    [str(e)] on an exception, and the clock read for a company. *)
Variable http_get : string -> list (string * string) -> http_reply.
Variable py_str : json -> string.
Variable exn_str : py_exn -> string.
Variable now_isoformat : config -> string.

Definition requests_get (url : string) (params : list (string * string))
  : result (Z * option json) :=
  match http_get url params with
  | NoReply => Raise ConnectionError
  | Reply status_code body => ret (status_code, body)
  end.

(** Body of the [for entry in ...values()] loop of [get_cik_from_ticker]. *)
Fixpoint find_cik (ticker : string) (entries : list json) : result (option string) :=
  match entries with
  | [] => ret None
  | entry :: rest =>
      t <- py_get entry "ticker" (JStr "") ;;
      u <- py_upper t ;;
      if String.eqb u (upper ticker)
      then c <- py_getitem entry "cik_str" ;; ret (Some (zfill 10 (py_str c)))
      else find_cik ticker rest
  end.

Definition get_cik_from_ticker (ticker : string) : option string :=
  match
    (r <- requests_get "https://www.sec.gov/files/company_tickers.json" [] ;;
     _ <- raise_for_status (fst r) ;;
     table <- response_json (snd r) ;;
     entries <- py_values table ;;
     find_cik ticker entries)
  with
  | Ok c => c
  | Raise _ => None
  end.

Definition get_company_info (ticker cik : string) : info_result :=
  match
    (r <- requests_get (SEC_BASE_URL ++ "/submissions/CIK" ++ cik ++ ".json") [] ;;
     _ <- raise_for_status (fst r) ;;
     data <- response_json (snd r) ;;
     name <- py_get data "name" (JStr "") ;;
     sic <- py_get data "sic" (JStr "") ;;
     sic_description <- py_get data "sicDescription" (JStr "") ;;
     state <- py_get data "stateOfIncorporation" (JStr "") ;;
     fiscal_year_end <- py_get data "fiscalYearEnd" (JStr "") ;;
     phone <- py_get data "phone" (JStr "") ;;
     addresses <- py_get data "addresses" (JDict []) ;;
     business <- py_get addresses "business" (JDict []) ;;
     ret (JDict [("cik", JStr cik);
                 ("name", name);
                 ("ticker", JStr (upper ticker));
                 ("sic", sic);
                 ("sic_description", sic_description);
                 ("state", state);
                 ("fiscal_year_end", fiscal_year_end);
                 ("phone", phone);
                 ("business_address", business)]))
  with
  | Ok d => Info d
  | Raise e => InfoError (exn_str e)
  end.

Definition get_company_financials (cik : string) : json :=
  match
    (r <- requests_get (SEC_BASE_URL ++ "/api/xbrl/companyfacts/CIK" ++ cik ++ ".json") [] ;;
     _ <- raise_for_status (fst r) ;;
     facts <- response_json (snd r) ;;
     extract_financials facts)
  with
  | Ok d => d
  | Raise e => JDict [("error", JStr (exn_str e))]
  end.

(** Body of [for org in orgs[:10]]. *)
Fixpoint first_match (company_word : string) (orgs : list json)
  : result (option foundation_hit) :=
  match orgs with
  | [] => ret None
  | org :: rest =>
      n <- py_get org "name" (JStr "") ;;
      org_name <- py_upper n ;;
      if str_in company_word org_name && str_in "FOUNDATION" org_name
      then
        name <- py_get org "name" JNull ;;
        ein <- py_get org "ein" JNull ;;
        city <- py_get org "city" JNull ;;
        state <- py_get org "state" JNull ;;
        ret (Some {| fh_name := name; fh_ein := ein;
                     fh_city := city; fh_state := state |})
      else first_match company_word rest
  end.

(** Body of [for term in search_terms]. *)
Fixpoint search_terms_loop (company_word : string) (terms : list string)
  : result (option foundation_hit) :=
  match terms with
  | [] => ret None
  | term :: rest =>
      r <- requests_get (PROPUBLICA_BASE_URL ++ "/search.json") [("q", term)] ;;
      found <-
        (if fst r =? 200
         then
           data <- response_json (snd r) ;;
           orgs <- py_get data "organizations" (JList []) ;;
           top <- py_take 10 orgs ;;
           items <- py_iter top ;;
           first_match company_word items
         else ret None) ;;
      match found with
      | Some hit => ret (Some hit)
      | None => search_terms_loop company_word rest
      end
  end.

Definition search_foundation (company_name : string) : option foundation_hit :=
  match
    (w <- first_word company_name ;;
     search_terms_loop (upper w)
       [company_name ++ " foundation"; w ++ " foundation"])
  with
  | Ok r => r
  | Raise _ => None
  end.

(** One element of ["recent_filings"]. *)
Definition filing_row (f : json) : result json :=
  year <- py_get f "tax_prd_yr" JNull ;;
  revenue <- py_get f "totrevenue" JNull ;;
  expenses <- py_get f "totfuncexpns" JNull ;;
  assets <- py_get f "totassetsend" JNull ;;
  grants_paid <- py_get f "contrpdpbks" JNull ;;
  ret (JDict [("year", year); ("revenue", revenue); ("expenses", expenses);
              ("assets", assets); ("grants_paid", grants_paid)]).

Definition get_foundation_details (ein : string) : option json :=
  match
    (r <- requests_get (PROPUBLICA_BASE_URL ++ "/organizations/" ++ ein ++ ".json") [] ;;
     if negb (fst r =? 200) then ret None
     else
       data <- response_json (snd r) ;;
       org <- py_get data "organization" (JDict []) ;;
       filings <- py_get data "filings_with_data" (JList []) ;;
       name <- py_get org "name" JNull ;;
       total_assets <- py_get org "asset_amount" JNull ;;
       total_revenue <- py_get org "income_amount" JNull ;;
       ruling_date <- py_get org "ruling_date" JNull ;;
       top <- py_take 3 filings ;;
       items <- py_iter top ;;
       recent_filings <- mapM filing_row items ;;
       ret (Some (JDict [("name", name);
                         ("ein", JStr ein);
                         ("total_assets", total_assets);
                         ("total_revenue", total_revenue);
                         ("ruling_date", ruling_date);
                         ("recent_filings", JList recent_filings)])))
  with
  | Ok r => r
  | Raise _ => None
  end.

(** [if not cik] holds for [None] and for the empty string.  An
    exception of a scorer is not caught here: it leaves
    [research_company] as [Raise]. *)
Definition research_company (company_config : config) : result research_result :=
  let ticker := cfg_ticker company_config in
  match get_cik_from_ticker ticker with
  | Some (String _ _ as cik) =>
      match get_company_info ticker cik with
      | InfoError error => ret (Failure error)
      | Info company_info =>
          let financials := get_company_financials cik in
          let foundation_search := search_foundation (cfg_name company_config) in
          let foundation_details :=
            match foundation_search with
            | Some hit => get_foundation_details (py_str (fh_ein hit))
            | None => None
            end in
          capacity <- calculate_capacity_rating financials ;;
          alignment <- assess_mission_alignment company_info ;;
          ret (Profile {| ticker := ticker;
                          config_of := company_config;
                          company := company_info;
                          financials := financials;
                          foundation_search := foundation_search;
                          foundation_details := foundation_details;
                          capacity := capacity;
                          alignment_of := alignment;
                          researched_at := now_isoformat company_config |})
      end
  | _ => ret (Failure ("Could not find CIK for " ++ ticker))
  end.

Definition research_all_companies (companies : list config)
  : result (list research_result) :=
  mapM research_company companies.

(** [main], up to the list it prints as the priority ranking. *)
Definition main_ranking (companies : list config) : result (list profile) :=
  results <- research_all_companies companies ;;
  ret (priority_ranking results).
End Orchestrator.

(* ===================================================================== *)
(** ** Vocabulary of the specification *)

(** The filtered series of a concept: the USD entries whose form is
    ["10-K"]; empty when the concept key is absent. *)
Definition annual_series (us_gaap : json) (concept : string) : result (list json) :=
  present <- py_in concept us_gaap ;;
  if negb present then ret []
  else usd_values <- usd_values_of us_gaap concept ;; annual_of usd_values.

(** An entry is a dictionary whose form is ["10-K"]. *)
Definition is_annual (v : json) : bool :=
  match v with
  | JDict e =>
      match lookup "form" e with
      | Some f => py_eq f (JStr "10-K")
      | None => false
      end
  | _ => false
  end.

Definition is_dict (v : json) : Prop := exists e, v = JDict e.

(** The period-end date of an entry when the sort key is a string (the
    empty string for an entry without ["end"]). *)
Definition end_text (x : json) : option string :=
  match end_key x with
  | Ok (JStr s) => Some s
  | _ => None
  end.

Definition has_end_text (x : json) : Prop := end_text x <> None.

(** [x] ends strictly before, respectively not after, the date [s]. *)
Definition ends_before (s : string) (x : json) : Prop :=
  exists t, end_text x = Some t /\ String.ltb t s = true.
Definition ends_by (s : string) (x : json) : Prop :=
  exists t, end_text x = Some t /\ String.leb t s = true.

(** The amount of a concept of a snapshot: its integer value, and zero
    when the concept, or the value inside it, is missing. *)
Definition amount (financials : json) (k : string) : Z :=
  match financials with
  | JDict d =>
      match lookup k d with
      | Some (JDict c) =>
          match lookup "value" c with
          | Some v => match as_int v with Some z => z | None => 0 end
          | None => 0
          end
      | _ => 0
      end
  | _ => 0
  end.

(** Tier order STANDARD < PRINCIPAL < LEADERSHIP < MAJOR. *)
Definition tier_rank (rating : string) : nat :=
  if String.eqb rating "MAJOR ($1M+)" then 3
  else if String.eqb rating "LEADERSHIP ($250K-$1M)" then 2
  else if String.eqb rating "PRINCIPAL ($50K-$250K)" then 1
  else 0.

(** The lower-cased industry description [assess_mission_alignment]
    tests. *)
Definition industry_text (company : json) : result string :=
  d <- py_get company "sic_description" (JStr "") ;; py_lower d.

(** What a rationale line says for an amount: the marker for zero,
    otherwise the amount over [1e9] in the [.1f] format. *)
Definition line_for (label unavailable : string) (z : Z) : result string :=
  if z =? 0 then ret unavailable
  else f <- py_div_1e9 (JInt z) ;; ret (label ++ format_1f f ++ "B").

Definition is_digit (c : ascii) : bool :=
  (48 <=? Z.of_N (N_of_ascii c)) && (Z.of_N (N_of_ascii c) <=? 57).

(** A decimal numeral with exactly one digit after the point. *)
Definition one_decimal (s : string) : Prop :=
  exists sign whole d,
    s = sign_text sign ++ decimal whole ++ "." ++ String d EmptyString
    /\ is_digit d = true.

Definition finite_double (f : spec_float) : Prop :=
  match f with
  | S754_zero _ | S754_finite _ _ _ => True
  | _ => False
  end.

(** A double in range: zero, or a mantissa of at most 53 bits with an
    exponent of at most 971. *)
Definition bounded_double (f : spec_float) : Prop :=
  match f with
  | S754_zero _ => True
  | S754_finite _ m e => e <= 971 /\ Z.pos (digits2_pos m) <= 53
  | _ => False
  end.

(** The mantissa of [1e9], whose exponent is -23. *)
Definition m_1e9 : Z := 8388608000000000.

(** The value of a concept is present: the concept is a dictionary whose
    ["value"] is not [None]. *)
Definition value_present (financials : json) (k : string) : bool :=
  match financials with
  | JDict d =>
      match lookup k d with
      | Some (JDict c) =>
          match lookup "value" c with
          | Some JNull | None => false
          | Some _ => true
          end
      | _ => false
      end
  | _ => false
  end.

(* ===================================================================== *)
(** ** Sample data *)

Definition sample_us_gaap : json :=
  JDict [("Assets",
          JDict [("units",
                  JDict [("USD",
                          JList [JDict [("end", JStr "2022-01-29"); ("val", JInt 53811000000); ("form", JStr "10-K")];
                                 JDict [("end", JStr "2024-02-03"); ("val", JInt 55356000000); ("form", JStr "10-K")];
                                 JDict [("end", JStr "2024-05-04"); ("val", JInt 55139000000); ("form", JStr "10-Q")];
                                 JDict [("end", JStr "2023-01-28"); ("val", JInt 53335000000); ("form", JStr "10-K")]])])])].

Definition sample_revenue_facts : json :=
  JDict [("Revenues", JDict [("units", JDict [("USD", JList [])])]);
         ("RevenueFromContractWithCustomerExcludingAssessedTax",
          JDict [("units",
                  JDict [("USD",
                          JList [JDict [("end", JStr "2023-12-31"); ("val", JInt 32681000000); ("form", JStr "10-K")]])])])].

Definition sample_concept (v : Z) : json :=
  JDict [("value", JInt v); ("period_end", JStr "2024-02-03")].

Definition sample_snapshot (cash net_income assets : json) : json :=
  JDict [("revenue", JNull);
         ("net_income", net_income);
         ("total_assets", assets);
         ("cash_and_equivalents", cash);
         ("stockholders_equity", JNull)].

(** A concept whose value is the integer zero is present, and its line is
    the marker all the same. *)
Definition zero_cash_snapshot : json :=
  sample_snapshot (sample_concept 0) (sample_concept 4138000000)
                  (sample_concept 55356000000).

Definition hospital_retail_chemical : json :=
  JDict [("sic_description", JStr "Hospital & Retail Chemical Supplies")].

(** A run in which the ticker table lists 3M and UnitedHealth but not
    Target. *)
Definition sample_fact (end_ : string) (val : Z) (form : string) : json :=
  JDict [("end", JStr end_); ("val", JInt val); ("form", JStr form)].

Definition sample_facts (cash net_income assets : Z) : json :=
  let series v :=
    JDict [("units",
            JDict [("USD", JList [sample_fact "2022-12-31" 1 "10-K";
                                  sample_fact "2023-12-31" v "10-K";
                                  sample_fact "2024-03-31" 2 "10-Q"])])] in
  JDict [("facts",
          JDict [("us-gaap",
                  JDict [("CashAndCashEquivalentsAtCarryingValue", series cash);
                         ("NetIncomeLoss", series net_income);
                         ("Assets", series assets)])])].

Definition sample_http (url : string) (params : list (string * string)) : http_reply :=
  if String.eqb url "https://www.sec.gov/files/company_tickers.json" then
    Reply 200 (Some (JDict [("0", JDict [("cik_str", JInt 66740); ("ticker", JStr "MMM")]);
                            ("1", JDict [("cik_str", JInt 731766); ("ticker", JStr "UNH")])]))
  else if String.eqb url "https://data.sec.gov/submissions/CIK0000066740.json" then
    Reply 200 (Some (JDict [("name", JStr "3M CO");
                            ("sicDescription", JStr "Surgical & Medical Instruments & Apparatus")]))
  else if String.eqb url "https://data.sec.gov/submissions/CIK0000731766.json" then
    Reply 200 (Some (JDict [("name", JStr "UNITEDHEALTH GROUP INC");
                            ("sicDescription", JStr "Hospital & Medical Service Plans")]))
  else if String.eqb url "https://data.sec.gov/api/xbrl/companyfacts/CIK0000066740.json" then
    Reply 200 (Some (sample_facts 5933000000 4173000000 50580000000))
  else if String.eqb url "https://data.sec.gov/api/xbrl/companyfacts/CIK0000731766.json" then
    Reply 200 (Some (sample_facts 25427000000 22381000000 273720000000))
  else if String.eqb url "https://projects.propublica.org/nonprofits/api/v2/search.json" then
    match params with
    | [(_, "3M Company foundation")] =>
        Reply 200 (Some (JDict [("organizations",
                                 JList [JDict [("name", JStr "3M Foundation");
                                               ("ein", JInt 416038262);
                                               ("city", JStr "Saint Paul");
                                               ("state", JStr "MN")]])]))
    | _ => Reply 200 (Some (JDict []))
    end
  else Reply 404 None.

Definition sample_str (x : json) : string :=
  match x with
  | JNull => "None"
  | JBool b => if b then "True" else "False"
  | JInt z => if z <? 0 then "-" ++ decimal (- z) else decimal z
  | JStr s => s
  | JList _ => "[]"
  | JDict _ => "{}"
  end.

Definition sample_exn_str (e : py_exn) : string :=
  match e with
  | HTTPError => "404 Client Error"
  | _ => "error"
  end.

Definition sample_clock (c : config) : string := "2026-01-15T09:00:00".

Definition target_config : config :=
  {| cfg_ticker := "TGT"; cfg_name := "Target Corporation"; cfg_city := "Minneapolis" |}.

(* ===================================================================== *)
(** ** Vocabulary of the further properties *)

(** An entry of the ticker table whose ticker is [ticker] up to letter
    case, respectively a well-formed entry with another ticker. *)
Definition ticker_matches (ticker : string) (entry : json) : Prop :=
  exists t, py_get entry "ticker" (JStr "") = Ok (JStr t) /\ upper t = upper ticker.
Definition ticker_differs (ticker : string) (entry : json) : Prop :=
  exists t, py_get entry "ticker" (JStr "") = Ok (JStr t) /\ upper t <> upper ticker.

Definition TICKERS_URL : string := "https://www.sec.gov/files/company_tickers.json".

(** [data.get(k, "")] *)
Definition field_or_empty (data : list (string * json)) (k : string) : json :=
  match lookup k data with
  | Some v => v
  | None => JStr ""
  end.

(** [data.get("addresses", {}).get("business", {})] when it does not
    raise. *)
Definition business_of (data : list (string * json)) : json :=
  match lookup "addresses" data with
  | Some (JDict a) =>
      match lookup "business" a with
      | Some b => b
      | None => JDict []
      end
  | _ => JDict []
  end.

(** The rating of a snapshot without figures. *)
Definition empty_rating : capacity_rating :=
  {| score := 0 # 1000000000;
     rating := "STANDARD ($10K-$50K)";
     color := "#95a5a6";
     rationale := ["Cash data unavailable"; "Net income data unavailable";
                   "Assets data unavailable"] |}.

(** The concepts [get_company_financials] always evaluates; the alternate
    revenue concept is evaluated only when the primary one gives [None]. *)
Definition always_evaluated : list string :=
  ["Revenues"; "NetIncomeLoss"; "Assets";
   "CashAndCashEquivalentsAtCarryingValue"; "StockholdersEquity"].

Definition SEARCH_URL : string := PROPUBLICA_BASE_URL ++ "/search.json".

(** The acceptance test of [search_foundation] on an organization whose
    name is a string: both words occur in the upper-cased name. *)
Definition name_accepted (company_word n : string) : bool :=
  str_in company_word (upper n) && str_in "FOUNDATION" (upper n).

Definition org_rejected (company_word : string) (org : json) : Prop :=
  exists n, py_get org "name" (JStr "") = Ok (JStr n)
            /\ name_accepted company_word n = false.

(** What the organizations of one search reply yield: the scan of
    [orgs[:10]]. *)
Definition scan_reply (company_word : string) (data : json)
  : result (option foundation_hit) :=
  orgs <- py_get data "organizations" (JList []) ;;
  top <- py_take 10 orgs ;;
  items <- py_iter top ;;
  first_match company_word items.

(** The request of one search phrase. *)
Definition phrase_query (term : string) : list (string * string) := [("q", term)].

(** [company.get("sic_description", "")] is a string. *)
Definition is_text (v : json) : Prop := exists s, v = JStr s.

(** [1] for [True], [0] for [False]. *)
Definition Z_of_bool (b : bool) : Z := if b then 1 else 0.

(** A concept of a snapshot as [get_latest] leaves it for integer facts:
    absent, [None], or a dictionary whose ["value"] is absent, [None] or an
    integer below [2 ^ 1023] in magnitude. *)
Definition modest_concept (c : option json) : Prop :=
  match c with
  | None | Some JNull => True
  | Some (JDict f) =>
      match lookup "value" f with
      | None | Some JNull => True
      | Some (JInt z) => Z.abs z < 2 ^ 1023
      | Some _ => False
      end
  | Some _ => False
  end.

(** ** Further sample data *)

Definition mmm_config : config :=
  {| cfg_ticker := "MMM"; cfg_name := "3M Company"; cfg_city := "St. Paul" |}.

Definition series_of (entries : list json) : json :=
  JDict [("units", JDict [("USD", JList entries)])].

Definition undated_fact (val : Z) : json :=
  JDict [("end", JNull); ("val", JInt val); ("form", JStr "10-K")].

(** Total assets with a single annual entry, whose period end is [null];
    and with two annual entries, of which one has a date and the other
    [null]. *)
Definition undated_us_gaap : json :=
  JDict [("Assets", series_of [undated_fact 53811000000])].

Definition mixed_end_us_gaap : json :=
  JDict [("Assets", series_of [sample_fact "2023-12-31" 55356000000 "10-K";
                               undated_fact 53811000000])].

Definition sample_org (name : string) (ein : Z) : json :=
  JDict [("name", JStr name); ("ein", JInt ein);
         ("city", JStr "Saint Paul"); ("state", JStr "MN")].

Definition found_3m : json :=
  JDict [("organizations", JList [sample_org "3M Foundation" 416038262])].

(** Networks: one that never answers, one whose answers are not JSON, one
    that refuses the full company name and answers the first word, and
    one that lists ten foundations of others in front of the company's
    own. *)
Definition silent_http (url : string) (params : list (string * string)) : http_reply :=
  NoReply.

Definition garbled_http (url : string) (params : list (string * string)) : http_reply :=
  Reply 200 None.

Definition second_phrase_http (url : string) (params : list (string * string))
  : http_reply :=
  match params with
  | [(_, "3M foundation")] => Reply 200 (Some found_3m)
  | _ => Reply 503 None
  end.

Definition crowded_reply : list (string * json) :=
  [("organizations",
    JList (repeat (sample_org "Saint Paul Foundation" 416031510) 10
           ++ [sample_org "3M Foundation" 416038262])%list)].

Definition crowded_http (url : string) (params : list (string * string)) : http_reply :=
  Reply 200 (Some (JDict crowded_reply)).

Definition sample_filing (year : Z) : json :=
  JDict [("tax_prd_yr", JInt year); ("totrevenue", JInt 70000000);
         ("totfuncexpns", JInt 65000000); ("totassetsend", JInt 20000000)].

(** The sample network with the details of the 3M foundation, of four
    filings. *)
Definition details_http (url : string) (params : list (string * string)) : http_reply :=
  if String.eqb url
       "https://projects.propublica.org/nonprofits/api/v2/organizations/416038262.json"
  then Reply 200 (Some (JDict [("organization",
                                JDict [("name", JStr "3M Foundation");
                                       ("asset_amount", JInt 20000000)]);
                               ("filings_with_data",
                                JList [sample_filing 2023; sample_filing 2022;
                                       sample_filing 2021; sample_filing 2020])]))
  else sample_http url params.

(** The sample network with the financial facts out of service, and with
    a submission of 3M whose industry description is [null]. *)
Definition facts_outage_http (url : string) (params : list (string * string))
  : http_reply :=
  if str_in "/api/xbrl/companyfacts/" url then Reply 503 None
  else sample_http url params.

Definition null_industry_http (url : string) (params : list (string * string))
  : http_reply :=
  if String.eqb url "https://data.sec.gov/submissions/CIK0000066740.json"
  then Reply 200 (Some (JDict [("name", JStr "3M CO"); ("sicDescription", JNull)]))
  else sample_http url params.

(** A profile with a given score, and a run of three profiles and a
    failure. *)
Definition sample_profile (symbol : string) (q : Q) : profile :=
  {| ticker := symbol;
     config_of := {| cfg_ticker := symbol; cfg_name := symbol; cfg_city := "" |};
     company := JDict [];
     financials := JDict [];
     foundation_search := None;
     foundation_details := None;
     capacity := {| score := q; rating := fst (tier_of q); color := snd (tier_of q);
                    rationale := [] |};
     alignment_of := {| level := "MEDIUM"; alignment_score := 2;
                        factors := [minnesota_factor] |};
     researched_at := "" |}.

Definition sample_run : list research_result :=
  [Profile (sample_profile "AAA" 3); Failure "Could not find CIK for BBB";
   Profile (sample_profile "CCC" 7); Profile (sample_profile "DDD" 7)].

Definition ordered_run : list research_result :=
  [Profile (sample_profile "CCC" 7); Profile (sample_profile "DDD" 7);
   Failure "Could not find CIK for BBB"; Profile (sample_profile "AAA" 3)].

(** The snapshot of a company that reports none of the concepts. *)
Definition empty_snapshot : json :=
  JDict [("revenue", JNull); ("net_income", JNull); ("total_assets", JNull);
         ("cash_and_equivalents", JNull); ("stockholders_equity", JNull)].

(** Company facts under another taxonomy only. *)
Definition ifrs_facts : list (string * json) :=
  [("cik", JInt 66740);
   ("facts", JDict [("ifrs-full", JDict [("Assets", series_of [undated_fact 1])])])].

(* ===================================================================== *)
(** * Properties *)

(** ** The result monad *)

Lemma bind_Ok {A B : Type} (c : result A) (k : A -> result B) (b : B) :
  bind c k = Ok b -> exists a, c = Ok a /\ k a = Ok b.
Proof.
  destruct c as [a | e]; simpl; intros H.
  - exists a; split; [reflexivity | exact H].
  - discriminate H.
Qed.

Tactic Notation "inv_bind" hyp(H) "as" ident(x) ident(Hx) :=
  apply bind_Ok in H; destruct H as (x & Hx & H).

Lemma mapM_In {A B : Type} (f : A -> result B) (xs : list A) (ys : list B) :
  mapM f xs = Ok ys ->
  forall y, In y ys -> exists x, In x xs /\ f x = Ok y.
Proof.
  revert ys; induction xs as [| x xs IH]; simpl; intros ys H y Hy.
  - injection H as <-. destruct Hy.
  - inv_bind H as y0 Hy0. inv_bind H as ys0 Hys0. injection H as <-.
    destruct Hy as [-> | Hy].
    + exists x; split; [left; reflexivity | assumption].
    + destruct (IH _ Hys0 y Hy) as (x' & Hin & Hf).
      exists x'; split; [right; assumption | assumption].
Qed.

Lemma mapM_In_inv {A B : Type} (f : A -> result B) (xs : list A) (ys : list B) :
  mapM f xs = Ok ys ->
  forall x, In x xs -> exists y, In y ys /\ f x = Ok y.
Proof.
  revert ys; induction xs as [| x0 xs IH]; simpl; intros ys H x Hin.
  - destruct Hin.
  - inv_bind H as y0 Hy0. inv_bind H as ys0 Hys0. injection H as <-.
    destruct Hin as [-> | Hin].
    + eexists; split; [left; reflexivity | assumption].
    + destruct (IH _ Hys0 x Hin) as (y & Hy & Hf).
      exists y; split; [right; assumption | assumption].
Qed.

(** ** Order on byte strings *)

Lemma ascii_compare_refl (c : ascii) : Ascii.compare c c = Eq.
Proof. unfold Ascii.compare. apply N.compare_refl. Qed.

Lemma ascii_compare_lt_trans (a b c : ascii) :
  Ascii.compare a b = Lt -> Ascii.compare b c = Lt -> Ascii.compare a c = Lt.
Proof.
  unfold Ascii.compare. rewrite !N.compare_lt_iff. apply N.lt_trans.
Qed.

Lemma str_compare_refl (s : string) : String.compare s s = Eq.
Proof.
  induction s as [| c s IH]; simpl; [reflexivity |].
  rewrite ascii_compare_refl. exact IH.
Qed.

Lemma str_compare_lt_trans (a b c : string) :
  String.compare a b = Lt -> String.compare b c = Lt -> String.compare a c = Lt.
Proof.
  revert b c; induction a as [| x a IH]; intros [| y b] [| z c]; simpl;
    try discriminate; try reflexivity.
  destruct (Ascii.compare x y) eqn:Hxy; try discriminate;
    destruct (Ascii.compare y z) eqn:Hyz; try discriminate; intros H1 H2.
  - apply Ascii.compare_eq_iff in Hxy, Hyz. subst.
    rewrite ascii_compare_refl. eapply IH; eassumption.
  - apply Ascii.compare_eq_iff in Hxy. subst. rewrite Hyz. reflexivity.
  - apply Ascii.compare_eq_iff in Hyz. subst. rewrite Hxy. reflexivity.
  - rewrite (ascii_compare_lt_trans _ _ _ Hxy Hyz). reflexivity.
Qed.

Lemma str_ltb_trans (a b c : string) :
  String.ltb a b = true -> String.ltb b c = true -> String.ltb a c = true.
Proof.
  unfold String.ltb.
  destruct (String.compare a b) eqn:Hab; try discriminate.
  destruct (String.compare b c) eqn:Hbc; try discriminate.
  rewrite (str_compare_lt_trans _ _ _ Hab Hbc). reflexivity.
Qed.

Lemma str_ltb_leb (a b : string) : String.ltb a b = true -> String.leb a b = true.
Proof.
  unfold String.ltb, String.leb. destruct (String.compare a b); congruence.
Qed.

Lemma str_leb_refl (a : string) : String.leb a a = true.
Proof. unfold String.leb. rewrite str_compare_refl. reflexivity. Qed.

(** [not (b < a)] is [a <= b]. *)
Lemma str_not_ltb_leb (a b : string) : String.ltb b a = false -> String.leb a b = true.
Proof.
  unfold String.ltb, String.leb. rewrite (String.compare_antisym a b).
  destruct (String.compare b a); simpl; congruence.
Qed.

Lemma str_leb_ltb_trans (a b c : string) :
  String.leb a b = true -> String.ltb b c = true -> String.ltb a c = true.
Proof.
  unfold String.leb. intros Hab Hbc.
  destruct (String.compare a b) eqn:H; try discriminate.
  - apply String.compare_eq_iff in H. subst. exact Hbc.
  - apply str_ltb_trans with b; [| exact Hbc].
    unfold String.ltb. rewrite H. reflexivity.
Qed.

Lemma str_ltb_leb_trans (a b c : string) :
  String.ltb a b = true -> String.leb b c = true -> String.ltb a c = true.
Proof.
  unfold String.leb. intros Hab Hbc.
  destruct (String.compare b c) eqn:H; try discriminate.
  - apply String.compare_eq_iff in H. subst. exact Hab.
  - apply str_ltb_trans with b; [exact Hab |].
    unfold String.ltb. rewrite H. reflexivity.
Qed.

(** ** [max] with the period-end key *)

Lemma end_text_key (x : json) (s : string) :
  end_text x = Some s -> end_key x = Ok (JStr s).
Proof.
  unfold end_text. destruct (end_key x) as [[] | ]; try discriminate.
  intros [= ->]. reflexivity.
Qed.

Lemma ends_before_by (s : string) (x : json) : ends_before s x -> ends_by s x.
Proof.
  intros (t & Ht & Hlt). exists t. split; [assumption | apply str_ltb_leb; assumption].
Qed.

Lemma ends_before_mono (s s' : string) (x : json) :
  String.leb s s' = true -> ends_before s x -> ends_before s' x.
Proof.
  intros Hs (t & Ht & Hlt). exists t. split; [assumption |].
  eapply str_ltb_leb_trans; eassumption.
Qed.

Lemma ends_by_mono (s s' : string) (x : json) :
  String.leb s s' = true -> ends_by s x -> ends_by s' x.
Proof.
  intros Hs (t & Ht & Hle). exists t. split; [assumption |].
  destruct (String.ltb t s) eqn:Hlt.
  - apply str_ltb_leb. eapply str_ltb_leb_trans; eassumption.
  - apply str_not_ltb_leb in Hlt.
    rewrite (String.leb_antisym _ _ Hle Hlt). exact Hs.
Qed.

(** The loop returns the first entry whose date is maximal: everything in
    front of it ends strictly earlier, nothing behind it ends later. *)
Lemma max_loop_first_maximum (rest : list json) :
  forall best sb,
    end_text best = Some sb ->
    Forall has_end_text rest ->
    exists latest s before after,
      max_loop end_key best (JStr sb) rest = Ok latest
      /\ end_text latest = Some s
      /\ best :: rest = (before ++ latest :: after)%list
      /\ Forall (ends_before s) before
      /\ Forall (ends_by s) after.
Proof.
  induction rest as [| x rest IH]; intros best sb Hb Hall.
  - exists best, sb, [], []. simpl. repeat split; auto.
  - inversion Hall as [| ? ? Hx Hrest]; subst.
    unfold has_end_text in Hx.
    destruct (end_text x) as [t |] eqn:Ht; [| congruence].
    simpl. rewrite (end_text_key _ Ht). simpl.
    destruct (String.ltb sb t) eqn:Hlt.
    + destruct (IH x t Ht Hrest) as (latest & s & before & after & Hrun & Hs & Hsplit & Hbef & Haft).
      exists latest, s, (best :: before), after.
      assert (Hts : String.leb t s = true).
      { destruct before as [| y before'].
        - simpl in Hsplit. injection Hsplit as <- _.
          rewrite Ht in Hs. injection Hs as <-. apply str_leb_refl.
        - simpl in Hsplit. injection Hsplit as <- _.
          inversion Hbef as [| ? ? (t' & Ht' & Hlt') _]; subst.
          rewrite Ht in Ht'. injection Ht' as <-. apply str_ltb_leb. assumption. }
      repeat split; auto.
      * simpl. rewrite Hsplit. reflexivity.
      * constructor; [| assumption].
        exists sb. split; [assumption |]. eapply str_ltb_leb_trans; eassumption.
    + apply str_not_ltb_leb in Hlt.
      destruct (IH best sb Hb Hrest) as (latest & s & before & after & Hrun & Hs & Hsplit & Hbef & Haft).
      destruct before as [| y before'].
      * simpl in Hsplit. injection Hsplit as <- <-.
        rewrite Hb in Hs. injection Hs as <-.
        exists best, sb, [], (x :: rest). repeat split; auto.
        constructor; [| assumption]. exists t. split; assumption.
      * simpl in Hsplit. injection Hsplit as <- Hrest'.
        exists latest, s, (best :: x :: before'), after.
        repeat split; auto.
        -- simpl. rewrite Hrest'. reflexivity.
        -- inversion Hbef as [| ? ? Hbest Hbef']; subst.
           constructor; [assumption |]. constructor; [| assumption].
           destruct Hbest as (sb' & Hsb' & Hlt').
           rewrite Hb in Hsb'. injection Hsb' as <-.
           exists t. split; [assumption |]. eapply str_leb_ltb_trans; eassumption.
Qed.

Lemma get_latest_series (us_gaap : json) (concept : string) :
  get_latest us_gaap concept =
  (annual <- annual_series us_gaap concept ;; latest_of annual).
Proof.
  unfold get_latest, annual_series.
  destruct (py_in concept us_gaap) as [[] | e]; simpl; try reflexivity.
  destruct (usd_values_of us_gaap concept) as [usd | e]; simpl; try reflexivity.
Qed.

Lemma end_text_dict (x : json) (s : string) :
  end_text x = Some s -> exists d, x = JDict d.
Proof.
  unfold end_text, end_key. destruct x; simpl; try discriminate.
  intros _. eexists; reflexivity.
Qed.

(** ** FinancialExtractor *)

Lemma annual_of_filter (vs : list json) :
  Forall is_dict vs -> annual_of (JList vs) = Ok (filter is_annual vs).
Proof.
  unfold annual_of. simpl.
  induction 1 as [| v vs (e & ->) Hvs IH]; simpl; [reflexivity |].
  rewrite IH. simpl.
  destruct (lookup "form" e) as [f |]; simpl;
    [destruct (py_eq f (JStr "10-K")) |]; reflexivity.
Qed.

(** C1.  For every fact set and concept, [get_latest] returns [None] —
    and raises nothing — when the concept key is absent or when the
    series of USD entries with form ["10-K"] is empty; otherwise (the
    period-end keys being strings) it returns the value and period end of
    the entry whose period-end date is the maximum of that series under
    string comparison, wherever that entry stands in the array: every
    entry in front of it ends strictly earlier and no entry behind it
    ends later.  On a fact set of the documented shape the series is the
    USD array filtered by form. *)
Theorem get_latest_selects_latest_annual (us_gaap : json) (concept : string) :
  (py_in concept us_gaap = Ok false -> get_latest us_gaap concept = Ok JNull)
  /\ (annual_series us_gaap concept = Ok [] ->
      get_latest us_gaap concept = Ok JNull)
  /\ (forall annual,
        annual_series us_gaap concept = Ok annual ->
        annual <> [] ->
        Forall has_end_text annual ->
        exists before latest after s value period_end,
          annual = (before ++ latest :: after)%list
          /\ end_text latest = Some s
          /\ Forall (ends_before s) before
          /\ Forall (ends_by s) after
          /\ py_get latest "val" JNull = Ok value
          /\ py_get latest "end" JNull = Ok period_end
          /\ get_latest us_gaap concept =
             Ok (JDict [("value", value); ("period_end", period_end)]))
  /\ (forall d node units vs,
        us_gaap = JDict d ->
        lookup concept d = Some (JDict node) ->
        lookup "units" node = Some (JDict units) ->
        lookup "USD" units = Some (JList vs) ->
        Forall is_dict vs ->
        annual_series us_gaap concept = Ok (filter is_annual vs)).
Proof.
  split; [| split; [| split]]; cycle 3.
  { intros d node units vs -> Hc Hu Hv Hvs.
    unfold annual_series, usd_values_of. simpl.
    rewrite Hc. simpl. rewrite Hu. simpl. rewrite Hv.
    apply annual_of_filter. exact Hvs. }
  - intros H. unfold get_latest. rewrite H. reflexivity.
  - intros H. rewrite get_latest_series, H. reflexivity.
  - intros annual H Hne Hall.
    destruct annual as [| first rest]; [congruence |].
    inversion Hall as [| ? ? Hfirst Hrest]; subst.
    unfold has_end_text in Hfirst.
    destruct (end_text first) as [sb |] eqn:Hsb; [| congruence].
    destruct (@max_loop_first_maximum rest first sb Hsb Hrest)
      as (latest & s & before & after & Hrun & Hs & Hsplit & Hbef & Haft).
    destruct (end_text_dict _ Hs) as (d & ->).
    exists before, (JDict d), after, s.
    eexists. eexists.
    repeat split; try eassumption; try reflexivity.
    rewrite get_latest_series, H. simpl.
    unfold py_max. rewrite (end_text_key _ Hsb). simpl.
    rewrite Hrun. reflexivity.
Qed.

Lemma get_latest_selects_latest_annual_witness :
  get_latest sample_us_gaap "Assets" =
  Ok (JDict [("value", JInt 55356000000); ("period_end", JStr "2024-02-03")])
  /\ get_latest sample_us_gaap "Revenues" = Ok JNull.
Proof.
  destruct (get_latest_selects_latest_annual sample_us_gaap "Revenues") as (Habsent & _ & _ & _).
  destruct (get_latest_selects_latest_annual sample_us_gaap "Assets") as (_ & _ & Hsel & _).
  split; [| apply Habsent; reflexivity].
  destruct (Hsel [JDict [("end", JStr "2022-01-29"); ("val", JInt 53811000000); ("form", JStr "10-K")];
                  JDict [("end", JStr "2024-02-03"); ("val", JInt 55356000000); ("form", JStr "10-K")];
                  JDict [("end", JStr "2023-01-28"); ("val", JInt 53335000000); ("form", JStr "10-K")]])
    as (before & latest & after & s & value & period_end & _ & _ & _ & _ & _ & _ & Hget).
  - reflexivity.
  - discriminate.
  - repeat constructor; discriminate.
  - reflexivity.
Defined.

(** [get_latest] answers with a dictionary, which is truthy, exactly
    when the series is not empty. *)
Lemma latest_of_truthy (annual : list json) (r : json) :
  latest_of annual = Ok r -> truthy r = match annual with [] => false | _ => true end.
Proof.
  destruct annual as [| first rest]; simpl.
  - intros [= <-]. reflexivity.
  - intros H. inv_bind H as latest Hl. inv_bind H as v Hv. inv_bind H as p Hp.
    injection H as <-. reflexivity.
Qed.

(** C3.  The revenue entry of a snapshot is [get_latest] of the primary
    concept when the primary series is not empty; when the primary series
    is empty it is [get_latest] of the alternate concept, which is [None]
    when the alternate series is empty too. *)
Theorem revenue_falls_back_to_contract_revenue (us_gaap : json) :
  let primary := "Revenues" in
  let alternate := "RevenueFromContractWithCustomerExcludingAssessedTax" in
  (forall snapshot,
     snapshot_of us_gaap = Ok snapshot ->
     py_get snapshot "revenue" JNull = latest_or us_gaap primary alternate)
  /\ (forall series r,
        annual_series us_gaap primary = Ok series ->
        series <> [] ->
        get_latest us_gaap primary = Ok r ->
        latest_or us_gaap primary alternate = Ok r /\ r <> JNull)
  /\ (forall series,
        annual_series us_gaap primary = Ok [] ->
        annual_series us_gaap alternate = Ok series ->
        series <> [] ->
        latest_or us_gaap primary alternate = get_latest us_gaap alternate)
  /\ (annual_series us_gaap primary = Ok [] ->
      annual_series us_gaap alternate = Ok [] ->
      latest_or us_gaap primary alternate = Ok JNull).
Proof.
  intros primary alternate.
  split; [| split; [| split]].
  - intros snapshot H. unfold snapshot_of in H.
    inv_bind H as revenue Hrev. inv_bind H as ni Hni. inv_bind H as ta Hta.
    inv_bind H as cash Hcash. inv_bind H as eq Heq. injection H as <-.
    simpl. symmetry. exact Hrev.
  - intros series r Hs Hne Hr.
    assert (Ht : truthy r = true).
    { rewrite get_latest_series, Hs in Hr. simpl in Hr.
      rewrite (latest_of_truthy _ Hr). destruct series; congruence. }
    split.
    + unfold latest_or. rewrite Hr. simpl. rewrite Ht. reflexivity.
    + intros ->. discriminate Ht.
  - intros series Hp _ _.
    unfold latest_or. rewrite (get_latest_series us_gaap primary), Hp. reflexivity.
  - intros Hp Ha.
    unfold latest_or. rewrite (get_latest_series us_gaap primary), Hp. simpl.
    rewrite get_latest_series, Ha. reflexivity.
Qed.

Lemma revenue_falls_back_to_contract_revenue_witness :
  latest_or sample_revenue_facts "Revenues"
    "RevenueFromContractWithCustomerExcludingAssessedTax" =
  Ok (JDict [("value", JInt 32681000000); ("period_end", JStr "2023-12-31")])
  /\ latest_or sample_us_gaap "Revenues"
       "RevenueFromContractWithCustomerExcludingAssessedTax" = Ok JNull
  /\ latest_or (JDict [("Revenues", JDict [("units", JDict [("USD", JList [JDict [("end", JStr "2023-12-31"); ("val", JInt 7); ("form", JStr "10-K")]])])])])
       "Revenues" "RevenueFromContractWithCustomerExcludingAssessedTax" =
     Ok (JDict [("value", JInt 7); ("period_end", JStr "2023-12-31")]).
Proof.
  split; [| split].
  - destruct (revenue_falls_back_to_contract_revenue sample_revenue_facts)
      as (_ & _ & Halt & _).
    rewrite (Halt [JDict [("end", JStr "2023-12-31"); ("val", JInt 32681000000); ("form", JStr "10-K")]]);
      [reflexivity | reflexivity | reflexivity | discriminate].
  - destruct (revenue_falls_back_to_contract_revenue sample_us_gaap)
      as (_ & _ & _ & Hnone).
    apply Hnone; reflexivity.
  - match goal with |- latest_or ?u _ _ = _ =>
      destruct (revenue_falls_back_to_contract_revenue u) as (_ & Hprim & _ & _) end.
    refine (proj1 (Hprim [JDict [("end", JStr "2023-12-31"); ("val", JInt 7); ("form", JStr "10-K")]] _ _ _ _));
      [reflexivity | discriminate | reflexivity].
Defined.

(** ** CapacityScorer *)

Lemma concept_value_amount (financials : json) (k : string) (v : json) :
  concept_value financials k = Ok v ->
  (as_int v = Some (amount financials k)
   /\ truthy v = negb (amount financials k =? 0))
  \/ (as_int v = None /\ truthy v = true).
Proof.
  unfold concept_value, amount.
  destruct financials as [| | | | | d]; simpl; try discriminate.
  destruct (lookup k d) as [c |]; simpl.
  - unfold py_or at 1.
    destruct (truthy c) eqn:Hc.
    + destruct c as [| | | | | c']; simpl; try discriminate.
      destruct (lookup "value" c') as [v0 |]; simpl.
      * unfold py_or. intros [= <-].
        destruct v0 as [| [] | z | s | l | d0]; simpl; auto.
        -- destruct (z =? 0) eqn:Hz; simpl.
           ++ apply Z.eqb_eq in Hz. subst. auto.
           ++ rewrite Hz. auto.
        -- destruct (String.eqb s "") eqn:Hs; simpl; rewrite ?Hs; auto.
        -- destruct l; simpl; auto.
        -- destruct d0; simpl; auto.
      * intros [= <-]. left. auto.
    + assert (Hzero : match c with
                      | JDict c' =>
                          match lookup "value" c' with
                          | Some v0 => match as_int v0 with Some z => z | None => 0 end
                          | None => 0
                          end
                      | _ => 0
                      end = 0).
      { destruct c as [| | | | | [| ? ?]]; simpl in *; auto. discriminate. }
      rewrite Hzero. simpl. intros [= <-]. left. auto.
  - intros [= <-]. left. auto.
Qed.

Lemma rationale_line_for (label unavailable : string) (v : json) (z : Z) (l : string) :
  as_int v = Some z ->
  truthy v = negb (z =? 0) ->
  rationale_line label unavailable v = Ok l ->
  line_for label unavailable z = Ok l.
Proof.
  unfold rationale_line, line_for, py_div_1e9. intros Hz Ht.
  rewrite Ht, Hz. simpl. destruct (z =? 0); simpl; auto.
Qed.

Lemma rationale_line_numeric (label unavailable : string) (v : json) (l : string) :
  as_int v = None -> truthy v = true ->
  rationale_line label unavailable v = Ok l -> False.
Proof.
  unfold rationale_line, py_div_1e9. intros -> ->. discriminate.
Qed.

Lemma py_add_div_billion (a b : json) (total : json) (q : Q) :
  py_add a b = Ok total ->
  py_div_billion total = Ok q ->
  exists x y, as_int a = Some x /\ as_int b = Some y /\ q = (x + y) # 1000000000.
Proof.
  unfold py_add, py_div_billion.
  destruct a, b; simpl; try discriminate;
    intros [= <-]; simpl; try discriminate;
    intros [= <-]; eauto.
Qed.

(** What a successful call of [calculate_capacity_rating] returns, in terms
    of the amounts of the three concepts. *)
Lemma calculate_capacity_rating_inv (financials : json) (r : capacity_rating) :
  calculate_capacity_rating financials = Ok r ->
  let cash := amount financials "cash_and_equivalents" in
  let net_income := amount financials "net_income" in
  let assets := amount financials "total_assets" in
  score r = (cash + net_income) # 1000000000
  /\ (rating r, color r) = tier_of (score r)
  /\ exists l1 l2 l3,
       rationale r = [l1; l2; l3]
       /\ line_for "Cash position: $" "Cash data unavailable" cash = Ok l1
       /\ line_for "Net income: $" "Net income data unavailable" net_income = Ok l2
       /\ line_for "Total assets: $" "Assets data unavailable" assets = Ok l3.
Proof.
  unfold calculate_capacity_rating. intros H.
  inv_bind H as vc Hvc. inv_bind H as vn Hvn. inv_bind H as va Hva.
  inv_bind H as total Htotal. inv_bind H as q Hq.
  destruct (tier_of q) as [rt cl] eqn:Htier.
  inv_bind H as l1 Hl1. inv_bind H as l2 Hl2. inv_bind H as l3 Hl3.
  injection H as <-. simpl.
  destruct (py_add_div_billion _ _ Htotal Hq) as (x & y & Hx & Hy & ->).
  destruct (concept_value_amount _ _ Hvc) as [[Hc1 Hc2] | [Hc1 _]]; [| congruence].
  destruct (concept_value_amount _ _ Hvn) as [[Hn1 Hn2] | [Hn1 _]]; [| congruence].
  rewrite Hx in Hc1. injection Hc1 as ->.
  rewrite Hy in Hn1. injection Hn1 as ->.
  split; [reflexivity |]. split; [symmetry; exact Htier |].
  exists l1, l2, l3. split; [reflexivity |].
  split; [eapply rationale_line_for; eassumption |].
  split; [eapply rationale_line_for; eassumption |].
  destruct (concept_value_amount _ _ Hva) as [[Ha1 Ha2] | [Ha1 Ha2]].
  - eapply rationale_line_for; eassumption.
  - destruct (rationale_line_numeric _ _ _ Ha1 Ha2 Hl3).
Qed.

Lemma Qgtb_true (a b : Q) : Qgtb a b = true <-> (b < a)%Q.
Proof.
  unfold Qgtb, Qltb. rewrite negb_true_iff. split.
  - intros H. apply Qnot_le_lt. intros Hle.
    apply Qle_bool_iff in Hle. congruence.
  - intros H. destruct (Qle_bool a b) eqn:Hle; [| reflexivity].
    apply Qle_bool_iff in Hle. destruct (Qlt_not_le _ _ H Hle).
Qed.

Lemma Qgtb_false (a b : Q) : Qgtb a b = false <-> (a <= b)%Q.
Proof.
  unfold Qgtb, Qltb. rewrite negb_false_iff. apply Qle_bool_iff.
Qed.

(** The tier as a function of the score: every threshold is exclusive. *)
Lemma tier_of_cases (q : Q) :
  ((30 < q)%Q /\ fst (tier_of q) = "MAJOR ($1M+)")
  \/ ((15 < q)%Q /\ (q <= 30)%Q /\ fst (tier_of q) = "LEADERSHIP ($250K-$1M)")
  \/ ((5 < q)%Q /\ (q <= 15)%Q /\ fst (tier_of q) = "PRINCIPAL ($50K-$250K)")
  \/ ((q <= 5)%Q /\ fst (tier_of q) = "STANDARD ($10K-$50K)").
Proof.
  unfold tier_of.
  destruct (Qgtb q 30) eqn:H30.
  { left. apply Qgtb_true in H30. auto. }
  apply Qgtb_false in H30.
  destruct (Qgtb q 15) eqn:H15.
  { right; left. apply Qgtb_true in H15. auto. }
  apply Qgtb_false in H15.
  destruct (Qgtb q 5) eqn:H5.
  { right; right; left. apply Qgtb_true in H5. auto. }
  apply Qgtb_false in H5. right; right; right. auto.
Qed.

Lemma rating_of_score (financials : json) (r : capacity_rating) :
  calculate_capacity_rating financials = Ok r ->
  rating r = fst (tier_of (score r)).
Proof.
  intros H. destruct (calculate_capacity_rating_inv _ H) as (_ & Ht & _).
  rewrite <- Ht. reflexivity.
Qed.

(** C4.  The thresholds of the capacity tiers are exclusive: a score of
    exactly 30 is LEADERSHIP and not MAJOR, exactly 15 is PRINCIPAL and
    not LEADERSHIP, exactly 5 is STANDARD and not PRINCIPAL; a tier is
    reached only by a score strictly above its threshold. *)
Theorem tier_thresholds_are_exclusive (financials : json) (r : capacity_rating) :
  calculate_capacity_rating financials = Ok r ->
  ((score r == 30)%Q -> rating r = "LEADERSHIP ($250K-$1M)")
  /\ ((score r == 15)%Q -> rating r = "PRINCIPAL ($50K-$250K)")
  /\ ((score r == 5)%Q -> rating r = "STANDARD ($10K-$50K)")
  /\ (rating r = "MAJOR ($1M+)" <-> (30 < score r)%Q)
  /\ (rating r = "LEADERSHIP ($250K-$1M)" <-> (15 < score r)%Q /\ (score r <= 30)%Q)
  /\ (rating r = "PRINCIPAL ($50K-$250K)" <-> (5 < score r)%Q /\ (score r <= 15)%Q)
  /\ (rating r = "STANDARD ($10K-$50K)" <-> (score r <= 5)%Q).
Proof.
  intros H. rewrite (rating_of_score _ H).
  generalize (score r). intros q.
  destruct (tier_of_cases q)
    as [[Ha ->] | [(Ha & Hb & ->) | [(Ha & Hb & ->) | [Ha ->]]]];
    repeat split; intros; try discriminate; try reflexivity;
    try match goal with H0 : _ /\ _ |- _ => destruct H0 end;
    lra.
Qed.

Lemma tier_thresholds_are_exclusive_witness :
  exists r,
    calculate_capacity_rating
      (sample_snapshot (sample_concept 20000000000) (sample_concept 10000000000) JNull) = Ok r
    /\ rating r = "LEADERSHIP ($250K-$1M)".
Proof.
  eexists. split.
  - vm_compute. reflexivity.
  - refine (proj1 (@tier_thresholds_are_exclusive
                     (sample_snapshot (sample_concept 20000000000)
                                      (sample_concept 10000000000) JNull) _ _) _).
    + vm_compute. reflexivity.
    + vm_compute. reflexivity.
Defined.

(** C5.  The capacity score is (cash and equivalents + net income) over
    10^9, a missing concept or a missing value inside it counting as
    zero; two snapshots with the same cash and net income have the same
    score whatever their total assets. *)
Theorem capacity_score_is_cash_plus_income (financials : json) (r : capacity_rating) :
  calculate_capacity_rating financials = Ok r ->
  score r = (amount financials "cash_and_equivalents"
             + amount financials "net_income") # 1000000000
  /\ (forall financials' r',
        calculate_capacity_rating financials' = Ok r' ->
        amount financials' "cash_and_equivalents" = amount financials "cash_and_equivalents" ->
        amount financials' "net_income" = amount financials "net_income" ->
        score r' = score r).
Proof.
  intros H. destruct (calculate_capacity_rating_inv _ H) as (Hs & _).
  split; [exact Hs |].
  intros financials' r' H' Hc Hn.
  destruct (calculate_capacity_rating_inv _ H') as (Hs' & _).
  rewrite Hs, Hs', Hc, Hn. reflexivity.
Qed.

Lemma capacity_score_is_cash_plus_income_witness :
  exists r r',
    calculate_capacity_rating
      (sample_snapshot (sample_concept 10000000000) JNull (sample_concept 500000000000)) = Ok r
    /\ calculate_capacity_rating
      (sample_snapshot (sample_concept 10000000000)
                       (JDict [("value", JNull); ("period_end", JNull)]) JNull) = Ok r'
    /\ score r = 10000000000 # 1000000000
    /\ score r' = score r.
Proof.
  eexists. eexists. split; [vm_compute; reflexivity |].
  split; [vm_compute; reflexivity |].
  split.
  - refine (proj1 (@capacity_score_is_cash_plus_income
                     (sample_snapshot (sample_concept 10000000000) JNull
                                      (sample_concept 500000000000)) _ _)).
    vm_compute. reflexivity.
  - refine (proj2 (@capacity_score_is_cash_plus_income
                     (sample_snapshot (sample_concept 10000000000) JNull
                                      (sample_concept 500000000000)) _ _)
                  (sample_snapshot (sample_concept 10000000000)
                                   (JDict [("value", JNull); ("period_end", JNull)]) JNull)
                  _ _ _ _);
      vm_compute; reflexivity.
Defined.

Lemma tier_rank_monotone (q1 q2 : Q) :
  (q2 <= q1)%Q ->
  (tier_rank (fst (tier_of q2)) <= tier_rank (fst (tier_of q1)))%nat.
Proof.
  intros Hle.
  destruct (tier_of_cases q1)
    as [[Ha ->] | [(Ha & Hb & ->) | [(Ha & Hb & ->) | [Ha ->]]]];
    destruct (tier_of_cases q2)
      as [[Hc ->] | [(Hc & Hd & ->) | [(Hc & Hd & ->) | [Hc ->]]]];
    try (vm_compute; lia); exfalso; lra.
Qed.

(** C6.  The scorer is monotonic in cash + net income: a snapshot whose
    sum is at least that of another has a tier that is not lower (in the
    order STANDARD < PRINCIPAL < LEADERSHIP < MAJOR) and a score that is
    not smaller. *)
Theorem capacity_is_monotonic (f1 f2 : json) (r1 r2 : capacity_rating) :
  calculate_capacity_rating f1 = Ok r1 ->
  calculate_capacity_rating f2 = Ok r2 ->
  amount f2 "cash_and_equivalents" + amount f2 "net_income"
    <= amount f1 "cash_and_equivalents" + amount f1 "net_income" ->
  (tier_rank (rating r2) <= tier_rank (rating r1))%nat
  /\ (score r2 <= score r1)%Q.
Proof.
  intros H1 H2 Hsum.
  assert (Hle : (score r2 <= score r1)%Q).
  { destruct (calculate_capacity_rating_inv _ H1) as (-> & _).
    destruct (calculate_capacity_rating_inv _ H2) as (-> & _).
    unfold Qle. simpl. lia. }
  split; [| exact Hle].
  rewrite (rating_of_score _ H1), (rating_of_score _ H2).
  apply tier_rank_monotone. exact Hle.
Qed.

Lemma capacity_is_monotonic_witness :
  exists r1 r2,
    calculate_capacity_rating
      (sample_snapshot (sample_concept 10000000000) (sample_concept 25000000000) JNull) = Ok r1
    /\ calculate_capacity_rating
      (sample_snapshot (sample_concept 2000000000) (sample_concept 1000000000) JNull) = Ok r2
    /\ (tier_rank (rating r2) <= tier_rank (rating r1))%nat
    /\ (score r2 <= score r1)%Q.
Proof.
  eexists. eexists. split; [vm_compute; reflexivity |].
  split; [vm_compute; reflexivity |].
  refine (@capacity_is_monotonic
            (sample_snapshot (sample_concept 10000000000) (sample_concept 25000000000) JNull)
            (sample_snapshot (sample_concept 2000000000) (sample_concept 1000000000) JNull)
            _ _ _ _ _).
  - vm_compute. reflexivity.
  - vm_compute. reflexivity.
  - vm_compute. discriminate.
Defined.

(** ** Doubles *)

Lemma digits2_pos_size (p : positive) : digits2_pos p = Pos.size p.
Proof. induction p; simpl; congruence. Qed.

(** A positive number is below two to the number of its digits. *)
Lemma Zdigits2_gt (m : Z) : 0 <= m -> m < 2 ^ Zdigits2 m.
Proof.
  destruct m as [| p | p]; simpl; intros H; [reflexivity | | lia].
  rewrite digits2_pos_size.
  pose proof (Pos.size_gt p) as Hp.
  apply Pos2Z.pos_lt_pos in Hp. rewrite Pos2Z.inj_pow in Hp. exact Hp.
Qed.

Lemma Zdigits2_nonneg (m : Z) : 0 <= Zdigits2 m.
Proof. destruct m; simpl; lia. Qed.

(** A number below [2 ^ k] has at most [k] digits. *)
Lemma Zdigits2_le (m k : Z) : 0 <= m -> 0 <= k -> m < 2 ^ k -> Zdigits2 m <= k.
Proof.
  destruct m as [| p | p]; simpl; intros Hm Hk Hlt; [exact Hk | | lia].
  rewrite digits2_pos_size.
  pose proof (Pos.size_le p) as Hp.
  apply Pos2Z.pos_le_pos in Hp. rewrite Pos2Z.inj_pow in Hp.
  change (Z.pos p~0) with (2 * Z.pos p) in Hp.
  destruct (Z_lt_le_dec k (Z.pos (Pos.size p))) as [Hgt | Hle]; [| exact Hle].
  exfalso.
  assert (Hpow : 2 ^ (k + 1) <= 2 ^ Z.pos (Pos.size p))
    by (apply Z.pow_le_mono_r; lia).
  rewrite Z.pow_add_r in Hpow by lia.
  lia.
Qed.

Lemma shr_1_m (mrs : shr_record) :
  0 <= shr_m mrs -> shr_m (shr_1 mrs) = shr_m mrs / 2.
Proof.
  destruct mrs as [m r s]; simpl.
  destruct m as [| [p | p |] | p]; simpl; intros H; try reflexivity; try lia.
  - apply Z.div_unique with 1; lia.
  - apply Z.div_unique with 0; lia.
Qed.

Lemma pow2_xO (n : positive) : 2 ^ Z.pos n~0 = 2 ^ Z.pos n * 2 ^ Z.pos n.
Proof.
  replace (Z.pos n~0) with (Z.pos n + Z.pos n) by lia.
  apply Z.pow_add_r; lia.
Qed.

Lemma pow2_xI (n : positive) : 2 ^ Z.pos n~1 = 2 * 2 ^ Z.pos n * 2 ^ Z.pos n.
Proof.
  replace (Z.pos n~1) with (1 + (Z.pos n + Z.pos n)) by lia.
  rewrite Z.pow_add_r, Z.pow_1_r, Z.pow_add_r by lia. lia.
Qed.

Lemma iter_pos_shr_1_m (n : positive) :
  forall mrs, 0 <= shr_m mrs ->
    shr_m (iter_pos shr_1 n mrs) = shr_m mrs / 2 ^ Z.pos n.
Proof.
  induction n as [n IH | n IH |]; intros mrs H; simpl iter_pos.
  - assert (H1 : 0 <= shr_m (shr_1 mrs))
      by (rewrite shr_1_m by exact H; apply Z.div_pos; lia).
    assert (H2 : 0 <= shr_m (iter_pos shr_1 n (shr_1 mrs)))
      by (rewrite IH by exact H1; apply Z.div_pos; lia).
    rewrite IH by exact H2. rewrite IH by exact H1. rewrite shr_1_m by exact H.
    rewrite !Z.div_div by lia.
    rewrite pow2_xI. f_equal. lia.
  - assert (H2 : 0 <= shr_m (iter_pos shr_1 n mrs))
      by (rewrite IH by exact H; apply Z.div_pos; lia).
    rewrite IH by exact H2. rewrite IH by exact H.
    rewrite Z.div_div by lia.
    rewrite pow2_xO. reflexivity.
  - rewrite shr_1_m by exact H. reflexivity.
Qed.

(** [shr_fexp] on a mantissa that is not negative: the exponent moves up
    to the canonical one and the mantissa is divided accordingly. *)
Lemma shr_fexp_spec (m e : Z) (l : location) (mrs : shr_record) (e' : Z) :
  0 <= m ->
  shr_fexp dprec demax m e l = (mrs, e') ->
  e' = Z.max e (fexp dprec demax (Zdigits2 m + e))
  /\ shr_m mrs = m / 2 ^ (e' - e).
Proof.
  intros Hm. unfold shr_fexp, shr.
  assert (Hinit : shr_m (shr_record_of_loc m l) = m)
    by (destruct l as [| []]; reflexivity).
  destruct (fexp dprec demax (Zdigits2 m + e) - e) as [| n | n] eqn:Hn;
    intros [= <- <-].
  - split; [lia |]. rewrite Hinit.
    replace (e - e) with 0 by lia. rewrite Z.div_1_r. reflexivity.
  - split; [lia |].
    rewrite iter_pos_shr_1_m by (rewrite Hinit; exact Hm).
    rewrite Hinit. f_equal. f_equal. lia.
  - split; [lia |]. rewrite Hinit.
    replace (e - e) with 0 by lia. rewrite Z.div_1_r. reflexivity.
Qed.

Lemma round_nearest_even_bounds (m : Z) (l : location) :
  m <= round_nearest_even m l <= m + 1.
Proof.
  unfold round_nearest_even. destruct l as [| []]; try destruct (Z.even m); lia.
Qed.

Lemma pow2_pos (k : Z) : 0 <= k -> 0 < 2 ^ k.
Proof. intros H. apply Z.pow_pos_nonneg; lia. Qed.

Lemma Zdigits2_div_pow2 (m n : Z) :
  0 <= m -> 0 <= n -> Zdigits2 (m / 2 ^ n) <= Z.max 0 (Zdigits2 m - n).
Proof.
  intros Hm Hn.
  pose proof (@Zdigits2_gt m Hm) as Hlt.
  pose proof (Zdigits2_nonneg m) as Hd.
  pose proof (@pow2_pos n Hn) as Hpn.
  destruct (Z_le_gt_dec n (Zdigits2 m)) as [Hle | Hgt].
  - rewrite Z.max_r by lia.
    apply Zdigits2_le; [apply Z.div_pos; lia | lia |].
    apply Z.div_lt_upper_bound; [lia |].
    rewrite <- Z.pow_add_r by lia.
    replace (n + (Zdigits2 m - n)) with (Zdigits2 m) by lia. exact Hlt.
  - rewrite Z.max_l by lia.
    assert (Hsmall : m < 2 ^ n).
    { apply Z.lt_le_trans with (2 ^ Zdigits2 m); [exact Hlt |].
      apply Z.pow_le_mono_r; lia. }
    rewrite Z.div_small by lia. simpl. lia.
Qed.

Lemma Zdigits2_succ_le (m k : Z) :
  0 <= m -> 0 <= k -> Zdigits2 m <= k -> forall m', 0 <= m' <= m + 1 -> Zdigits2 m' <= k + 1.
Proof.
  intros Hm Hk Hd m' Hm'.
  apply Zdigits2_le; [lia | lia |].
  pose proof (@Zdigits2_gt m Hm) as Hlt.
  assert (Hpow : 2 ^ Zdigits2 m <= 2 ^ k)
    by (apply Z.pow_le_mono_r; [lia | exact Hd]).
  rewrite Z.pow_add_r, Z.pow_1_r by lia.
  pose proof (@pow2_pos k Hk). lia.
Qed.

Lemma fexp_double (e : Z) : fexp dprec demax e = Z.max (e - 53) (-1074).
Proof. reflexivity. Qed.

(** Rounding a mantissa that is not negative never gives NaN; a finite
    result is bounded; and there is no overflow below [2 ^ 1023]. *)
Lemma binary_round_aux_spec (s : bool) (mx ex : Z) (lx : location) :
  0 <= mx ->
  let r := binary_round_aux dprec demax s mx ex lx in
  r <> S754_nan
  /\ (forall s' m e, r = S754_finite s' m e ->
        e <= 971 /\ Z.pos (digits2_pos m) <= 53)
  /\ (ex <= 971 -> Zdigits2 mx + ex <= 1023 -> forall s', r <> S754_infinity s').
Proof.
  intros Hmx r. subst r. unfold binary_round_aux.
  destruct (shr_fexp dprec demax mx ex lx) as [mrs' e'] eqn:H1.
  apply shr_fexp_spec in H1; [| exact Hmx]. destruct H1 as [He' Hm'].
  set (m1 := round_nearest_even (shr_m mrs') (loc_of_shr_record mrs')).
  assert (Hn : 0 <= e' - ex) by lia.
  assert (Hm'0 : 0 <= shr_m mrs')
    by (rewrite Hm'; apply Z.div_pos; [exact Hmx | apply pow2_pos; exact Hn]).
  pose proof (round_nearest_even_bounds (shr_m mrs') (loc_of_shr_record mrs')) as Hm1.
  fold m1 in Hm1.
  assert (Hm10 : 0 <= m1) by lia.
  destruct (shr_fexp dprec demax m1 e' loc_Exact) as [mrs'' e''] eqn:H2.
  apply shr_fexp_spec in H2; [| exact Hm10]. destruct H2 as [He'' Hm''].
  assert (Hn2 : 0 <= e'' - e') by lia.
  assert (Hm''0 : 0 <= shr_m mrs'')
    by (rewrite Hm''; apply Z.div_pos; [exact Hm10 | apply pow2_pos; exact Hn2]).
  rewrite fexp_double in He', He''.
  pose proof (@Zdigits2_div_pow2 m1 (e'' - e') Hm10 Hn2) as Hdig.
  rewrite <- Hm'' in Hdig.
  pose proof (@Zdigits2_div_pow2 mx (e' - ex) Hmx Hn) as Hdig'.
  rewrite <- Hm' in Hdig'.
  assert (Hdm1 : Zdigits2 m1 <= Z.max 0 (Zdigits2 mx - (e' - ex)) + 1).
  { apply Zdigits2_succ_le with (shr_m mrs'); try lia. }
  destruct (shr_m mrs'') as [| m | m] eqn:Hcase; [| | lia].
  - repeat split; intros; discriminate.
  - change (demax - dprec) with 971.
    destruct (e'' <=? 971) eqn:Hle.
    + apply Z.leb_le in Hle.
      split; [discriminate |]. split; [| intros; discriminate].
      intros s' m0 e0 [= <- <- <-]. split; [exact Hle |].
      simpl in Hdig. lia.
    + apply Z.leb_gt in Hle.
      split; [discriminate |]. split; [intros; discriminate |].
      intros Hex Hsize s' _.
      pose proof (Zdigits2_nonneg mx). lia.
Qed.

Lemma binary_round_bounded (s : bool) (m : positive) (f : spec_float) :
  binary_round dprec demax s m 0 = f ->
  (forall s', f <> S754_infinity s') ->
  bounded_double f.
Proof.
  unfold binary_round.
  destruct (shl_align m 0 (fexp dprec demax (Z.pos (digits2_pos m) + 0)))
    as [mz ez].
  intros <- Hinf.
  destruct (@binary_round_aux_spec s (Z.pos mz) ez loc_Exact) as (Hnan & Hfin & _);
    [lia |].
  destruct (binary_round_aux dprec demax s (Z.pos mz) ez loc_Exact)
    as [s0 | s0 | | s0 m0 e0]; simpl.
  - exact I.
  - apply (Hinf s0). reflexivity.
  - apply Hnan. reflexivity.
  - apply (Hfin s0 m0 e0). reflexivity.
Qed.

Lemma float_of_int_bounded (z : Z) (f : spec_float) :
  float_of_int z = Ok f -> bounded_double f.
Proof.
  unfold float_of_int, binary_normalize.
  destruct z as [| m | m].
  - intros [= <-]. exact I.
  - destruct (binary_round dprec demax false m 0) as [s0 | s0 | | s0 m0 e0] eqn:Hr;
      try discriminate; intros [= <-];
      (eapply binary_round_bounded; [exact Hr | intros s' Heq; discriminate Heq]).
  - destruct (binary_round dprec demax true m 0) as [s0 | s0 | | s0 m0 e0] eqn:Hr;
      try discriminate; intros [= <-];
      (eapply binary_round_bounded; [exact Hr | intros s' Heq; discriminate Heq]).
Qed.

Lemma f_1e9_eq : f_1e9 = S754_finite false 8388608000000000 (-23).
Proof. reflexivity. Qed.

(** The quotient and remainder [SFdiv] rounds when the divisor is [1e9]. *)
Lemma div_core_1e9 (m : positive) (e : Z) :
  SFdiv_core_binary dprec demax (Z.pos m) e m_1e9 (-23) =
  let e' := Z.min (Z.max (Z.pos (digits2_pos m) + e - 30 - 53) (-1074)) (e + 23) in
  let sh := e + 23 - e' in
  let m' := match sh with
            | 0 => Z.pos m
            | Z.pos _ => Z.shiftl (Z.pos m) sh
            | Z.neg _ => 0
            end in
  let '(q, r) := Z.div_eucl m' m_1e9 in
  (q, e', new_location m_1e9 r).
Proof. reflexivity. Qed.

(** A double over [1e9] is a double: no overflow, no NaN. *)
Lemma div_1e9_finite (f : spec_float) :
  bounded_double f -> finite_double (SFdiv dprec demax f f_1e9).
Proof.
  rewrite f_1e9_eq.
  destruct f as [s | s | | s m e]; intros Hb.
  - exact I.
  - destruct Hb.
  - destruct Hb.
  - destruct Hb as [He Hd].
    unfold SFdiv. change (Z.pos 8388608000000000) with m_1e9.
    rewrite div_core_1e9. cbv zeta.
    set (d1 := Z.pos (digits2_pos m)) in *.
    set (e' := Z.min (Z.max (d1 + e - 30 - 53) (-1074)) (e + 23)).
    set (sh := e + 23 - e').
    assert (Hsh : 0 <= sh) by (unfold sh, e'; lia).
    set (m' := match sh with
               | 0 => Z.pos m
               | Z.pos _ => Z.shiftl (Z.pos m) sh
               | Z.neg _ => 0
               end).
    assert (Hm' : m' = Z.pos m * 2 ^ sh).
    { unfold m'. destruct sh as [| p | p]; [simpl; lia | | lia].
      apply Z.shiftl_mul_pow2. lia. }
    pose proof (@pow2_pos sh Hsh) as Hpsh.
    assert (Hm'0 : 0 <= m') by (rewrite Hm'; lia).
    assert (Hd1 : 0 < d1) by (unfold d1; lia).
    assert (Hdm' : m' < 2 ^ (d1 + sh)).
    { rewrite Hm', Z.pow_add_r by lia.
      assert (Hgt : Z.pos m < 2 ^ d1) by (apply (@Zdigits2_gt (Z.pos m)); lia).
      apply Z.mul_lt_mono_pos_r; [exact Hpsh | exact Hgt]. }
    assert (Hdiv : let (q, r) := Z.div_eucl m' m_1e9 in
                   m' = m_1e9 * q + r /\ 0 <= r < m_1e9)
      by (apply Z_div_mod; reflexivity).
    destruct (Z.div_eucl m' m_1e9) as [q r].
    destruct Hdiv as [Heq Hr]. unfold m_1e9 in Heq, Hr.
    assert (Hq0 : 0 <= q) by nia.
    assert (Hq : q < 2 ^ (Z.max 0 (d1 + sh - 52))).
    { destruct (Z_le_gt_dec 52 (d1 + sh)) as [Hle | Hgt].
      - rewrite Z.max_r by lia.
        assert (H52 : 2 ^ (d1 + sh) = 2 ^ 52 * 2 ^ (d1 + sh - 52)).
        { rewrite <- Z.pow_add_r by lia. f_equal. lia. }
        assert (Hp : 0 < 2 ^ (d1 + sh - 52)) by (apply pow2_pos; lia).
        change (2 ^ 52) with 4503599627370496 in H52. nia.
      - rewrite Z.max_l by lia. simpl.
        assert (Hsmall : 2 ^ (d1 + sh) <= 2 ^ 52)
          by (apply Z.pow_le_mono_r; lia).
        change (2 ^ 52) with 4503599627370496 in Hsmall. nia. }
    assert (Hdq : Zdigits2 q <= Z.max 0 (d1 + sh - 52))
      by (apply Zdigits2_le; [exact Hq0 | lia | exact Hq]).
    destruct (@binary_round_aux_spec (xorb s false) q e'
                (new_location m_1e9 r) Hq0)
      as (Hnan & _ & Hinf).
    assert (He' : e' <= 971) by (unfold e'; lia).
    assert (Hsize : Zdigits2 q + e' <= 1023) by (unfold sh in *; lia).
    specialize (Hinf He' Hsize).
    destruct (binary_round_aux dprec demax (xorb s false) q e'
                (new_location m_1e9 r))
      as [s0 | s0 | | s0 m0 e0]; simpl; auto.
    apply (Hinf s0). reflexivity.
Qed.

Lemma py_div_1e9_finite (x : json) (f : spec_float) :
  py_div_1e9 x = Ok f -> finite_double f.
Proof.
  unfold py_div_1e9. destruct (as_int x) as [z |]; [| discriminate].
  destruct (float_of_int z) as [f0 | e] eqn:Hf; simpl; [| discriminate].
  intros [= <-]. apply div_1e9_finite. eapply float_of_int_bounded. exact Hf.
Qed.

(** ** The rationale lines *)

Lemma decimal_digit (m : Z) :
  0 <= m < 10 ->
  exists d, decimal m = String d EmptyString /\ is_digit d = true.
Proof.
  intros Hm.
  assert (Hcases : m = 0 \/ m = 1 \/ m = 2 \/ m = 3 \/ m = 4 \/ m = 5
                   \/ m = 6 \/ m = 7 \/ m = 8 \/ m = 9) by lia.
  repeat (destruct Hcases as [-> | Hcases]);
    try subst m; eexists; split; vm_compute; reflexivity.
Qed.

(** The [.1f] format of a finite double has exactly one digit after the
    point. *)
Lemma format_1f_one_decimal (f : spec_float) :
  finite_double f -> one_decimal (format_1f f).
Proof.
  destruct f as [s | s | | s m e]; try (simpl; contradiction); intros _.
  - exists s, 0, "0"%char. split; reflexivity.
  - unfold one_decimal, format_1f.
    set (n := tenths (S754_finite s m e)).
    destruct (@decimal_digit (n mod 10)) as (d & Hd & Hdig).
    { apply Z.mod_pos_bound. lia. }
    exists s, (n / 10), d. rewrite Hd. split; [reflexivity | exact Hdig].
Qed.

(** C9, as stated, fails: the cash value of [zero_cash_snapshot] is
    present and its rationale line is the "unavailable" marker. *)
Lemma rationale_marker_for_present_zero :
  ~ (forall financials r,
       calculate_capacity_rating financials = Ok r ->
       (value_present financials "cash_and_equivalents" = true <->
        nth 0 (rationale r) "" <> "Cash data unavailable")).
Proof.
  intros Hclaim.
  assert (Hrun : exists r,
             calculate_capacity_rating zero_cash_snapshot = Ok r
             /\ nth 0 (rationale r) "" = "Cash data unavailable").
  { eexists. split; vm_compute; reflexivity. }
  destruct Hrun as (r & Hr & Hline).
  apply (proj1 (Hclaim _ _ Hr)); [reflexivity | exact Hline].
Qed.

(** C9 (amended).  Each of the three rationale lines (cash, net income,
    total assets) is the "unavailable" marker exactly when the amount is
    absent or zero, and otherwise reports the amount over 1e9 in the
    one-decimal format; the score is fixed by cash and net income alone,
    so total assets is reported without influencing it. *)
Theorem rationale_reports_nonzero_amounts (financials : json) (r : capacity_rating) :
  calculate_capacity_rating financials = Ok r ->
  let report label unavailable k (line : string) :=
    (amount financials k = 0 -> line = unavailable)
    /\ (amount financials k <> 0 ->
        exists f,
          py_div_1e9 (JInt (amount financials k)) = Ok f
          /\ line = label ++ format_1f f ++ "B"
          /\ one_decimal (format_1f f)) in
  (exists cash_line income_line assets_line,
      rationale r = [cash_line; income_line; assets_line]
      /\ report "Cash position: $" "Cash data unavailable"
                "cash_and_equivalents" cash_line
      /\ report "Net income: $" "Net income data unavailable"
                "net_income" income_line
      /\ report "Total assets: $" "Assets data unavailable"
                "total_assets" assets_line)
  /\ score r = (amount financials "cash_and_equivalents"
                + amount financials "net_income") # 1000000000.
Proof.
  intros H report.
  destruct (calculate_capacity_rating_inv _ H)
    as (Hs & _ & l1 & l2 & l3 & Hr & H1 & H2 & H3).
  assert (Hline : forall label unavailable z line,
             line_for label unavailable z = Ok line ->
             (z = 0 -> line = unavailable)
             /\ (z <> 0 ->
                 exists f, py_div_1e9 (JInt z) = Ok f
                           /\ line = label ++ format_1f f ++ "B"
                           /\ one_decimal (format_1f f))).
  { intros label unavailable z line. unfold line_for.
    destruct (z =? 0) eqn:Hz.
    - apply Z.eqb_eq in Hz. intros [= <-]. split; [reflexivity | congruence].
    - apply Z.eqb_neq in Hz. intros Hl. inv_bind Hl as f Hf. injection Hl as <-.
      split; [congruence |]. intros _. exists f.
      repeat split; auto.
      apply format_1f_one_decimal. eapply py_div_1e9_finite. exact Hf. }
  split; [| exact Hs].
  exists l1, l2, l3. unfold report.
  split; [exact Hr |]. split; [| split]; eapply Hline; eassumption.
Qed.

Lemma rationale_reports_nonzero_amounts_witness :
  exists r,
    calculate_capacity_rating zero_cash_snapshot = Ok r
    /\ rationale r =
       ["Cash data unavailable"; "Net income: $4.1B"; "Total assets: $55.4B"]
    /\ score r = (amount zero_cash_snapshot "cash_and_equivalents"
                  + amount zero_cash_snapshot "net_income") # 1000000000.
Proof.
  eexists. split; [vm_compute; reflexivity |].
  split; [reflexivity |].
  refine (proj2 (@rationale_reports_nonzero_amounts zero_cash_snapshot _ _)).
  vm_compute. reflexivity.
Defined.

(** ** AlignmentScorer *)

(** The result of [assess_mission_alignment] from the three keyword
    tests on the industry text. *)
Lemma assess_mission_alignment_text (company : json) (desc : string) :
  industry_text company = Ok desc ->
  assess_mission_alignment company =
  Ok (let st := credit true minnesota_factor 2
                  (credit (any_in manufacturing_terms desc) manufacturing_factor 1
                     (credit (any_in retail_terms desc) retail_factor 2
                        (credit (any_in healthcare_terms desc) healthcare_factor 3
                           ([], 0)))) in
      {| level := level_of (snd st);
         alignment_score := snd st;
         factors := fst st |}).
Proof.
  unfold industry_text, assess_mission_alignment. intros H.
  inv_bind H as d Hd. rewrite Hd. simpl. rewrite H. reflexivity.
Qed.

Lemma assess_mission_alignment_Ok (company : json) (r : alignment) :
  assess_mission_alignment company = Ok r ->
  exists desc, industry_text company = Ok desc.
Proof.
  unfold industry_text, assess_mission_alignment. intros H.
  inv_bind H as d Hd. inv_bind H as desc Hdesc.
  exists desc. rewrite Hd. exact Hdesc.
Qed.

(** C7, as stated, fails: a description with a healthcare, a retail and a
    manufacturing term scores 8, not 7. *)
Lemma alignment_score_with_third_term :
  ~ (forall company desc r,
       industry_text company = Ok desc ->
       any_in healthcare_terms desc = true ->
       any_in retail_terms desc = true ->
       assess_mission_alignment company = Ok r ->
       alignment_score r = 7).
Proof.
  intros Hclaim.
  assert (Hrun : exists r,
             assess_mission_alignment hospital_retail_chemical = Ok r
             /\ alignment_score r = 8).
  { eexists. split; vm_compute; reflexivity. }
  destruct Hrun as (r & Hr & Hscore).
  specialize (Hclaim hospital_retail_chemical _ r eq_refl eq_refl eq_refl Hr).
  rewrite Hscore in Hclaim. discriminate Hclaim.
Qed.

(** C7 (amended).  The contributions are additive and independent: when
    the industry description contains a healthcare term and a retail
    term, the level is HIGH, the healthcare and retail factors come
    first, in that order, and the score is 3 + 2 + 2 = 7 when no
    manufacturing term occurs and 3 + 2 + 1 + 2 = 8 when one does. *)
Theorem healthcare_and_retail_add_up (company : json) (desc : string) :
  industry_text company = Ok desc ->
  any_in healthcare_terms desc = true ->
  any_in retail_terms desc = true ->
  exists r,
    assess_mission_alignment company = Ok r
    /\ level r = "HIGH"
    /\ (any_in manufacturing_terms desc = false ->
        alignment_score r = 3 + 2 + 2
        /\ factors r = [healthcare_factor; retail_factor; minnesota_factor])
    /\ (any_in manufacturing_terms desc = true ->
        alignment_score r = 3 + 2 + 1 + 2
        /\ factors r = [healthcare_factor; retail_factor;
                        manufacturing_factor; minnesota_factor]).
Proof.
  intros Htext Hh Hr.
  rewrite (assess_mission_alignment_text _ Htext), Hh, Hr.
  eexists. split; [reflexivity |].
  destruct (any_in manufacturing_terms desc); simpl;
    repeat split; intros; try discriminate; reflexivity.
Qed.

Lemma healthcare_and_retail_add_up_witness :
  exists r,
    assess_mission_alignment
      (JDict [("sic_description", JStr "Retail-Drug Stores and Hospital Supplies")]) = Ok r
    /\ level r = "HIGH"
    /\ alignment_score r = 7
    /\ factors r = [healthcare_factor; retail_factor; minnesota_factor].
Proof.
  destruct (@healthcare_and_retail_add_up
              (JDict [("sic_description", JStr "Retail-Drug Stores and Hospital Supplies")])
              "retail-drug stores and hospital supplies"
              eq_refl eq_refl eq_refl)
    as (r & Hrun & Hlevel & Hseven & _).
  exists r. destruct (Hseven eq_refl) as [Hscore Hfactors].
  repeat split; assumption.
Defined.

(** C10.  Whatever the company record, a result of the AlignmentScorer
    has a score of at least 2 and a level that is HIGH or MEDIUM, never
    STANDARD, and its last factor is the locality factor; a result exists
    whenever the industry description is text or is missing. *)
Theorem locality_bonus_is_unconditional (company : json) :
  (forall r,
     assess_mission_alignment company = Ok r ->
     2 <= alignment_score r
     /\ level r <> "STANDARD"
     /\ (level r = "HIGH" \/ level r = "MEDIUM")
     /\ exists front, factors r = (front ++ [minnesota_factor])%list)
  /\ (forall desc,
        industry_text company = Ok desc ->
        exists r, assess_mission_alignment company = Ok r).
Proof.
  split.
  - intros r H.
    destruct (assess_mission_alignment_Ok _ H) as (desc & Htext).
    rewrite (assess_mission_alignment_text _ Htext) in H.
    revert H.
    generalize (any_in healthcare_terms desc), (any_in retail_terms desc),
      (any_in manufacturing_terms desc).
    intros [] [] [] [= <-]; unfold credit, level_of; simpl;
      (split; [lia |]); (split; [discriminate |]); (split; [auto |]).
    + exists [healthcare_factor; retail_factor; manufacturing_factor]. reflexivity.
    + exists [healthcare_factor; retail_factor]. reflexivity.
    + exists [healthcare_factor; manufacturing_factor]. reflexivity.
    + exists [healthcare_factor]. reflexivity.
    + exists [retail_factor; manufacturing_factor]. reflexivity.
    + exists [retail_factor]. reflexivity.
    + exists [manufacturing_factor]. reflexivity.
    + exists []. reflexivity.
  - intros desc Htext. rewrite (assess_mission_alignment_text _ Htext).
    eexists. reflexivity.
Qed.

Lemma locality_bonus_is_unconditional_witness :
  exists r,
    assess_mission_alignment (JDict [("name", JStr "ACME")]) = Ok r
    /\ 2 <= alignment_score r
    /\ level r = "MEDIUM".
Proof.
  destruct (locality_bonus_is_unconditional (JDict [("name", JStr "ACME")]))
    as (Hbound & Hruns).
  destruct (Hruns "" eq_refl) as (r & Hr).
  exists r. split; [exact Hr |].
  split; [apply (Hbound r Hr) |].
  vm_compute in Hr. injection Hr as <-. reflexivity.
Defined.

(** ** Sorting by a key *)

Section SortedFacts.
Variables (A K : Type) (key : A -> K) (ltb : K -> K -> bool).

(** [<] on keys is a strict weak order. *)
Hypothesis ltb_asym : forall a b, ltb a b = true -> ltb b a = false.
Hypothesis ltb_negtrans :
  forall a b c, ltb a b = false -> ltb b c = false -> ltb a c = false.

Lemma insert_by_Permutation (x : A) (l : list A) :
  Permutation (insert_by key ltb x l) (x :: l).
Proof.
  induction l as [| y l IH]; simpl; [apply Permutation_refl |].
  destruct (ltb (key y) (key x)); [| apply Permutation_refl].
  apply perm_trans with (y :: x :: l); [| apply perm_swap].
  apply perm_skip. exact IH.
Qed.

Lemma sort_by_Permutation (l : list A) : Permutation (sort_by key ltb l) l.
Proof.
  induction l as [| x l IH]; simpl; [constructor |].
  apply perm_trans with (x :: sort_by key ltb l);
    [apply insert_by_Permutation | apply perm_skip; exact IH].
Qed.

Lemma insert_by_sorted (x : A) (l : list A) :
  StronglySorted (ascending key ltb) l -> StronglySorted (ascending key ltb) (insert_by key ltb x l).
Proof.
  induction 1 as [| y l Hl IH Hy]; simpl.
  - constructor; constructor.
  - destruct (ltb (key y) (key x)) eqn:Hyx.
    + constructor; [exact IH |].
      apply Permutation_Forall with (x :: l).
      * apply Permutation_sym, insert_by_Permutation.
      * constructor; [apply ltb_asym; exact Hyx | exact Hy].
    + constructor; [constructor; assumption |].
      constructor; [exact Hyx |].
      apply Forall_impl with (2 := Hy).
      intros z Hz. unfold ascending in *.
      apply ltb_negtrans with (key y); assumption.
Qed.

Lemma sort_by_sorted (l : list A) : StronglySorted (ascending key ltb) (sort_by key ltb l).
Proof.
  induction l as [| x l IH]; simpl; [constructor | apply insert_by_sorted; exact IH].
Qed.

Lemma insert_by_stable (q : K) (x : A) (l : list A) :
  filter (same_key key ltb q) (insert_by key ltb x l) = filter (same_key key ltb q) (x :: l).
Proof.
  induction l as [| y l IH]; [reflexivity |].
  simpl insert_by. destruct (ltb (key y) (key x)) eqn:Hyx; [| reflexivity].
  change (filter (same_key key ltb q) (y :: insert_by key ltb x l))
    with (if same_key key ltb q y then y :: filter (same_key key ltb q) (insert_by key ltb x l)
          else filter (same_key key ltb q) (insert_by key ltb x l)).
  rewrite IH. simpl.
  destruct (same_key key ltb q y) eqn:Hy; [| reflexivity].
  destruct (same_key key ltb q x) eqn:Hx; [| reflexivity].
  unfold same_key in Hx, Hy.
  apply andb_true_iff in Hx, Hy.
  destruct Hx as [Hqx _], Hy as [_ Hyq].
  apply negb_true_iff in Hqx, Hyq.
  rewrite (ltb_negtrans Hyq Hqx) in Hyx. discriminate Hyx.
Qed.

Lemma sort_by_stable (q : K) (l : list A) :
  filter (same_key key ltb q) (sort_by key ltb l) = filter (same_key key ltb q) l.
Proof.
  induction l as [| x l IH]; [reflexivity |].
  simpl sort_by. rewrite insert_by_stable. simpl. rewrite IH. reflexivity.
Qed.

Lemma filter_rev_commute (f : A -> bool) (l : list A) :
  filter f (rev l) = rev (filter f l).
Proof.
  induction l as [| x l IH]; [reflexivity |].
  simpl. rewrite filter_app, IH. simpl.
  destruct (f x); simpl; [reflexivity | apply app_nil_r].
Qed.

Lemma StronglySorted_snoc (R : A -> A -> Prop) (l : list A) (x : A) :
  StronglySorted R l -> Forall (fun y => R y x) l -> StronglySorted R (l ++ [x]).
Proof.
  induction 1 as [| y l Hl IH Hy]; intros Hall; simpl.
  - constructor; constructor.
  - inversion Hall as [| ? ? Hyx Hlx]; subst.
    constructor; [apply IH; exact Hlx |].
    apply Forall_app. split; [exact Hy | constructor; [exact Hyx | constructor]].
Qed.

Lemma StronglySorted_rev (R : A -> A -> Prop) (l : list A) :
  StronglySorted R l -> StronglySorted (fun x y => R y x) (rev l).
Proof.
  induction 1 as [| y l Hl IH Hy]; simpl; [constructor |].
  apply StronglySorted_snoc; [exact IH |].
  apply Forall_rev. exact Hy.
Qed.

Lemma sorted_reverse_Permutation (l : list A) :
  Permutation (sorted_reverse key ltb l) l.
Proof.
  unfold sorted_reverse.
  apply perm_trans with (sort_by key ltb (rev l)).
  - apply Permutation_sym, Permutation_rev.
  - apply perm_trans with (rev l);
      [apply sort_by_Permutation | apply Permutation_sym, Permutation_rev].
Qed.

Lemma sorted_reverse_descending (l : list A) :
  StronglySorted (descending key ltb) (sorted_reverse key ltb l).
Proof.
  unfold sorted_reverse.
  apply (StronglySorted_rev (R := ascending key ltb)). apply sort_by_sorted.
Qed.

Lemma sorted_reverse_stable (q : K) (l : list A) :
  filter (same_key key ltb q) (sorted_reverse key ltb l) = filter (same_key key ltb q) l.
Proof.
  unfold sorted_reverse.
  rewrite filter_rev_commute, sort_by_stable, filter_rev_commute.
  apply rev_involutive.
Qed.
End SortedFacts.

Lemma Qltb_true (a b : Q) : Qltb a b = true <-> (a < b)%Q.
Proof. apply (Qgtb_true b a). Qed.

Lemma Qltb_false (a b : Q) : Qltb a b = false <-> (b <= a)%Q.
Proof. apply (Qgtb_false b a). Qed.

Lemma Qltb_asym (a b : Q) : Qltb a b = true -> Qltb b a = false.
Proof. rewrite Qltb_true, Qltb_false. apply Qlt_le_weak. Qed.

Lemma Qltb_negtrans (a b c : Q) :
  Qltb a b = false -> Qltb b c = false -> Qltb a c = false.
Proof. rewrite !Qltb_false. intros H1 H2. eapply Qle_trans; eassumption. Qed.

Lemma same_key_Qeq (p : profile) (q : Q) :
  same_key capacity_score Qltb q p = Qeq_bool (capacity_score p) q.
Proof.
  unfold same_key.
  destruct (Qeq_bool (capacity_score p) q) eqn:He.
  - apply Qeq_bool_iff in He.
    assert (H1 : Qltb q (capacity_score p) = false) by (apply Qltb_false; lra).
    assert (H2 : Qltb (capacity_score p) q = false) by (apply Qltb_false; lra).
    rewrite H1, H2. reflexivity.
  - destruct (Qltb q (capacity_score p)) eqn:H1; [reflexivity |].
    destruct (Qltb (capacity_score p) q) eqn:H2; [reflexivity |].
    apply Qltb_false in H1, H2.
    assert (Heq : (capacity_score p == q)%Q) by lra.
    apply Qeq_bool_iff in Heq. congruence.
Qed.

(** ** The orchestrator *)

Lemma valid_results_In (results : list research_result) (p : profile) :
  In p (valid_results results) <-> In (Profile p) results.
Proof.
  induction results as [| [e | p'] rest IH]; simpl.
  - tauto.
  - rewrite IH. split; [auto | intros [H | H]; [discriminate H | exact H]].
  - rewrite IH. split; intros [H | H]; auto.
    + left. congruence.
    + left. congruence.
Qed.

Lemma valid_results_filter (results : list research_result) :
  map Profile (valid_results results) =
  filter (fun r => negb (has_key "error" r)) results.
Proof.
  induction results as [| [e | p] rest IH]; simpl; [reflexivity | exact IH |].
  rewrite IH. reflexivity.
Qed.

Lemma StronglySorted_weaken {A : Type} (R R' : A -> A -> Prop) (l : list A) :
  (forall a b, R a b -> R' a b) -> StronglySorted R l -> StronglySorted R' l.
Proof.
  intros Himp. induction 1 as [| x l Hl IH Hx]; constructor; [exact IH |].
  apply Forall_impl with (2 := Hx). intros b. apply Himp.
Qed.

(** C8.  The priority ordering is made of exactly the results without an
    ["error"] key, it is in descending order of capacity score, and
    results with equal scores stand in it in their encounter order. *)
Theorem priority_ranking_is_stable_descending (results : list research_result) :
  map Profile (valid_results results) =
    filter (fun r => negb (has_key "error" r)) results
  /\ Permutation (priority_ranking results) (valid_results results)
  /\ StronglySorted (fun a b => (capacity_score b <= capacity_score a)%Q)
       (priority_ranking results)
  /\ (forall q,
        filter (fun p => Qeq_bool (capacity_score p) q) (priority_ranking results) =
        filter (fun p => Qeq_bool (capacity_score p) q) (valid_results results)).
Proof.
  split; [apply valid_results_filter |].
  split; [apply sorted_reverse_Permutation |].
  split.
  - apply StronglySorted_weaken
      with (R := descending capacity_score Qltb).
    + intros a b H. apply Qltb_false. exact H.
    + exact (@sorted_reverse_descending _ _ capacity_score Qltb
                 Qltb_asym Qltb_negtrans (valid_results results)).
  - intros q.
    rewrite (filter_ext _ _ (fun p => eq_sym (same_key_Qeq p q))).
    rewrite (filter_ext _ _ (fun p => eq_sym (same_key_Qeq p q))).
    exact (@sorted_reverse_stable _ _ capacity_score Qltb
             Qltb_negtrans q (valid_results results)).
Qed.

Section OrchestratorFacts.
Variable http_get : string -> list (string * string) -> http_reply.
Variable py_str : json -> string.
Variable exn_str : py_exn -> string.
Variable now_isoformat : config -> string.

Abbreviation research := (research_company http_get py_str exn_str now_isoformat).
Abbreviation research_all := (research_all_companies http_get py_str exn_str now_isoformat).

Lemma research_company_unresolved (c : config) :
  get_cik_from_ticker http_get py_str (cfg_ticker c) = None ->
  research c = Ok (Failure ("Could not find CIK for " ++ cfg_ticker c)).
Proof.
  intros H. unfold research_company. rewrite H. reflexivity.
Qed.

Lemma research_company_config (c : config) (p : profile) :
  research c = Ok (Profile p) -> config_of p = c.
Proof.
  unfold research_company.
  destruct (get_cik_from_ticker http_get py_str (cfg_ticker c)) as [[| a cik] |];
    try discriminate.
  destruct (get_company_info http_get exn_str (cfg_ticker c) (String a cik));
    try discriminate.
  intros H. inv_bind H as capacity Hcap. inv_bind H as alignment Hal.
  injection H as <-. reflexivity.
Qed.

(** C2 (amended).  A company whose identifier resolution fails yields a
    failure record whose only field is the error message (the message
    names the symbol; there is no symbol field), the record is part of
    the results, and the company is not in the priority ranking, which
    holds only results without an ["error"] key. *)
Theorem unresolved_company_is_reported_not_ranked
        (companies : list config) (results : list research_result) (c : config) :
  research_all companies = Ok results ->
  In c companies ->
  get_cik_from_ticker http_get py_str (cfg_ticker c) = None ->
  let failure := Failure ("Could not find CIK for " ++ cfg_ticker c) in
  research c = Ok failure
  /\ result_keys failure = ["error"]
  /\ In failure results
  /\ (forall p,
        In p (priority_ranking results) ->
        config_of p <> c
        /\ In (Profile p) results
        /\ has_key "error" (Profile p) = false).
Proof.
  intros Hall Hin Hcik failure.
  pose proof (research_company_unresolved c Hcik) as Hfail.
  split; [exact Hfail |]. split; [reflexivity |]. split.
  - destruct (mapM_In_inv _ _ Hall c Hin) as (r & Hr & Hrun).
    unfold failure. congruence.
  - intros p Hp.
    assert (Hvalid : In (Profile p) results).
    { apply valid_results_In.
      apply Permutation_in with (priority_ranking results); [| exact Hp].
      apply sorted_reverse_Permutation. }
    split; [| split; [exact Hvalid | reflexivity]].
    destruct (mapM_In _ _ Hall _ Hvalid) as (c' & _ & Hrun).
    intros Heq. pose proof (@research_company_config c' p Hrun) as Hc'.
    rewrite Heq in Hc'. subst c'. rewrite Hfail in Hrun. discriminate Hrun.
Qed.
End OrchestratorFacts.

(** C2, as stated, fails: the failure record of an unresolved company has
    the error message as its only field, so no field holds the symbol. *)
Lemma failure_record_has_no_symbol_field :
  ~ (forall http_get py_str exn_str now_isoformat c,
       get_cik_from_ticker http_get py_str (cfg_ticker c) = None ->
       exists r k,
         research_company http_get py_str exn_str now_isoformat c = Ok r
         /\ has_key "error" r = true
         /\ k <> "error"
         /\ has_key k r = true).
Proof.
  intros Hclaim.
  assert (Hcik : get_cik_from_ticker sample_http sample_str (cfg_ticker target_config) = None)
    by (vm_compute; reflexivity).
  destruct (Hclaim sample_http sample_str sample_exn_str sample_clock target_config Hcik)
    as (r & k & Hr & _ & Hk & Hhas).
  vm_compute in Hr. injection Hr as <-.
  unfold has_key in Hhas. simpl in Hhas.
  rewrite orb_false_r in Hhas. apply String.eqb_eq in Hhas. contradiction.
Qed.

Lemma unresolved_company_is_reported_not_ranked_witness :
  exists results,
    research_all_companies sample_http sample_str sample_exn_str sample_clock
      MINNESOTA_COMPANIES = Ok results
    /\ In (Failure "Could not find CIK for TGT") results
    /\ (forall p, In p (priority_ranking results) -> config_of p <> target_config).
Proof.
  eexists. split; [vm_compute; reflexivity |].
  match goal with
  | |- In _ ?rs /\ _ =>
      pose proof (@unresolved_company_is_reported_not_ranked
                    sample_http sample_str sample_exn_str sample_clock
                    MINNESOTA_COMPANIES rs target_config) as Hthm
  end.
  cbv zeta in Hthm.
  destruct Hthm as (_ & _ & Hin & Hrank).
  - vm_compute. reflexivity.
  - left. reflexivity.
  - vm_compute. reflexivity.
  - split; [exact Hin | intros p Hp; apply (Hrank p Hp)].
Defined.

(* ===================================================================== *)
(** * Further properties *)

(** ** Byte strings, continued *)

Lemma string_length_append (a b : string) :
  String.length (a ++ b) = (String.length a + String.length b)%nat.
Proof. induction a as [| c a IH]; simpl; [reflexivity | rewrite IH; reflexivity]. Qed.

Lemma zeros_length (n : nat) : String.length (zeros n) = n.
Proof. induction n as [| n IH]; simpl; [reflexivity | rewrite IH; reflexivity]. Qed.

Lemma zfill_length (width : nat) (s : string) :
  String.length (zfill width s) = Nat.max width (String.length s).
Proof.
  unfold zfill. destruct s as [| c s]; simpl String.length.
  - rewrite zeros_length. lia.
  - destruct (Ascii.eqb c "+" || Ascii.eqb c "-")%bool; simpl String.length;
      rewrite string_length_append, zeros_length; simpl String.length; lia.
Qed.


Lemma lower_upper_char (c : ascii) : lower_char (upper_char c) = lower_char c.
Proof. destruct c as [[] [] [] [] [] [] [] []]; reflexivity. Qed.



Lemma lower_upper (s : string) : lower (upper s) = lower s.
Proof.
  unfold upper, lower.
  induction s as [| c s IH]; cbn [map_string]; [reflexivity |].
  f_equal; [apply lower_upper_char | exact IH].
Qed.


Lemma lower_append (a b : string) : lower (a ++ b) = lower a ++ lower b.
Proof.
  unfold lower.
  induction a as [| c a IH]; cbn [map_string append]; [reflexivity |].
  f_equal. exact IH.
Qed.

Lemma prefix_append (t s : string) :
  prefix t s = true <-> exists b, s = t ++ b.
Proof.
  revert s. induction t as [| c t IH]; intros [| c' s]; simpl.
  - split; [intros _; exists ""; reflexivity | reflexivity].
  - split; [intros _; eexists; reflexivity | reflexivity].
  - split; [discriminate | intros (b & Hb); discriminate Hb].
  - destruct (ascii_dec c c') as [-> | Hne].
    + rewrite IH. split; intros (b & Hb); exists b; congruence.
    + split; [discriminate | intros (b & Hb); congruence].
Qed.

(** [t in s] holds exactly when [s] is some text, [t], some text. *)
Lemma str_in_append (t s : string) :
  str_in t s = true <-> exists a b, s = a ++ t ++ b.
Proof.
  induction s as [| c s IH].
  - cbn [str_in]. rewrite orb_false_r, prefix_append. split.
    + intros (b & Hb). exists "", b. exact Hb.
    + intros (a & b & Hab). destruct a as [| ? ?]; [| discriminate Hab].
      exists b. exact Hab.
  - cbn [str_in]. rewrite orb_true_iff, IH, prefix_append. split.
    + intros [(b & Hb) | (a & b & Hab)].
      * exists "", b. exact Hb.
      * exists (String c a), b. simpl. rewrite Hab. reflexivity.
    + intros (a & b & Hab). destruct a as [| c' a].
      * left. exists b. exact Hab.
      * right. simpl in Hab. injection Hab as _ Hs. exists a, b. exact Hs.
Qed.

(** ** IdentifierResolver: [get_cik_from_ticker] *)

Section ResolverFacts.
Variable http_get : string -> list (string * string) -> http_reply.
Variable py_str : json -> string.


Lemma find_cik_Some (ticker : string) (entries : list json) (cik : string) :
  find_cik py_str ticker entries = Ok (Some cik) <->
  exists before entry after c,
    entries = (before ++ entry :: after)%list
    /\ Forall (ticker_differs ticker) before
    /\ ticker_matches ticker entry
    /\ py_getitem entry "cik_str" = Ok c
    /\ cik = zfill 10 (py_str c).
Proof.
  split.
  - induction entries as [| entry rest IH]; simpl; [discriminate |].
    intros H. inv_bind H as t Ht. inv_bind H as u Hu.
    destruct t as [| | | t0 | |]; try discriminate Hu.
    injection Hu as <-.
    destruct (String.eqb (upper t0) (upper ticker)) eqn:Heq.
    + apply String.eqb_eq in Heq. inv_bind H as c Hc. injection H as <-.
      exists [], entry, rest, c. repeat split; auto.
      exists t0. split; assumption.
    + apply String.eqb_neq in Heq.
      destruct (IH H) as (before & e & after & c & -> & Hbef & Hm & Hc & ->).
      exists (entry :: before), e, after, c. repeat split; auto.
      constructor; [| exact Hbef]. exists t0. split; assumption.
  - intros (before & entry & after & c & -> & Hbef & (t & Ht & Hm) & Hc & ->).
    induction Hbef as [| e before (t' & Ht' & Hne) _ IH]; simpl.
    + rewrite Ht. simpl. rewrite Hm, String.eqb_refl, Hc. reflexivity.
    + rewrite Ht'. simpl.
      apply String.eqb_neq in Hne. rewrite Hne. exact IH.
Qed.

(** X1.  An identifier returned by [get_cik_from_ticker] is the text of
    the [cik_str] of an entry, left-padded with zeros: it has at least
    ten characters, exactly ten when that text has at most ten, and is
    never empty, so [if not cik] in [research_company] fires on [None]
    only. *)
Theorem cik_is_zero_padded (ticker cik : string) :
  get_cik_from_ticker http_get py_str ticker = Some cik ->
  exists c,
    cik = zfill 10 (py_str c)
    /\ String.length cik = Nat.max 10 (String.length (py_str c))
    /\ cik <> "".
Proof.
  unfold get_cik_from_ticker.
  destruct (_ <- requests_get http_get _ _ ;; _) as [[c0 |] | e] eqn:Hrun;
    try discriminate.
  intros [= ->].
  inv_bind Hrun as r Hr. inv_bind Hrun as u Hu. inv_bind Hrun as table Ht.
  inv_bind Hrun as entries He.
  apply find_cik_Some in Hrun.
  destruct Hrun as (before & entry & after & c & _ & _ & _ & _ & ->).
  exists c. split; [reflexivity |]. split; [apply zfill_length |].
  intros Hempty.
  pose proof (zfill_length 10 (py_str c)) as Hlen.
  rewrite Hempty in Hlen. cbn [String.length] in Hlen. lia.
Qed.


(** X3.  [get_cik_from_ticker] answers with an identifier exactly when
    the table request is answered with a status outside 400..599 and a
    JSON object, and some entry of it, all entries in front of it being
    well-formed entries for other symbols, carries the symbol and a
    [cik_str]; the identifier comes from the first such entry.  Every
    other case, a failed request or a malformed table included, is
    [None]. *)
Theorem cik_comes_from_first_matching_entry (ticker cik : string) :
  get_cik_from_ticker http_get py_str ticker = Some cik <->
  exists status table before entry after c,
    http_get TICKERS_URL [] = Reply status (Some (JDict table))
    /\ (status < 400 \/ 600 <= status)
    /\ map snd table = (before ++ entry :: after)%list
    /\ Forall (ticker_differs ticker) before
    /\ ticker_matches ticker entry
    /\ py_getitem entry "cik_str" = Ok c
    /\ cik = zfill 10 (py_str c).
Proof.
  unfold get_cik_from_ticker, requests_get.
  change "https://www.sec.gov/files/company_tickers.json" with TICKERS_URL.
  split.
  - destruct (http_get TICKERS_URL []) as [| status body]; simpl; [discriminate |].
    unfold raise_for_status.
    destruct ((400 <=? status) && (status <? 600)) eqn:Hst; simpl; [discriminate |].
    destruct body as [table |]; simpl; [| discriminate].
    destruct table as [| | | | | d]; simpl; try discriminate.
    destruct (find_cik py_str ticker (map snd d)) as [[c0 |] | e] eqn:Hfind;
      try discriminate.
    intros [= ->]. apply find_cik_Some in Hfind.
    destruct Hfind as (before & entry & after & c & Hsplit & Hbef & Hm & Hc & ->).
    exists status, d, before, entry, after, c.
    repeat split; auto.
    apply andb_false_iff in Hst. destruct Hst as [H | H];
      [apply Z.leb_gt in H | apply Z.ltb_ge in H]; lia.
  - intros (status & table & before & entry & after & c & Hreply & Hst & Hsplit
            & Hbef & Hm & Hc & ->).
    rewrite Hreply. simpl. unfold raise_for_status.
    assert (Hb : (400 <=? status) && (status <? 600) = false).
    { apply andb_false_iff. destruct Hst; [left; apply Z.leb_gt | right; apply Z.ltb_ge]; lia. }
    rewrite Hb. simpl.
    assert (Hfind : find_cik py_str ticker (map snd table) = Ok (Some (zfill 10 (py_str c)))).
    { apply find_cik_Some. exists before, entry, after, c. repeat split; auto. }
    rewrite Hfind. reflexivity.
Qed.
End ResolverFacts.

Lemma cik_is_zero_padded_witness :
  get_cik_from_ticker sample_http sample_str "mmm" = Some "0000066740"
  /\ exists c,
       "0000066740" = zfill 10 (sample_str c)
       /\ String.length "0000066740" = Nat.max 10 (String.length (sample_str c))
       /\ "0000066740" <> "".
Proof.
  split; [reflexivity |].
  apply (@cik_is_zero_padded sample_http sample_str "mmm" "0000066740").
  reflexivity.
Defined.

Lemma cik_comes_from_first_matching_entry_witness :
  exists status table before entry after c,
    sample_http TICKERS_URL [] = Reply status (Some (JDict table))
    /\ (status < 400 \/ 600 <= status)
    /\ map snd table = (before ++ entry :: after)%list
    /\ Forall (ticker_differs "unh") before
    /\ ticker_matches "unh" entry
    /\ py_getitem entry "cik_str" = Ok c
    /\ "0000731766" = zfill 10 (sample_str c).
Proof.
  apply (proj1 (@cik_comes_from_first_matching_entry
                  sample_http sample_str "unh" "0000731766")).
  reflexivity.
Defined.

(** ** FilingsClient: [get_company_info] and [get_company_financials] *)

Section FilingsFacts.
Variable http_get : string -> list (string * string) -> http_reply.
Variable exn_str : py_exn -> string.

Lemma status_ok (status : Z) :
  raise_for_status status = Ok tt <-> (status < 400 \/ 600 <= status).
Proof.
  unfold raise_for_status.
  destruct ((400 <=? status) && (status <? 600)) eqn:H.
  - apply andb_true_iff in H. destruct H as [H1 H2].
    apply Z.leb_le in H1. apply Z.ltb_lt in H2.
    split; [discriminate | lia].
  - split; [| reflexivity]. intros _.
    apply andb_false_iff in H.
    destruct H as [H | H]; [apply Z.leb_gt in H | apply Z.ltb_ge in H]; lia.
Qed.

(** X4.  [get_company_info] succeeds exactly when the submissions request
    is answered with a status outside 400..599 and a JSON object whose
    ["addresses"] is absent or an object.  The dictionary then has its
    nine keys, with the identifier as given, the symbol in upper case, and
    the empty string for every absent field; every other case is the
    error dictionary. *)
Theorem company_info_degrades_to_empty_fields (ticker cik : string) (d : json) :
  get_company_info http_get exn_str ticker cik = Info d <->
  exists status data,
    http_get (SEC_BASE_URL ++ "/submissions/CIK" ++ cik ++ ".json") []
      = Reply status (Some (JDict data))
    /\ (status < 400 \/ 600 <= status)
    /\ (lookup "addresses" data = None
        \/ exists a, lookup "addresses" data = Some (JDict a))
    /\ d = JDict [("cik", JStr cik);
                  ("name", field_or_empty data "name");
                  ("ticker", JStr (upper ticker));
                  ("sic", field_or_empty data "sic");
                  ("sic_description", field_or_empty data "sicDescription");
                  ("state", field_or_empty data "stateOfIncorporation");
                  ("fiscal_year_end", field_or_empty data "fiscalYearEnd");
                  ("phone", field_or_empty data "phone");
                  ("business_address", business_of data)].
Proof.
  unfold get_company_info, requests_get.
  split.
  - destruct (http_get _ []) as [| status body]; simpl; [discriminate |].
    destruct (raise_for_status status) as [[] | e] eqn:Hst; simpl; [| discriminate].
    apply status_ok in Hst.
    destruct body as [[| | | | | data] |]; simpl; try discriminate.
    unfold business_of, field_or_empty.
    destruct (lookup "addresses" data) as [[| | | | | a] |] eqn:Ha; simpl;
      try discriminate; intros [= <-]; exists status, data;
      (split; [reflexivity |]); (split; [exact Hst |]);
      (split; [eauto |]); rewrite ?Ha; reflexivity.
  - intros (status & data & Hreply & Hst & Haddr & ->).
    rewrite Hreply. simpl.
    apply status_ok in Hst. rewrite Hst. simpl.
    unfold business_of, field_or_empty.
    destruct Haddr as [Ha | (a & Ha)]; rewrite Ha; reflexivity.
Qed.

Lemma snapshot_of_has_no_error (us_gaap snapshot : json) :
  snapshot_of us_gaap = Ok snapshot -> py_in "error" snapshot = Ok false.
Proof.
  unfold snapshot_of. intros H.
  inv_bind H as revenue Hrev. inv_bind H as ni Hni. inv_bind H as ta Hta.
  inv_bind H as cash Hcash. inv_bind H as eq Heq. injection H as <-.
  reflexivity.
Qed.

(** X5.  [get_company_financials] never raises.  Either the facts request
    was answered and extracted, and the result is the five-concept
    snapshot, without an ["error"] key; or the result is an error
    dictionary, which [calculate_capacity_rating] rates STANDARD with
    score 0 and three "unavailable" lines. *)
Theorem failed_financials_rate_standard (cik : string) :
  let fin := get_company_financials http_get exn_str cik in
  (exists status facts,
      http_get (SEC_BASE_URL ++ "/api/xbrl/companyfacts/CIK" ++ cik ++ ".json") []
        = Reply status (Some facts)
      /\ (status < 400 \/ 600 <= status)
      /\ extract_financials facts = Ok fin
      /\ py_in "error" fin = Ok false)
  \/ (exists e,
        fin = JDict [("error", JStr (exn_str e))]
        /\ calculate_capacity_rating fin = Ok empty_rating).
Proof.
  unfold get_company_financials, requests_get.
  destruct (http_get _ []) as [| status body]; simpl.
  { right. eexists. split; reflexivity. }
  destruct (raise_for_status status) as [[] | e] eqn:Hst; simpl.
  2: { right. eexists. split; reflexivity. }
  apply status_ok in Hst.
  destruct body as [facts |]; simpl.
  2: { right. eexists. split; reflexivity. }
  destruct (extract_financials facts) as [fin | e] eqn:Hex.
  2: { right. eexists. split; reflexivity. }
  left. exists status, facts. repeat split; auto.
  unfold extract_financials in Hex.
  inv_bind Hex as all Hall. inv_bind Hex as us Hus.
  eapply snapshot_of_has_no_error. exact Hex.
Qed.
End FilingsFacts.

Lemma company_info_degrades_to_empty_fields_witness :
  get_company_info sample_http sample_exn_str "mmm" "0000066740" =
  Info (JDict [("cik", JStr "0000066740");
               ("name", JStr "3M CO");
               ("ticker", JStr "MMM");
               ("sic", JStr "");
               ("sic_description", JStr "Surgical & Medical Instruments & Apparatus");
               ("state", JStr "");
               ("fiscal_year_end", JStr "");
               ("phone", JStr "");
               ("business_address", JDict [])]).
Proof.
  apply (proj2 (@company_info_degrades_to_empty_fields
                  sample_http sample_exn_str "mmm" "0000066740" _)).
  exists 200, [("name", JStr "3M CO");
               ("sicDescription", JStr "Surgical & Medical Instruments & Apparatus")].
  split; [reflexivity |]. split; [left; lia |]. split; [left; reflexivity |].
  reflexivity.
Defined.

(** ** FinancialExtractor, continued *)

Lemma filterM_Forall {A : Type} (p : A -> result bool) (P : A -> Prop) :
  (forall x b, p x = Ok b -> P x) ->
  forall xs ys, filterM p xs = Ok ys -> Forall P ys.
Proof.
  intros Hp. induction xs as [| x xs IH]; simpl; intros ys H.
  - injection H as <-. constructor.
  - inv_bind H as b Hb. inv_bind H as zs Hzs. injection H as <-.
    destruct b; [constructor; [eapply Hp; exact Hb |] |]; apply IH; exact Hzs.
Qed.

Lemma annual_of_dicts (usd_values : json) (annual : list json) :
  annual_of usd_values = Ok annual -> Forall is_dict annual.
Proof.
  unfold annual_of. intros H. inv_bind H as vs Hvs.
  eapply filterM_Forall; [| exact H].
  intros x b Hx. inv_bind Hx as f Hf.
  destruct x; try discriminate Hf. eexists; reflexivity.
Qed.

Lemma annual_series_dicts (us_gaap : json) (concept : string) (annual : list json) :
  annual_series us_gaap concept = Ok annual -> Forall is_dict annual.
Proof.
  unfold annual_series. intros H. inv_bind H as present Hp.
  destruct present; simpl in H.
  - inv_bind H as usd Husd. eapply annual_of_dicts. exact H.
  - injection H as <-. constructor.
Qed.

(** X6.  A series with a single annual entry is never compared: whatever
    the type of its period end, [get_latest] returns its value and period
    end. *)
Theorem single_annual_entry_is_returned (us_gaap : json) (concept : string) (x : json) :
  annual_series us_gaap concept = Ok [x] ->
  exists value period_end,
    py_get x "val" JNull = Ok value
    /\ py_get x "end" JNull = Ok period_end
    /\ get_latest us_gaap concept =
       Ok (JDict [("value", value); ("period_end", period_end)]).
Proof.
  intros H.
  pose proof (annual_series_dicts _ _ H) as Hd.
  inversion Hd as [| ? ? (e & ->) _]; subst.
  eexists. eexists. split; [reflexivity |]. split; [reflexivity |].
  rewrite get_latest_series, H. reflexivity.
Qed.

Lemma single_annual_entry_is_returned_witness :
  exists value period_end,
    py_get (undated_fact 53811000000) "val" JNull = Ok value
    /\ py_get (undated_fact 53811000000) "end" JNull = Ok period_end
    /\ get_latest undated_us_gaap "Assets" =
       Ok (JDict [("value", value); ("period_end", period_end)]).
Proof.
  apply (@single_annual_entry_is_returned undated_us_gaap "Assets"
           (undated_fact 53811000000)).
  reflexivity.
Defined.

(** X7.  When the period ends of the first two annual entries cannot be
    compared (a [null] against a date, a number against a string),
    [get_latest] raises the exception of the comparison. *)
Theorem incomparable_period_ends_raise
        (us_gaap : json) (concept : string) (x y : json) (rest : list json)
        (kx ky : json) (e : py_exn) :
  annual_series us_gaap concept = Ok (x :: y :: rest) ->
  end_key x = Ok kx ->
  end_key y = Ok ky ->
  py_gt ky kx = Raise e ->
  get_latest us_gaap concept = Raise e.
Proof.
  intros H Hx Hy Hgt.
  rewrite get_latest_series, H. simpl.
  unfold py_max. rewrite Hx. simpl. rewrite Hy. simpl. rewrite Hgt. reflexivity.
Qed.

Lemma incomparable_period_ends_raise_witness :
  get_latest mixed_end_us_gaap "Assets" = Raise TypeError.
Proof.
  apply (@incomparable_period_ends_raise mixed_end_us_gaap "Assets"
           (sample_fact "2023-12-31" 55356000000 "10-K") (undated_fact 53811000000)
           [] (JStr "2023-12-31") JNull TypeError);
    reflexivity.
Defined.

(** X8.  An exception in any concept that is always evaluated voids the
    whole snapshot: no concept is extracted. *)
Theorem one_failing_concept_voids_snapshot
        (us_gaap : json) (concept : string) (e : py_exn) :
  In concept always_evaluated ->
  get_latest us_gaap concept = Raise e ->
  exists e', snapshot_of us_gaap = Raise e'.
Proof.
  intros Hin Hraise. unfold snapshot_of, latest_or.
  simpl in Hin.
  destruct Hin as [<- | [<- | [<- | [<- | [<- | []]]]]].
  - rewrite Hraise. eexists. reflexivity.
  - destruct (_ <- get_latest us_gaap "Revenues" ;; _) as [v1 | e1];
      simpl; [| eexists; reflexivity].
    rewrite Hraise. eexists. reflexivity.
  - destruct (_ <- get_latest us_gaap "Revenues" ;; _) as [v1 | e1];
      simpl; [| eexists; reflexivity].
    destruct (get_latest us_gaap "NetIncomeLoss") as [v2 | e2];
      simpl; [| eexists; reflexivity].
    rewrite Hraise. eexists. reflexivity.
  - destruct (_ <- get_latest us_gaap "Revenues" ;; _) as [v1 | e1];
      simpl; [| eexists; reflexivity].
    destruct (get_latest us_gaap "NetIncomeLoss") as [v2 | e2];
      simpl; [| eexists; reflexivity].
    destruct (get_latest us_gaap "Assets") as [v3 | e3];
      simpl; [| eexists; reflexivity].
    rewrite Hraise. eexists. reflexivity.
  - destruct (_ <- get_latest us_gaap "Revenues" ;; _) as [v1 | e1];
      simpl; [| eexists; reflexivity].
    destruct (get_latest us_gaap "NetIncomeLoss") as [v2 | e2];
      simpl; [| eexists; reflexivity].
    destruct (get_latest us_gaap "Assets") as [v3 | e3];
      simpl; [| eexists; reflexivity].
    destruct (get_latest us_gaap "CashAndCashEquivalentsAtCarryingValue") as [v4 | e4];
      simpl; [| eexists; reflexivity].
    rewrite Hraise. eexists. reflexivity.
Qed.

Lemma one_failing_concept_voids_snapshot_witness :
  exists e, snapshot_of mixed_end_us_gaap = Raise e.
Proof.
  apply (@one_failing_concept_voids_snapshot mixed_end_us_gaap "Assets" TypeError).
  - simpl. auto.
  - reflexivity.
Defined.

Lemma filter_insert_false {A : Type} (f : A -> bool) (a b : list A) (q : A) :
  f q = false -> filter f (a ++ q :: b) = filter f (a ++ b).
Proof.
  intros Hq. rewrite !filter_app. simpl. rewrite Hq. reflexivity.
Qed.

(** X9.  Entries that are not annual reports never influence the
    selection: adding an entry whose form is not ["10-K"] (a quarterly
    report, an amendment ["10-K/A"]) anywhere in the USD array, even with
    a later period end, leaves [get_latest] unchanged. *)
Theorem other_forms_are_ignored
        (d d' : list (string * json)) (concept : string)
        (node node' units units' : list (string * json))
        (a b : list json) (q : json) :
  lookup concept d = Some (JDict node) ->
  lookup "units" node = Some (JDict units) ->
  lookup "USD" units = Some (JList (a ++ q :: b)) ->
  lookup concept d' = Some (JDict node') ->
  lookup "units" node' = Some (JDict units') ->
  lookup "USD" units' = Some (JList (a ++ b)) ->
  Forall is_dict (a ++ q :: b) ->
  is_annual q = false ->
  get_latest (JDict d) concept = get_latest (JDict d') concept.
Proof.
  intros Hc Hu Hv Hc' Hu' Hv' Hall Hq.
  assert (Hall' : Forall is_dict (a ++ b)).
  { apply Forall_app in Hall. destruct Hall as [Ha Hqb].
    inversion Hqb; subst. apply Forall_app. split; assumption. }
  rewrite !get_latest_series.
  unfold annual_series, usd_values_of. simpl.
  rewrite Hc, Hc'. simpl. rewrite Hu, Hu'. simpl. rewrite Hv, Hv'.
  rewrite (annual_of_filter Hall), (annual_of_filter Hall').
  rewrite (filter_insert_false _ _ _ _ Hq). reflexivity.
Qed.

Lemma other_forms_are_ignored_witness :
  get_latest
    (JDict [("Assets",
             series_of [sample_fact "2023-12-31" 55356000000 "10-K";
                        sample_fact "2024-03-31" 55139000000 "10-Q";
                        sample_fact "2022-12-31" 53335000000 "10-K"])])
    "Assets"
  = get_latest
      (JDict [("Assets",
               series_of [sample_fact "2023-12-31" 55356000000 "10-K";
                          sample_fact "2022-12-31" 53335000000 "10-K"])])
      "Assets".
Proof.
  eapply (@other_forms_are_ignored _ _ "Assets" _ _ _ _
           [sample_fact "2023-12-31" 55356000000 "10-K"]
           [sample_fact "2022-12-31" 53335000000 "10-K"]
           (sample_fact "2024-03-31" 55139000000 "10-Q"));
    try reflexivity.
  repeat constructor; eexists; reflexivity.
Defined.

Lemma get_latest_unreported (us : list (string * json)) (concept : string) :
  lookup concept us = None -> get_latest (JDict us) concept = Ok JNull.
Proof.
  intros H. unfold get_latest. cbn [py_in bind]. rewrite H. reflexivity.
Qed.

(** X10.  A company that reports none of the six concepts under
    [us-gaap] (the section may be missing altogether, as for a filer
    under another taxonomy) gets the snapshot of five [None], which
    [calculate_capacity_rating] rates STANDARD with score 0. *)
Theorem unreported_concepts_give_empty_snapshot
        (d : list (string * json)) (all : json) (us : list (string * json)) :
  py_get (JDict d) "facts" (JDict []) = Ok all ->
  py_get all "us-gaap" (JDict []) = Ok (JDict us) ->
  (forall concept,
     In concept ("RevenueFromContractWithCustomerExcludingAssessedTax"
                   :: always_evaluated) ->
     lookup concept us = None) ->
  extract_financials (JDict d) = Ok empty_snapshot
  /\ calculate_capacity_rating empty_snapshot = Ok empty_rating.
Proof.
  intros Hall Hus Hnone. split; [| reflexivity].
  unfold extract_financials. rewrite Hall. cbn [bind]. rewrite Hus. cbn [bind].
  unfold snapshot_of, latest_or.
  rewrite !get_latest_unreported by (apply Hnone; simpl; auto 10).
  reflexivity.
Qed.

Lemma unreported_concepts_give_empty_snapshot_witness :
  extract_financials (JDict ifrs_facts) = Ok empty_snapshot
  /\ calculate_capacity_rating empty_snapshot = Ok empty_rating.
Proof.
  apply (@unreported_concepts_give_empty_snapshot ifrs_facts
           (JDict [("ifrs-full", JDict [("Assets", series_of [undated_fact 1])])]) []);
    reflexivity.
Defined.

(** ** FoundationLocator: [search_foundation] *)

Lemma first_match_Some (word : string) (orgs : list json) (hit : foundation_hit) :
  first_match word orgs = Ok (Some hit) <->
  exists before org after n d,
    orgs = (before ++ org :: after)%list
    /\ Forall (org_rejected word) before
    /\ org = JDict d
    /\ lookup "name" d = Some (JStr n)
    /\ name_accepted word n = true
    /\ hit = {| fh_name := JStr n;
                fh_ein := match lookup "ein" d with Some v => v | None => JNull end;
                fh_city := match lookup "city" d with Some v => v | None => JNull end;
                fh_state := match lookup "state" d with Some v => v | None => JNull end |}.
Proof.
  split.
  - induction orgs as [| org rest IH]; simpl; [discriminate |].
    intros H. inv_bind H as nm Hnm. inv_bind H as un Hun.
    destruct org as [| | | | | d]; try discriminate Hnm.
    destruct nm as [| | | n | |]; try discriminate Hun.
    injection Hun as <-.
    fold (name_accepted word n) in H.
    destruct (name_accepted word n) eqn:Hacc.
    + simpl in H. simpl in Hnm. injection H as <-.
      destruct (lookup "name" d) as [v |] eqn:Hl.
      * injection Hnm as ->.
        exists [], (JDict d), rest, n, d. repeat split; auto.
      * injection Hnm as <-. unfold name_accepted in Hacc.
        apply andb_true_iff in Hacc. destruct Hacc as [_ Hacc]. discriminate Hacc.
    + destruct (IH H) as (before & o & after & n' & d' & -> & Hbef & -> & Hl & Hacc' & ->).
      exists (JDict d :: before), (JDict d'), after, n', d'.
      repeat split; auto. constructor; [| exact Hbef].
      exists n. split; assumption.
  - intros (before & org & after & n & d & -> & Hbef & -> & Hl & Hacc & ->).
    induction Hbef as [| o before (n' & Hn' & Hrej) _ IH]; simpl.
    + rewrite Hl. simpl. fold (name_accepted word n). rewrite Hacc. reflexivity.
    + rewrite Hn'. simpl. fold (name_accepted word n'). rewrite Hrej. exact IH.
Qed.

Lemma first_match_None (word : string) (orgs : list json) :
  Forall (org_rejected word) orgs -> first_match word orgs = Ok None.
Proof.
  induction 1 as [| o orgs (n & Hn & Hrej) _ IH]; simpl; [reflexivity |].
  rewrite Hn. simpl. fold (name_accepted word n). rewrite Hrej. exact IH.
Qed.

Section LocatorFacts.
Variable http_get : string -> list (string * string) -> http_reply.

(** One pass of the loop over the search phrases. *)
Lemma search_terms_loop_cons (word term : string) (rest : list string) :
  search_terms_loop http_get word (term :: rest) =
  (r <- requests_get http_get SEARCH_URL (phrase_query term) ;;
   found <- (if fst r =? 200
             then data <- response_json (snd r) ;; scan_reply word data
             else ret None) ;;
   match found with
   | Some hit => ret (Some hit)
   | None => search_terms_loop http_get word rest
   end).
Proof. reflexivity. Qed.

Lemma search_terms_loop_sound (word : string) (terms : list string) (hit : foundation_hit) :
  search_terms_loop http_get word terms = Ok (Some hit) ->
  exists n, fh_name hit = JStr n /\ name_accepted word n = true.
Proof.
  induction terms as [| term rest IH]; [discriminate |].
  rewrite search_terms_loop_cons. intros H.
  inv_bind H as r Hr. inv_bind H as found Hfound.
  destruct found as [h |].
  - injection H as ->.
    destruct (fst r =? 200); [| discriminate Hfound].
    inv_bind Hfound as data Hdata. unfold scan_reply in Hfound.
    inv_bind Hfound as orgs Horgs. inv_bind Hfound as top Htop.
    inv_bind Hfound as items Hitems.
    apply first_match_Some in Hfound.
    destruct Hfound as (before & org & after & n & d & _ & _ & _ & _ & Hacc & ->).
    exists n. split; [reflexivity | exact Hacc].
  - apply IH. exact H.
Qed.

(** X11.  A foundation returned by [search_foundation] has a name that is
    a string containing, in upper case, both the first word of the
    company name and "FOUNDATION"; a company name without any word gives
    [None] before any request is made. *)
Theorem foundation_is_named_after_company (company_name : string) :
  (forall hit,
     search_foundation http_get company_name = Some hit ->
     exists w n,
       first_word company_name = Ok w
       /\ fh_name hit = JStr n
       /\ str_in (upper w) (upper n) = true
       /\ str_in "FOUNDATION" (upper n) = true)
  /\ (skip_spaces company_name = "" ->
      search_foundation http_get company_name = None).
Proof.
  unfold search_foundation. split.
  - intros hit.
    destruct (first_word company_name) as [w | e]; cbn [bind]; [| discriminate].
    match goal with
    | |- context [search_terms_loop http_get (upper w) ?ts] =>
        destruct (search_terms_loop http_get (upper w) ts) as [[h |] | e] eqn:Hloop
    end; try discriminate.
    intros [= ->].
    destruct (search_terms_loop_sound _ _ Hloop) as (n & Hn & Hacc).
    apply andb_true_iff in Hacc. destruct Hacc as [H1 H2].
    exists w, n. repeat split; assumption.
  - intros Hblank. unfold first_word. rewrite Hblank. reflexivity.
Qed.

(** X12.  The search short-circuits: when the reply to the first phrase
    holds an acceptable organization among its first ten, that
    organization is the result, whatever the network answers to any other
    request. *)
Theorem first_phrase_match_ends_search
        (company_name w : string) (data : json) (hit : foundation_hit) :
  first_word company_name = Ok w ->
  http_get SEARCH_URL (phrase_query (company_name ++ " foundation"))
    = Reply 200 (Some data) ->
  scan_reply (upper w) data = Ok (Some hit) ->
  search_foundation http_get company_name = Some hit.
Proof.
  intros Hw Hreply Hscan. unfold search_foundation.
  rewrite Hw. cbn [bind]. rewrite search_terms_loop_cons.
  unfold requests_get. rewrite Hreply. cbn [bind fst snd response_json Z.eqb Pos.eqb]. rewrite Hscan. reflexivity.
Qed.

(** X13.  Failures of the first phrase are not treated alike: an exception
    (no reply, a body that is not JSON, a malformed payload) ends the
    search with [None] although the second phrase is never tried, while a
    status other than 200 moves on to the second phrase. *)
Theorem search_stops_on_exception_not_on_status
        (company_name w : string) :
  first_word company_name = Ok w ->
  let first := phrase_query (company_name ++ " foundation") in
  let second := phrase_query (w ++ " foundation") in
  (http_get SEARCH_URL first = NoReply ->
   search_foundation http_get company_name = None)
  /\ (http_get SEARCH_URL first = Reply 200 None ->
      search_foundation http_get company_name = None)
  /\ (forall status body data hit,
        http_get SEARCH_URL first = Reply status body ->
        status <> 200 ->
        http_get SEARCH_URL second = Reply 200 (Some data) ->
        scan_reply (upper w) data = Ok (Some hit) ->
        search_foundation http_get company_name = Some hit).
Proof.
  intros Hw first second. unfold search_foundation. rewrite Hw. cbn [bind].
  rewrite search_terms_loop_cons. unfold requests_get.
  fold first. split; [| split].
  - intros ->. reflexivity.
  - intros ->. reflexivity.
  - intros status body data hit Hfirst Hst Hsecond Hscan.
    rewrite Hfirst. cbn [bind fst snd].
    apply Z.eqb_neq in Hst. rewrite Hst. cbn [bind].
    rewrite search_terms_loop_cons. unfold requests_get.
    fold second. rewrite Hsecond.
    cbn [bind fst snd response_json Z.eqb Pos.eqb]. rewrite Hscan. reflexivity.
Qed.

Lemma firstn_exact {A : Type} (n : nat) (l1 l2 : list A) :
  List.length l1 = n -> firstn n (l1 ++ l2) = l1.
Proof.
  intros <-. rewrite firstn_app, Nat.sub_diag, firstn_all. simpl. apply app_nil_r.
Qed.

Lemma scan_reply_beyond_ten (word : string) (d : list (string * json))
      (l1 l2 : list json) :
  lookup "organizations" d = Some (JList (l1 ++ l2)) ->
  List.length l1 = 10%nat ->
  Forall (org_rejected word) l1 ->
  scan_reply word (JDict d) = Ok None.
Proof.
  intros Hl Hlen Hrej. unfold scan_reply.
  cbn [py_get bind]. rewrite Hl. cbn [py_take py_iter bind].
  rewrite (firstn_exact _ l2 Hlen). apply first_match_None. exact Hrej.
Qed.

(** X14.  Only the first ten organizations of a reply are inspected: when
    both phrases are answered with ten organizations that are not
    acceptable, the result is [None] whatever follows them in the
    replies. *)
Theorem organizations_beyond_ten_are_ignored
        (company_name w : string) (d1 d2 : list (string * json))
        (a1 b1 a2 b2 : list json) :
  first_word company_name = Ok w ->
  http_get SEARCH_URL (phrase_query (company_name ++ " foundation"))
    = Reply 200 (Some (JDict d1)) ->
  http_get SEARCH_URL (phrase_query (w ++ " foundation"))
    = Reply 200 (Some (JDict d2)) ->
  lookup "organizations" d1 = Some (JList (a1 ++ b1)) ->
  lookup "organizations" d2 = Some (JList (a2 ++ b2)) ->
  List.length a1 = 10%nat -> List.length a2 = 10%nat ->
  Forall (org_rejected (upper w)) a1 ->
  Forall (org_rejected (upper w)) a2 ->
  search_foundation http_get company_name = None.
Proof.
  intros Hw Hr1 Hr2 Hl1 Hl2 Hn1 Hn2 Hrej1 Hrej2.
  unfold search_foundation. rewrite Hw. cbn [bind].
  rewrite search_terms_loop_cons. unfold requests_get. rewrite Hr1.
  cbn [bind fst snd response_json Z.eqb Pos.eqb].
  rewrite (@scan_reply_beyond_ten (upper w) d1 a1 b1 Hl1 Hn1 Hrej1). cbn [bind].
  rewrite search_terms_loop_cons. unfold requests_get. rewrite Hr2.
  cbn [bind fst snd response_json Z.eqb Pos.eqb].
  rewrite (@scan_reply_beyond_ten (upper w) d2 a2 b2 Hl2 Hn2 Hrej2). reflexivity.
Qed.
End LocatorFacts.

Lemma foundation_is_named_after_company_witness :
  search_foundation sample_http "3M Company"
    = Some {| fh_name := JStr "3M Foundation"; fh_ein := JInt 416038262;
              fh_city := JStr "Saint Paul"; fh_state := JStr "MN" |}
  /\ (exists w n,
        first_word "3M Company" = Ok w
        /\ JStr "3M Foundation" = JStr n
        /\ str_in (upper w) (upper n) = true
        /\ str_in "FOUNDATION" (upper n) = true)
  /\ search_foundation sample_http "   " = None.
Proof.
  split; [reflexivity |]. split.
  - apply (proj1 (@foundation_is_named_after_company sample_http "3M Company")
             {| fh_name := JStr "3M Foundation"; fh_ein := JInt 416038262;
                fh_city := JStr "Saint Paul"; fh_state := JStr "MN" |}).
    reflexivity.
  - apply (proj2 (@foundation_is_named_after_company sample_http "   ")).
    reflexivity.
Defined.

Lemma first_phrase_match_ends_search_witness :
  search_foundation sample_http "3M Company"
    = Some {| fh_name := JStr "3M Foundation"; fh_ein := JInt 416038262;
              fh_city := JStr "Saint Paul"; fh_state := JStr "MN" |}.
Proof.
  apply (@first_phrase_match_ends_search sample_http "3M Company" "3M" found_3m);
    reflexivity.
Defined.

Lemma search_stops_on_exception_not_on_status_witness :
  search_foundation silent_http "3M Company" = None
  /\ search_foundation garbled_http "3M Company" = None
  /\ search_foundation second_phrase_http "3M Company"
     = Some {| fh_name := JStr "3M Foundation"; fh_ein := JInt 416038262;
               fh_city := JStr "Saint Paul"; fh_state := JStr "MN" |}.
Proof.
  split; [| split].
  - apply (proj1 (@search_stops_on_exception_not_on_status
                    silent_http "3M Company" "3M" eq_refl)).
    reflexivity.
  - apply (proj1 (proj2 (@search_stops_on_exception_not_on_status
                           garbled_http "3M Company" "3M" eq_refl))).
    reflexivity.
  - apply (proj2 (proj2 (@search_stops_on_exception_not_on_status
                           second_phrase_http "3M Company" "3M" eq_refl))
             503 None found_3m);
      [reflexivity | lia | reflexivity | reflexivity].
Defined.

Lemma organizations_beyond_ten_are_ignored_witness :
  search_foundation crowded_http "3M Company" = None.
Proof.
  assert (Hrej : Forall (org_rejected "3M")
                   (repeat (sample_org "Saint Paul Foundation" 416031510) 10)).
  { apply Forall_forall. intros x Hx. apply repeat_spec in Hx. subst x.
    exists "Saint Paul Foundation". split; reflexivity. }
  apply (@organizations_beyond_ten_are_ignored crowded_http "3M Company" "3M"
           crowded_reply crowded_reply
           (repeat (sample_org "Saint Paul Foundation" 416031510) 10)
           [sample_org "3M Foundation" 416038262]
           (repeat (sample_org "Saint Paul Foundation" 416031510) 10)
           [sample_org "3M Foundation" 416038262]);
    try reflexivity; exact Hrej.
Defined.

(** ** FoundationClient: [get_foundation_details] *)

Lemma mapM_length {A B : Type} (f : A -> result B) (xs : list A) (ys : list B) :
  mapM f xs = Ok ys -> List.length ys = List.length xs.
Proof.
  revert ys. induction xs as [| x xs IH]; simpl; intros ys H.
  - injection H as <-. reflexivity.
  - inv_bind H as y Hy. inv_bind H as zs Hzs. injection H as <-.
    simpl. rewrite (IH _ Hzs). reflexivity.
Qed.

Section FoundationFacts.
Variable http_get : string -> list (string * string) -> http_reply.

(** X15.  [get_foundation_details] answers only to a reply with status
    200.  Its dictionary echoes the identifier it was asked for, and its
    recent filings are the rows of the first three entries of
    ["filings_with_data"], in the order of the reply: never more than
    three. *)
Theorem foundation_details_keep_three_filings (ein : string) (details : json) :
  get_foundation_details http_get ein = Some details ->
  exists data org filings rows,
    http_get (PROPUBLICA_BASE_URL ++ "/organizations/" ++ ein ++ ".json") []
      = Reply 200 (Some (JDict data))
    /\ org = match lookup "organization" data with Some o => o | None => JDict [] end
    /\ filings = match lookup "filings_with_data" data with
                 | Some f => f
                 | None => JList []
                 end
    /\ py_get details "ein" JNull = Ok (JStr ein)
    /\ py_get details "name" JNull = py_get org "name" JNull
    /\ py_get details "recent_filings" JNull = Ok (JList rows)
    /\ (List.length rows <= 3)%nat
    /\ (forall fl, filings = JList fl -> mapM filing_row (firstn 3 fl) = Ok rows).
Proof.
  unfold get_foundation_details, requests_get.
  destruct (http_get _ []) as [| status body] eqn:Hreply; cbn [bind fst snd];
    [discriminate |].
  destruct (status =? 200) eqn:Hst; cbn [negb]; [| discriminate].
  apply Z.eqb_eq in Hst. subst status.
  destruct body as [[| | | | | data] |]; cbn [response_json bind py_get];
    try discriminate.
  set (org := match lookup "organization" data with Some o => o | None => JDict [] end).
  set (filings := match lookup "filings_with_data" data with
                  | Some f => f
                  | None => JList []
                  end).
  destruct (_ <- py_get org "name" JNull ;; _) as [[d |] | e] eqn:Hrun;
    try discriminate.
  intros [= ->].
  inv_bind Hrun as name Hname. inv_bind Hrun as ta Hta. inv_bind Hrun as tr Htr.
  inv_bind Hrun as rd Hrd. inv_bind Hrun as top Htop. inv_bind Hrun as items Hitems.
  inv_bind Hrun as rows Hrows. injection Hrun as <-.
  exists data, org, filings, rows.
  split; [reflexivity |]. split; [reflexivity |]. split; [reflexivity |].
  split; [reflexivity |].
  split; [simpl; rewrite Hname; reflexivity |].
  split; [reflexivity |].
  assert (Hitems3 : (List.length rows <= 3)%nat).
  { destruct filings as [| | | s | fl |]; try discriminate Htop;
      injection Htop as <-.
    - destruct (substring 0 3 s) as [| c s'];
        cbn [py_iter chars] in Hitems; injection Hitems as <-.
      + injection Hrows as <-. simpl. lia.
      + discriminate Hrows.
    - cbn [py_iter] in Hitems. injection Hitems as <-.
      rewrite (mapM_length _ _ Hrows). exact (firstn_le_length 3 fl). }
  split; [exact Hitems3 |].
  intros fl Hfl. rewrite Hfl in Htop. injection Htop as <-.
  cbn [py_iter] in Hitems. injection Hitems as <-. exact Hrows.
Qed.
End FoundationFacts.

Lemma foundation_details_keep_three_filings_witness :
  exists details,
    get_foundation_details details_http "416038262" = Some details
    /\ exists data org filings rows,
         details_http (PROPUBLICA_BASE_URL ++ "/organizations/" ++ "416038262" ++ ".json") []
           = Reply 200 (Some (JDict data))
         /\ org = match lookup "organization" data with Some o => o | None => JDict [] end
         /\ filings = match lookup "filings_with_data" data with
                      | Some f => f
                      | None => JList []
                      end
         /\ py_get details "ein" JNull = Ok (JStr "416038262")
         /\ py_get details "name" JNull = py_get org "name" JNull
         /\ py_get details "recent_filings" JNull = Ok (JList rows)
         /\ (List.length rows <= 3)%nat
         /\ (forall fl, filings = JList fl -> mapM filing_row (firstn 3 fl) = Ok rows).
Proof.
  eexists. split; [reflexivity |].
  apply (@foundation_details_keep_three_filings details_http "416038262").
  reflexivity.
Defined.

(** ** The orchestrator, continued *)

Lemma mapM_Forall2 {A B : Type} (f : A -> result B) (xs : list A) (ys : list B) :
  mapM f xs = Ok ys <-> Forall2 (fun x y => f x = Ok y) xs ys.
Proof.
  revert ys. induction xs as [| x xs IH]; simpl; intros ys.
  - split.
    + intros [= <-]. constructor.
    + intros H. inversion H. reflexivity.
  - split.
    + intros H. inv_bind H as y Hy. inv_bind H as zs Hzs. injection H as <-.
      constructor; [exact Hy | apply IH; exact Hzs].
    + intros H. inversion H as [| ? y ? zs Hy Hzs]; subst.
      rewrite Hy. simpl. apply IH in Hzs. rewrite Hzs. reflexivity.
Qed.

Lemma mapM_Raise {A B : Type} (f : A -> result B) (xs : list A) (x : A) (e : py_exn) :
  In x xs -> f x = Raise e -> exists e', mapM f xs = Raise e'.
Proof.
  intros Hin Hx. induction xs as [| y xs IH]; simpl in *; [contradiction |].
  destruct Hin as [-> | Hin].
  - rewrite Hx. eexists. reflexivity.
  - destruct (f y) as [b |]; simpl; [| eexists; reflexivity].
    destruct (IH Hin) as (e' & ->). eexists. reflexivity.
Qed.

Lemma error_dictionary_rating (v : json) :
  calculate_capacity_rating (JDict [("error", v)]) = Ok empty_rating.
Proof. reflexivity. Qed.

Section OrchestratorExtras.
Variable http_get : string -> list (string * string) -> http_reply.
Variable py_str : json -> string.
Variable exn_str : py_exn -> string.
Variable now_isoformat : config -> string.

Abbreviation research' := (research_company http_get py_str exn_str now_isoformat).
Abbreviation research_all' := (research_all_companies http_get py_str exn_str now_isoformat).
Abbreviation ranking' := (main_ranking http_get py_str exn_str now_isoformat).

Lemma research_company_Profile (c : config) (p : profile) :
  research' c = Ok (Profile p) <->
  exists a cik,
    get_cik_from_ticker http_get py_str (cfg_ticker c) = Some (String a cik)
    /\ get_company_info http_get exn_str (cfg_ticker c) (String a cik) = Info (company p)
    /\ financials p = get_company_financials http_get exn_str (String a cik)
    /\ foundation_search p = search_foundation http_get (cfg_name c)
    /\ foundation_details p =
       match foundation_search p with
       | Some hit => get_foundation_details http_get (py_str (fh_ein hit))
       | None => None
       end
    /\ calculate_capacity_rating (financials p) = Ok (capacity p)
    /\ assess_mission_alignment (company p) = Ok (alignment_of p)
    /\ ticker p = cfg_ticker c
    /\ config_of p = c
    /\ researched_at p = now_isoformat c.
Proof.
  unfold research_company. split.
  - destruct (get_cik_from_ticker http_get py_str (cfg_ticker c)) as [[| a cik] |];
      try discriminate.
    destruct (get_company_info http_get exn_str (cfg_ticker c) (String a cik))
      as [info | err] eqn:Hinfo; try discriminate.
    intros H. inv_bind H as cap Hcap. inv_bind H as al Hal.
    injection H as <-. exists a, cik. cbn [company financials foundation_search
      foundation_details capacity alignment_of ticker config_of researched_at].
    repeat split; auto.
  - intros (a & cik & Hcik & Hinfo & Hfin & Hfs & Hfd & Hcap & Hal & Ht & Hc & Hr).
    rewrite Hcik, Hinfo. rewrite <- Hfin, Hcap. cbn [bind]. rewrite Hal. cbn [bind].
    rewrite <- Hfs, <- Hfd, <- Ht, <- Hr. rewrite <- Hc at 1.
    destruct p; reflexivity.
Qed.

Lemma company_info_identity (t cik : string) (info : json) :
  get_company_info http_get exn_str t cik = Info info ->
  py_get info "cik" JNull = Ok (JStr cik)
  /\ py_get info "ticker" JNull = Ok (JStr (upper t)).
Proof.
  unfold get_company_info.
  destruct (_ <- requests_get http_get _ _ ;; _) as [d | e] eqn:Hrun; [| discriminate].
  intros [= <-].
  inv_bind Hrun as r Hr. inv_bind Hrun as u Hu. inv_bind Hrun as data Hdata.
  inv_bind Hrun as name Hname. inv_bind Hrun as sic Hsic.
  inv_bind Hrun as sd Hsd. inv_bind Hrun as st Hst. inv_bind Hrun as fy Hfy.
  inv_bind Hrun as ph Hph. inv_bind Hrun as ad Had. inv_bind Hrun as bu Hbu.
  injection Hrun as <-. split; reflexivity.
Qed.

Lemma resolved_cik_length (t cik : string) :
  get_cik_from_ticker http_get py_str t = Some cik ->
  (10 <= String.length cik)%nat.
Proof.
  unfold get_cik_from_ticker.
  destruct (_ <- requests_get http_get _ _ ;; _) as [[c0 |] | e] eqn:Hrun;
    try discriminate.
  intros [= ->].
  inv_bind Hrun as r Hr. inv_bind Hrun as u Hu. inv_bind Hrun as table Ht.
  inv_bind Hrun as entries He.
  apply find_cik_Some in Hrun.
  destruct Hrun as (before & entry & after & c & _ & _ & _ & _ & ->).
  rewrite zfill_length. lia.
Qed.

Lemma Forall2_In_l {A B : Type} (R : A -> B -> Prop) (xs : list A) (ys : list B) (x : A) :
  Forall2 R xs ys -> In x xs -> exists y, In y ys /\ R x y.
Proof.
  induction 1 as [| x0 y0 xs ys Hxy _ IH]; simpl; [contradiction |].
  intros [-> | Hin].
  - exists y0. auto.
  - destruct (IH Hin) as (y & Hy & Hr). exists y. auto.
Qed.

Lemma Forall2_In_r {A B : Type} (R : A -> B -> Prop) (xs : list A) (ys : list B) (y : B) :
  Forall2 R xs ys -> In y ys -> exists x, In x xs /\ R x y.
Proof.
  induction 1 as [| x0 y0 xs ys Hxy _ IH]; simpl; [contradiction |].
  intros [-> | Hin].
  - exists x0. auto.
  - destruct (IH Hin) as (x & Hx & Hr). exists x. auto.
Qed.

Lemma ranking_In (results : list research_result) (p : profile) :
  In p (priority_ranking results) <-> In (Profile p) results.
Proof.
  unfold priority_ranking. rewrite <- valid_results_In.
  split; apply Permutation_in;
    [| apply Permutation_sym]; apply sorted_reverse_Permutation.
Qed.

Lemma valid_results_length (results : list research_result) :
  (List.length (valid_results results) <= List.length results)%nat.
Proof.
  induction results as [| [msg | p] results IH]; simpl; lia.
Qed.

(** X16.  A profile is consistent with the company it was made for: it
    carries the symbol as configured and the configuration itself, its
    company record carries the symbol in upper case and the resolved
    identifier, of ten characters at least; its capacity and alignment
    are those of its own financials and company record; and it has
    foundation details only when the search found a foundation. *)
Theorem profile_is_consistent (c : config) (p : profile) :
  research' c = Ok (Profile p) ->
  ticker p = cfg_ticker c
  /\ config_of p = c
  /\ py_get (company p) "ticker" JNull = Ok (JStr (upper (cfg_ticker c)))
  /\ (exists cik, py_get (company p) "cik" JNull = Ok (JStr cik)
                  /\ (10 <= String.length cik)%nat
                  /\ get_cik_from_ticker http_get py_str (cfg_ticker c) = Some cik)
  /\ calculate_capacity_rating (financials p) = Ok (capacity p)
  /\ assess_mission_alignment (company p) = Ok (alignment_of p)
  /\ (foundation_search p = None -> foundation_details p = None).
Proof.
  intros H. apply research_company_Profile in H.
  destruct H as (a & cik & Hcik & Hinfo & Hfin & Hfs & Hfd & Hcap & Hal & Ht & Hc & Hr).
  destruct (company_info_identity _ _ Hinfo) as [Hi1 Hi2].
  split; [exact Ht |]. split; [exact Hc |]. split; [exact Hi2 |].
  split.
  { exists (String a cik). split; [exact Hi1 |].
    split; [eapply resolved_cik_length; exact Hcik | exact Hcik]. }
  split; [exact Hcap |]. split; [exact Hal |].
  intros Hnone. rewrite Hfd, Hnone. reflexivity.
Qed.

(** X17.  A company whose financial facts cannot be had is not a failure:
    it is profiled with the rating of an empty snapshot (score 0,
    STANDARD, three "unavailable" lines) and takes part in the priority
    ranking of every run that completes. *)
Theorem company_without_financials_is_still_ranked
        (c : config) (a : ascii) (cik : string) (info : json) (al : alignment)
        (msg : json) :
  get_cik_from_ticker http_get py_str (cfg_ticker c) = Some (String a cik) ->
  get_company_info http_get exn_str (cfg_ticker c) (String a cik) = Info info ->
  assess_mission_alignment info = Ok al ->
  get_company_financials http_get exn_str (String a cik) = JDict [("error", msg)] ->
  exists p,
    research' c = Ok (Profile p)
    /\ capacity p = empty_rating
    /\ forall companies ranking,
         In c companies ->
         ranking' companies = Ok ranking ->
         In p ranking.
Proof.
  intros Hcik Hinfo Hal Hfin.
  assert (Hres : exists p, research' c = Ok (Profile p) /\ capacity p = empty_rating).
  { unfold research_company. rewrite Hcik, Hinfo, Hfin, error_dictionary_rating.
    cbn [bind]. rewrite Hal. cbn [bind]. eexists. split; reflexivity. }
  destruct Hres as (p & Hp & Hcap). exists p.
  split; [exact Hp |]. split; [exact Hcap |].
  intros companies ranking Hin Hrun.
  unfold main_ranking in Hrun. inv_bind Hrun as results Hresults.
  injection Hrun as <-.
  apply mapM_Forall2 in Hresults.
  destruct (Forall2_In_l _ Hresults Hin) as (r & Hr & Hcr).
  rewrite Hp in Hcr. injection Hcr as <-.
  apply ranking_In. exact Hr.
Qed.

(** X18.  An industry description that is not a string (a JSON [null])
    is fatal.  The exception of [assess_mission_alignment] is caught
    nowhere: the company gets neither a profile nor a failure record, and
    every run over a list that holds the company raises, with no result
    for any company. *)
Theorem non_text_industry_aborts_the_run
        (c : config) (a : ascii) (cik : string) (info v : json)
        (companies : list config) :
  get_cik_from_ticker http_get py_str (cfg_ticker c) = Some (String a cik) ->
  get_company_info http_get exn_str (cfg_ticker c) (String a cik) = Info info ->
  py_get info "sic_description" (JStr "") = Ok v ->
  ~ is_text v ->
  In c companies ->
  (exists e, research' c = Raise e)
  /\ (exists e, research_all' companies = Raise e)
  /\ (exists e, ranking' companies = Raise e).
Proof.
  intros Hcik Hinfo Hv Htext Hin.
  assert (Hal : assess_mission_alignment info = Raise AttributeError).
  { unfold assess_mission_alignment. rewrite Hv. cbn [bind].
    destruct v; try reflexivity. exfalso. apply Htext. eexists. reflexivity. }
  assert (Hres : exists e, research' c = Raise e).
  { unfold research_company. rewrite Hcik, Hinfo.
    destruct (calculate_capacity_rating _) as [cap | e]; cbn [bind].
    - rewrite Hal. eexists. reflexivity.
    - eexists. reflexivity. }
  split; [exact Hres |].
  destruct Hres as (e & He).
  destruct (@mapM_Raise _ _ research' companies c e Hin He) as (e' & He').
  split.
  - exists e'. exact He'.
  - exists e'. unfold main_ranking, research_all_companies. rewrite He'. reflexivity.
Qed.

(** X19.  A run that completes has one result per company, in the order
    of the list, each the research of its company; the ranking holds
    exactly the profiles among them, so every ranked profile is the
    research of its own configuration, a company of the list, and the
    ranking is never longer than the list. *)
Theorem ranking_holds_the_profiles_of_the_run
        (companies : list config) (ranking : list profile) :
  ranking' companies = Ok ranking ->
  exists results,
    research_all' companies = Ok results
    /\ Forall2 (fun c r => research' c = Ok r) companies results
    /\ List.length results = List.length companies
    /\ (forall p, In p ranking <-> In (Profile p) results)
    /\ (forall p, In p ranking ->
                  In (config_of p) companies
                  /\ research' (config_of p) = Ok (Profile p))
    /\ (List.length ranking <= List.length companies)%nat.
Proof.
  intros Hrun. unfold main_ranking in Hrun. inv_bind Hrun as results Hresults.
  injection Hrun as <-. exists results.
  split; [exact Hresults |].
  pose proof Hresults as HF. apply mapM_Forall2 in HF.
  split; [exact HF |].
  assert (Hlen : List.length results = List.length companies).
  { symmetry. eapply Forall2_length. exact HF. }
  split; [exact Hlen |].
  split; [intros p; apply ranking_In |].
  split.
  - intros p Hp. apply ranking_In in Hp.
    destruct (Forall2_In_r _ HF Hp) as (c & Hc & Hcr).
    pose proof Hcr as Hcfg. apply research_company_Profile in Hcfg.
    destruct Hcfg as (a & cik & _ & _ & _ & _ & _ & _ & _ & _ & Hcfg & _).
    rewrite Hcfg. split; [exact Hc | exact Hcr].
  - unfold priority_ranking.
    rewrite (Permutation_length (sorted_reverse_Permutation capacity_score Qltb _)).
    rewrite <- Hlen. apply valid_results_length.
Qed.

(** X20.  [research_company] returns a failure record in two cases only:
    the identifier is not resolved ([None], or an empty string), with the
    message that names the symbol; or [get_company_info] fails, with the
    text of its exception.  A failure of the financial facts, of the
    foundation search or of the foundation details never gives one. *)
Theorem failure_records_come_from_identifier_or_info (c : config) (msg : string) :
  research' c = Ok (Failure msg) <->
  ((get_cik_from_ticker http_get py_str (cfg_ticker c) = None
    \/ get_cik_from_ticker http_get py_str (cfg_ticker c) = Some "")
   /\ msg = "Could not find CIK for " ++ cfg_ticker c)
  \/ (exists a cik,
        get_cik_from_ticker http_get py_str (cfg_ticker c) = Some (String a cik)
        /\ get_company_info http_get exn_str (cfg_ticker c) (String a cik) = InfoError msg).
Proof.
  unfold research_company. split.
  - destruct (get_cik_from_ticker http_get py_str (cfg_ticker c)) as [[| a cik] |].
    + intros [= <-]. left. auto.
    + destruct (get_company_info http_get exn_str (cfg_ticker c) (String a cik))
        as [info | err] eqn:Hinfo.
      * intros H. inv_bind H as cap Hcap. inv_bind H as al Hal. discriminate H.
      * intros [= <-]. right. exists a, cik. split; [reflexivity | exact Hinfo].
    + intros [= <-]. left. auto.
  - intros [[[H | H] ->] | (a & cik & Hcik & Hinfo)].
    + rewrite H. reflexivity.
    + rewrite H. reflexivity.
    + rewrite Hcik, Hinfo. reflexivity.
Qed.
End OrchestratorExtras.

Lemma profile_is_consistent_witness :
  exists p,
    research_company sample_http sample_str sample_exn_str sample_clock mmm_config
      = Ok (Profile p)
    /\ ticker p = "MMM"
    /\ config_of p = mmm_config
    /\ py_get (company p) "ticker" JNull = Ok (JStr (upper "MMM"))
    /\ (exists cik, py_get (company p) "cik" JNull = Ok (JStr cik)
                    /\ (10 <= String.length cik)%nat
                    /\ get_cik_from_ticker sample_http sample_str "MMM" = Some cik)
    /\ calculate_capacity_rating (financials p) = Ok (capacity p)
    /\ assess_mission_alignment (company p) = Ok (alignment_of p)
    /\ (foundation_search p = None -> foundation_details p = None).
Proof.
  eexists. split; [vm_compute; reflexivity |].
  apply (@profile_is_consistent sample_http sample_str sample_exn_str sample_clock
           mmm_config).
  vm_compute. reflexivity.
Defined.

Lemma company_without_financials_is_still_ranked_witness :
  exists p,
    research_company facts_outage_http sample_str sample_exn_str sample_clock mmm_config
      = Ok (Profile p)
    /\ capacity p = empty_rating
    /\ forall companies ranking,
         In mmm_config companies ->
         main_ranking facts_outage_http sample_str sample_exn_str sample_clock companies
           = Ok ranking ->
         In p ranking.
Proof.
  eapply (@company_without_financials_is_still_ranked
            facts_outage_http sample_str sample_exn_str sample_clock mmm_config);
    vm_compute; reflexivity.
Defined.

Lemma non_text_industry_aborts_the_run_witness :
  (exists e, research_company null_industry_http sample_str sample_exn_str sample_clock
               mmm_config = Raise e)
  /\ (exists e, research_all_companies null_industry_http sample_str sample_exn_str
                  sample_clock MINNESOTA_COMPANIES = Raise e)
  /\ (exists e, main_ranking null_industry_http sample_str sample_exn_str
                  sample_clock MINNESOTA_COMPANIES = Raise e).
Proof.
  eapply (@non_text_industry_aborts_the_run
            null_industry_http sample_str sample_exn_str sample_clock mmm_config
            _ _ _ JNull).
  - vm_compute. reflexivity.
  - vm_compute. reflexivity.
  - reflexivity.
  - intros (s & Hs). discriminate Hs.
  - right. left. reflexivity.
Defined.

Lemma ranking_holds_the_profiles_of_the_run_witness :
  exists ranking,
    main_ranking sample_http sample_str sample_exn_str sample_clock MINNESOTA_COMPANIES
      = Ok ranking
    /\ exists results,
         research_all_companies sample_http sample_str sample_exn_str sample_clock
           MINNESOTA_COMPANIES = Ok results
         /\ Forall2 (fun c r => research_company sample_http sample_str sample_exn_str
                                  sample_clock c = Ok r) MINNESOTA_COMPANIES results
         /\ List.length results = List.length MINNESOTA_COMPANIES
         /\ (forall p, In p ranking <-> In (Profile p) results)
         /\ (forall p, In p ranking ->
                       In (config_of p) MINNESOTA_COMPANIES
                       /\ research_company sample_http sample_str sample_exn_str
                            sample_clock (config_of p) = Ok (Profile p))
         /\ (List.length ranking <= List.length MINNESOTA_COMPANIES)%nat.
Proof.
  eexists. split; [vm_compute; reflexivity |].
  apply (@ranking_holds_the_profiles_of_the_run
           sample_http sample_str sample_exn_str sample_clock MINNESOTA_COMPANIES).
  vm_compute. reflexivity.
Defined.

Lemma failure_records_come_from_identifier_or_info_witness :
  research_company sample_http sample_str sample_exn_str sample_clock target_config
    = Ok (Failure "Could not find CIK for TGT").
Proof.
  apply (proj2 (@failure_records_come_from_identifier_or_info
                  sample_http sample_str sample_exn_str sample_clock
                  target_config "Could not find CIK for TGT")).
  left. split; [left; reflexivity | reflexivity].
Defined.

(** ** AlignmentScorer, continued *)

(** X21.  The alignment level is decided by the healthcare and retail
    terms alone: it is HIGH exactly when the description contains one of
    them and MEDIUM otherwise; a manufacturing term adds a point and a
    factor and never changes the level.  The score is 2 plus 3, 2 and 1
    for the groups found, so at most 8, and there is one factor for each
    group found and one for the locality. *)
Theorem alignment_level_ignores_manufacturing (company : json) (r : alignment) :
  assess_mission_alignment company = Ok r ->
  exists desc,
    industry_text company = Ok desc
    /\ let h := any_in healthcare_terms desc in
       let t := any_in retail_terms desc in
       let m := any_in manufacturing_terms desc in
       alignment_score r = 2 + 3 * Z_of_bool h + 2 * Z_of_bool t + Z_of_bool m
       /\ alignment_score r <= 8
       /\ (level r = "HIGH" <-> h || t = true)
       /\ (level r = "MEDIUM" <-> h || t = false)
       /\ Z.of_nat (List.length (factors r))
          = 1 + Z_of_bool h + Z_of_bool t + Z_of_bool m.
Proof.
  intros H.
  destruct (assess_mission_alignment_Ok _ H) as (desc & Hdesc).
  exists desc. split; [exact Hdesc |].
  rewrite (assess_mission_alignment_text _ Hdesc) in H.
  revert H.
  generalize (any_in healthcare_terms desc) (any_in retail_terms desc)
             (any_in manufacturing_terms desc).
  intros [] [] [] [= <-]; cbv; repeat split; intros; try discriminate; reflexivity.
Qed.

Lemma alignment_level_ignores_manufacturing_witness :
  exists r,
    assess_mission_alignment
      (JDict [("sic_description", JStr "Industrial Inorganic Chemicals")]) = Ok r
    /\ exists desc,
         industry_text
           (JDict [("sic_description", JStr "Industrial Inorganic Chemicals")]) = Ok desc
         /\ let h := any_in healthcare_terms desc in
            let t := any_in retail_terms desc in
            let m := any_in manufacturing_terms desc in
            alignment_score r = 2 + 3 * Z_of_bool h + 2 * Z_of_bool t + Z_of_bool m
            /\ alignment_score r <= 8
            /\ (level r = "HIGH" <-> h || t = true)
            /\ (level r = "MEDIUM" <-> h || t = false)
            /\ Z.of_nat (List.length (factors r))
               = 1 + Z_of_bool h + Z_of_bool t + Z_of_bool m.
Proof.
  eexists. split; [reflexivity |].
  apply alignment_level_ignores_manufacturing. reflexivity.
Defined.

Lemma any_in_true (terms : list string) (s : string) :
  any_in terms s = true <-> exists term a b, In term terms /\ s = a ++ term ++ b.
Proof.
  unfold any_in. rewrite existsb_exists. split.
  - intros (term & Hin & Hs). apply str_in_append in Hs.
    destruct Hs as (a & b & ->). exists term, a, b. auto.
  - intros (term & a & b & Hin & ->). exists term. split; [exact Hin |].
    apply str_in_append. eauto.
Qed.

(** X22.  The keyword tests are substring tests on the lower-cased
    description: a healthcare term anywhere in the description, in any
    letter case and inside a longer word, gives the healthcare factor
    and the level HIGH. *)
Theorem healthcare_term_matches_inside_words
        (d : list (string * json)) (a t b term : string) :
  lookup "sic_description" d = Some (JStr (a ++ t ++ b)) ->
  lower t = term ->
  In term healthcare_terms ->
  exists r,
    assess_mission_alignment (JDict d) = Ok r
    /\ In healthcare_factor (factors r)
    /\ level r = "HIGH"
    /\ 5 <= alignment_score r.
Proof.
  intros Hd Ht Hin.
  assert (Hdesc : industry_text (JDict d) = Ok (lower a ++ term ++ lower b)).
  { unfold industry_text. cbn [py_get bind]. rewrite Hd. cbn [py_lower].
    rewrite !lower_append, Ht. reflexivity. }
  rewrite (assess_mission_alignment_text _ Hdesc).
  assert (Hh : any_in healthcare_terms (lower a ++ term ++ lower b) = true).
  { apply any_in_true. exists term, (lower a), (lower b). auto. }
  rewrite Hh. eexists. split; [reflexivity |].
  generalize (any_in retail_terms (lower a ++ term ++ lower b))
             (any_in manufacturing_terms (lower a ++ term ++ lower b)).
  intros [] []; cbv; repeat split; auto; discriminate.
Qed.

Lemma healthcare_term_matches_inside_words_witness :
  exists r,
    assess_mission_alignment
      (JDict [("sic_description", JStr "Allied HEALTHcare Products")]) = Ok r
    /\ In healthcare_factor (factors r)
    /\ level r = "HIGH"
    /\ 5 <= alignment_score r.
Proof.
  apply (@healthcare_term_matches_inside_words
           [("sic_description", JStr "Allied HEALTHcare Products")]
           "Allied " "HEALTH" "care Products" "health").
  - reflexivity.
  - reflexivity.
  - left. reflexivity.
Defined.

(** ** The priority ranking, continued *)

Section SortedMore.
Variables (A K : Type) (key : A -> K) (ltb : K -> K -> bool).

Lemma sort_by_sorted_id (l : list A) :
  StronglySorted (ascending key ltb) l -> sort_by key ltb l = l.
Proof.
  induction 1 as [| x l Hl IH Hx]; simpl; [reflexivity |].
  rewrite IH. destruct l as [| y l']; [reflexivity |].
  simpl. inversion Hx as [| ? ? Hxy _]; subst.
  unfold ascending in Hxy. rewrite Hxy. reflexivity.
Qed.

Lemma sorted_reverse_sorted_id (l : list A) :
  StronglySorted (descending key ltb) l -> sorted_reverse key ltb l = l.
Proof.
  intros H. unfold sorted_reverse.
  rewrite sort_by_sorted_id; [apply rev_involutive |].
  exact (StronglySorted_rev H).
Qed.

Lemma filter_head (f : A -> bool) (l : list A) (x : A) (t : list A) :
  filter f l = x :: t ->
  exists before after,
    l = (before ++ x :: after)%list
    /\ Forall (fun y => f y = false) before
    /\ f x = true.
Proof.
  induction l as [| y l IH]; simpl; [discriminate |].
  destruct (f y) eqn:Hy.
  - intros [= -> <-]. exists [], l. repeat split; auto.
  - intros H. destruct (IH H) as (before & after & -> & Hb & Hx).
    exists (y :: before), after. repeat split; auto.
Qed.
End SortedMore.

Lemma valid_results_map_Profile (l : list profile) :
  valid_results (map Profile l) = l.
Proof.
  induction l as [| p l IH]; simpl; [reflexivity | rewrite IH; reflexivity].
Qed.

(** X23.  The first prospect of the ranking has the highest capacity
    score of all profiles, and among the profiles with that score it is
    the one researched first: every profile in front of it in the
    results has a strictly smaller score. *)
Theorem top_prospect_is_first_with_highest_score
        (results : list research_result) (p : profile) (rest : list profile) :
  priority_ranking results = p :: rest ->
  (forall q, In (Profile q) results -> (capacity_score q <= capacity_score p)%Q)
  /\ exists before after,
       valid_results results = (before ++ p :: after)%list
       /\ Forall (fun q => (capacity_score q < capacity_score p)%Q) before.
Proof.
  intros Hrank.
  assert (Hmax : forall q, In q (valid_results results) ->
                           (capacity_score q <= capacity_score p)%Q).
  { intros q Hq.
    assert (Hin : In q (priority_ranking results)).
    { unfold priority_ranking. eapply Permutation_in; [| exact Hq].
      apply Permutation_sym, sorted_reverse_Permutation. }
    pose proof (@sorted_reverse_descending _ _ capacity_score Qltb
                  Qltb_asym Qltb_negtrans (valid_results results)) as Hs.
    fold (priority_ranking results) in Hs. rewrite Hrank in Hs, Hin.
    inversion Hs as [| ? ? _ Hall]; subst.
    destruct Hin as [<- | Hin]; [apply Qle_refl |].
    rewrite Forall_forall in Hall. apply Hall in Hin.
    apply Qltb_false. exact Hin. }
  split.
  { intros q Hq. apply Hmax. apply valid_results_In. exact Hq. }
  pose proof (@sorted_reverse_stable _ _ capacity_score Qltb
                Qltb_negtrans (capacity_score p) (valid_results results)) as Hst.
  fold (priority_ranking results) in Hst. rewrite Hrank in Hst.
  assert (Hp : same_key capacity_score Qltb (capacity_score p) p = true).
  { rewrite same_key_Qeq. apply Qeq_bool_iff. reflexivity. }
  cbn [filter] in Hst. rewrite Hp in Hst. symmetry in Hst.
  apply filter_head in Hst.
  destruct Hst as (before & after & Hsplit & Hbefore & _).
  exists before, after. split; [exact Hsplit |].
  rewrite Forall_forall in *. intros q Hq.
  pose proof (Hbefore q Hq) as Hne. rewrite same_key_Qeq in Hne.
  assert (Hle : (capacity_score q <= capacity_score p)%Q).
  { apply Hmax. rewrite Hsplit. apply in_or_app. left. exact Hq. }
  destruct (Qlt_le_dec (capacity_score q) (capacity_score p)) as [Hlt | Hge];
    [exact Hlt |].
  assert (Heq : (capacity_score q == capacity_score p)%Q) by lra.
  apply Qeq_bool_iff in Heq. congruence.
Qed.

Lemma top_prospect_is_first_with_highest_score_witness :
  priority_ranking sample_run
    = [sample_profile "CCC" 7; sample_profile "DDD" 7; sample_profile "AAA" 3]
  /\ (forall q, In (Profile q) sample_run ->
                (capacity_score q <= capacity_score (sample_profile "CCC" 7))%Q)
  /\ exists before after,
       valid_results sample_run = (before ++ sample_profile "CCC" 7 :: after)%list
       /\ Forall (fun q => (capacity_score q < capacity_score (sample_profile "CCC" 7))%Q)
                 before.
Proof.
  split; [reflexivity |].
  apply (@top_prospect_is_first_with_highest_score sample_run
           (sample_profile "CCC" 7) [sample_profile "DDD" 7; sample_profile "AAA" 3]).
  reflexivity.
Defined.

(** X24.  Results that already stand in descending order of score are
    ranked as they stand; so ranking the profiles of a ranking again
    changes nothing. *)
Theorem ranking_keeps_an_ordered_run (results : list research_result) :
  (StronglySorted (fun a b => (capacity_score b <= capacity_score a)%Q)
     (valid_results results) ->
   priority_ranking results = valid_results results)
  /\ priority_ranking (map Profile (priority_ranking results))
     = priority_ranking results.
Proof.
  split.
  - intros H. unfold priority_ranking. apply sorted_reverse_sorted_id.
    apply StronglySorted_weaken with (2 := H).
    intros a b Hab. apply Qltb_false. exact Hab.
  - unfold priority_ranking at 1. rewrite valid_results_map_Profile.
    apply sorted_reverse_sorted_id.
    exact (@sorted_reverse_descending _ _ capacity_score Qltb
             Qltb_asym Qltb_negtrans (valid_results results)).
Qed.

Lemma ranking_keeps_an_ordered_run_witness :
  priority_ranking ordered_run = valid_results ordered_run.
Proof.
  apply (proj1 (ranking_keeps_an_ordered_run ordered_run)).
  repeat constructor; unfold Qle; simpl; lia.
Defined.

(** ** Doubles, continued *)

Lemma iter_xO_pow2 (d m : positive) :
  Z.pos (Pos.iter xO m d) = Z.pos m * 2 ^ Z.pos d.
Proof.
  induction d as [| d IH] using Pos.peano_ind.
  - simpl. lia.
  - rewrite Pos.iter_succ. rewrite Pos2Z.inj_succ, Z.pow_succ_r by lia.
    replace (Z.pos (Pos.iter xO m d)~0) with (2 * Z.pos (Pos.iter xO m d)) by lia.
    rewrite IH. ring.
Qed.

Lemma binary_round_no_overflow (s : bool) (m : positive) :
  Z.pos m < 2 ^ 1023 ->
  exists f, binary_round dprec demax s m 0 = f /\ finite_double f.
Proof.
  intros Hm. unfold binary_round.
  assert (Hd : Zdigits2 (Z.pos m) <= 1023)
    by (apply Zdigits2_le; [lia | lia | exact Hm]).
  pose proof (@Zdigits2_gt (Z.pos m)) as Hgt.
  assert (Hd1 : 1 <= Zdigits2 (Z.pos m)) by (simpl; lia).
  change (Z.pos (digits2_pos m)) with (Zdigits2 (Z.pos m)).
  rewrite fexp_double.
  replace (Z.max (Zdigits2 (Z.pos m) + 0 - 53) (-1074))
    with (Zdigits2 (Z.pos m) - 53) by lia.
  unfold shl_align.
  set (k := Zdigits2 (Z.pos m) - 53) in *.
  assert (Hcases :
    exists mz ez,
      (match k - 0 with
       | Z.neg d => (Pos.iter xO m d, k)
       | _ => (m, 0)
       end) = (mz, ez)
      /\ ez <= 971 /\ Zdigits2 (Z.pos mz) + ez <= 1023).
  { destruct (k - 0) as [| d | d] eqn:Hk.
    - exists m, 0. repeat split; lia.
    - exists m, 0. repeat split; lia.
    - exists (Pos.iter xO m d), k. split; [reflexivity |]. split; [lia |].
      assert (Hle : Zdigits2 (Z.pos (Pos.iter xO m d)) <= 53).
      { apply Zdigits2_le; [lia | lia |].
        rewrite iter_xO_pow2.
        replace 53 with (Zdigits2 (Z.pos m) + Z.pos d) by lia.
        rewrite Z.pow_add_r by lia.
        apply Z.mul_lt_mono_pos_r; [apply pow2_pos; lia | apply Hgt; lia]. }
      lia. }
  destruct Hcases as (mz & ez & -> & Hez & Hsum).
  destruct (@binary_round_aux_spec s (Z.pos mz) ez loc_Exact) as (Hnan & _ & Hinf);
    [lia |].
  specialize (Hinf Hez Hsum).
  eexists. split; [reflexivity |].
  destruct (binary_round_aux dprec demax s (Z.pos mz) ez loc_Exact) as [s0 | s0 | | s0 m0 e0];
    simpl; auto.
  - apply (Hinf s0). reflexivity.
Qed.

Lemma float_of_int_total (z : Z) :
  Z.abs z < 2 ^ 1023 -> exists f, float_of_int z = Ok f.
Proof.
  intros Hz. unfold float_of_int, binary_normalize.
  destruct z as [| m | m].
  - eexists. reflexivity.
  - destruct (@binary_round_no_overflow false m) as (f & -> & Hf); [exact Hz |].
    destruct f; try contradiction; eexists; reflexivity.
  - destruct (@binary_round_no_overflow true m) as (f & -> & Hf); [exact Hz |].
    destruct f; try contradiction; eexists; reflexivity.
Qed.

(** ** CapacityScorer, continued *)

Lemma modest_concept_value (d : list (string * json)) (k : string) :
  modest_concept (lookup k d) ->
  exists z, concept_value (JDict d) k = Ok (JInt z) /\ Z.abs z < 2 ^ 1023.
Proof.
  unfold concept_value, modest_concept. cbn [py_get bind].
  destruct (lookup k d) as [[| | | | | f] |]; try contradiction.
  - intros _. exists 0. split; [reflexivity | reflexivity].
  - destruct f as [| kv f'].
    + intros _. exists 0. split; reflexivity.
    + change (py_or (JDict (kv :: f')) (JDict [])) with (JDict (kv :: f')).
      cbn [py_get bind].
      destruct (lookup "value" (kv :: f')) as [[| | z | | |] |]; try contradiction.
      * intros _. exists 0. split; reflexivity.
      * intros Hz. exists z. split; [| exact Hz].
        destruct z; reflexivity.
      * intros _. exists 0. split; reflexivity.
  - intros _. exists 0. split; reflexivity.
Qed.

Lemma rationale_line_total (label unavailable : string) (z : Z) :
  Z.abs z < 2 ^ 1023 ->
  exists l, rationale_line label unavailable (JInt z) = Ok l.
Proof.
  intros Hz. unfold rationale_line.
  destruct (truthy (JInt z)); [| eexists; reflexivity].
  unfold py_div_1e9. cbn [as_int].
  destruct (@float_of_int_total z Hz) as (f & ->). eexists. reflexivity.
Qed.

(** X25.  [calculate_capacity_rating] is total on the snapshots
    [get_company_financials] produces from integer facts: when each of the
    three concepts it reads is absent, [None], or carries no value or an
    integer value below [2 ^ 1023] in magnitude, no conversion to a double
    overflows and a rating is returned. *)
Theorem capacity_rating_is_total_on_integer_snapshots (d : list (string * json)) :
  modest_concept (lookup "cash_and_equivalents" d) ->
  modest_concept (lookup "net_income" d) ->
  modest_concept (lookup "total_assets" d) ->
  exists r, calculate_capacity_rating (JDict d) = Ok r.
Proof.
  intros Hc Hn Ha.
  destruct (modest_concept_value d "cash_and_equivalents" Hc) as (c & Hcv & Hcb).
  destruct (modest_concept_value d "net_income" Hn) as (n & Hnv & Hnb).
  destruct (modest_concept_value d "total_assets" Ha) as (a & Hav & Hab).
  unfold calculate_capacity_rating.
  rewrite Hcv. cbn [bind]. rewrite Hnv. cbn [bind]. rewrite Hav. cbn [bind].
  cbn [py_add as_int bind py_div_billion].
  destruct (tier_of ((c + n) # 1000000000)) as [rt cl].
  destruct (@rationale_line_total "Cash position: $" "Cash data unavailable" c Hcb)
    as (l1 & ->).
  destruct (@rationale_line_total "Net income: $" "Net income data unavailable" n Hnb)
    as (l2 & ->).
  destruct (@rationale_line_total "Total assets: $" "Assets data unavailable" a Hab)
    as (l3 & ->).
  cbn [bind]. eexists. reflexivity.
Qed.

Lemma capacity_rating_is_total_on_integer_snapshots_witness :
  exists r, calculate_capacity_rating zero_cash_snapshot = Ok r.
Proof.
  apply (@capacity_rating_is_total_on_integer_snapshots
           [("revenue", JNull);
            ("net_income", sample_concept 4138000000);
            ("total_assets", sample_concept 55356000000);
            ("cash_and_equivalents", sample_concept 0);
            ("stockholders_equity", JNull)]);
    reflexivity.
Defined.
